(** * Edge-node delivery pipeline: store, aggregator, uploader, sync worker

    A shallow embedding of
      - [edge_node/db/manager.py]            (the durable store),
      - [edge_node/services/vss_aggregator.py] (the event endpoints),
      - [edge_node/services/vss_uploader.py] (the upload transaction and its loop),
      - [edge_node/services/vss_sync.py]     (package installation and the polls),
      - [edge_node/config_loader.py]         (the camera-id validator),
    followed by the properties of the delivery pipeline stated over it. *)

From Stdlib Require Import ZArith QArith Qminmax Qpower Lqa String Ascii List Bool Lia.
From stdpp Require Import gmap strings.
Import ListNotations.

Local Open Scope string_scope.
Local Open Scope Z_scope.

(** ** Exceptions and results *)

(** The exceptions the modelled code tells apart: [requests]'
    [HTTPError] carries the response status; everything else is caught by
    [except Exception]. *)
Inductive exn :=
| HTTPError (status_code : Z)
| RequestException (what : string)
| ValueError (what : string)
| OSError (what : string)
| IntegrityError (what : string)
| AttributeError (what : string)
| OverflowError (what : string).

Inductive result (A : Type) :=
| Ok (a : A)
| Raise (e : exn).
Arguments Ok {A} a.
Arguments Raise {A} e.

(** Python's [not x] for an optional string: true for [None] and [""]. *)
Definition falsy (x : option string) : bool :=
  match x with
  | None => true
  | Some s => String.eqb s ""
  end.

(** ** The store: [edge_node/db/manager.py] *)

(** Timestamps ([DateTime] columns, [func.now()]) are seconds as [Z]. *)
Definition DateTime := Z.

Module Event.
(** Table [events]. *)
Record t := mk {
  event_id : string;
  json : string;
  status : string;
  created_at : DateTime;
  updated_at : DateTime
}.
End Event.

Module PendingUpload.
(** Table [pending_uploads].  [attempts] is [Mapped[int]] (NOT NULL),
    [last_attempt_ts], [checksum] and [final_url] are [Optional]. *)
Record t := mk {
  upload_id : string;
  event_id : string;
  filepath : string;
  attempts : Z;
  last_attempt_ts : option DateTime;
  status : string;
  checksum : option string;
  final_url : option string
}.
End PendingUpload.

Module KBMeta.
(** Table [kb_meta]. *)
Record t := mk {
  id : Z;
  kb_version : string;
  applied_at : DateTime
}.
End KBMeta.

(** The tables of the database file, rows in insertion order
    ([device_state] is used by none of the modelled services). *)
Record Store := mkStore {
  events : list Event.t;
  pending_uploads : list PendingUpload.t;
  kb_meta : list KBMeta.t
}.

(** The [**kwargs] of [update_upload_status].  The callers in the
    repository pass only [attempts], [checksum] and [final_url].  The outer
    [option] says whether the keyword is present, the inner one is the
    value, [None] being Python's [None] (SQL NULL). *)
Record Kwargs := mkKwargs {
  kw_attempts : option (option Z);
  kw_checksum : option (option string);
  kw_final_url : option (option string)
}.

Definition no_kwargs : Kwargs := mkKwargs None None None.

Module DBManager.

(** The attributes of a [DBManager] object: those [__init__] sets and the
    methods of the class.  The mapped classes [Event], [PendingUpload] and
    [KBMeta] are names of the module [manager.py], not of the manager. *)
Definition attributes : list string :=
  ["db_path"; "schema_path"; "engine"; "SessionLocal"; "initialize_db"; "get_session";
   "get_pending_uploads"; "insert_event"; "update_upload_status"].

(** [hasattr(db_manager, name)] *)
Definition hasattr (name : string) : bool := existsb (String.eqb name) attributes.

(** A Python [int] that the SQLite driver binds to an INTEGER: 64 bits,
    signed.  Any other makes [session.execute] raise [OverflowError]. *)
Definition sqlite_integer (n : Z) : bool := (- 2 ^ 63 <=? n) && (n <? 2 ^ 63).

(** [session.get(PendingUpload, upload_id)] *)
Definition get_upload (s : Store) (upload_id : string) : option PendingUpload.t :=
  find (fun r => String.eqb (PendingUpload.upload_id r) upload_id) (pending_uploads s).

(** [session.get(Event, event_id)] *)
Definition get_event (s : Store) (event_id : string) : option Event.t :=
  find (fun e => String.eqb (Event.event_id e) event_id) (events s).

(** [get_pending_uploads]: [select(PendingUpload).where(status ==
    "PENDING_UPLOAD").limit(limit)]. *)
Definition get_pending_uploads (s : Store) (limit : nat) : list PendingUpload.t :=
  firstn limit
    (filter (fun r => String.eqb (PendingUpload.status r) "PENDING_UPLOAD")
            (pending_uploads s)).

(** [insert_event]: the event row and its pending upload, both
    [PENDING_UPLOAD]; [upload_id = f"upload-{event_id}"].  A duplicate
    primary key makes the commit fail. *)
Definition insert_event (s : Store) (now : DateTime)
    (event_id event_json local_clip_path : string) : result (Store * (string * string)) :=
  let upload_id := String.append "upload-" event_id in
  match get_event s event_id, get_upload s upload_id with
  | None, None =>
      Ok (mkStore
            (events s ++ [Event.mk event_id event_json "PENDING_UPLOAD" now now])
            (pending_uploads s ++
               [PendingUpload.mk upload_id event_id local_clip_path 0 None
                                 "PENDING_UPLOAD" None None])
            (kb_meta s),
          (event_id, upload_id))
  | _, _ => Raise (IntegrityError "UNIQUE constraint failed")
  end.

(** The SET clause of the UPDATE on [pending_uploads]:
    [values(status=status, last_attempt_ts=func.now(), **kwargs)].
    A column whose keyword is absent keeps its value.  [attempts] is
    written only with a non-NULL value here; the NULL case is refused
    before (see [update_upload_status]). *)
Definition set_values (now : DateTime) (status : string) (kw : Kwargs)
    (r : PendingUpload.t) : PendingUpload.t :=
  PendingUpload.mk
    (PendingUpload.upload_id r)
    (PendingUpload.event_id r)
    (PendingUpload.filepath r)
    (match kw_attempts kw with
     | Some (Some n) => n
     | _ => PendingUpload.attempts r
     end)
    (Some now)
    status
    (match kw_checksum kw with
     | Some v => v
     | None => PendingUpload.checksum r
     end)
    (match kw_final_url kw with
     | Some v => v
     | None => PendingUpload.final_url r
     end).

(** [update(PendingUpload).where(PendingUpload.upload_id == upload_id)] *)
Definition update_uploads_where (upload_id : string)
    (f : PendingUpload.t -> PendingUpload.t) (rows : list PendingUpload.t) :=
  map (fun r => if String.eqb (PendingUpload.upload_id r) upload_id then f r else r) rows.

(** [update(Event).where(Event.event_id == event_id).values(status=status)];
    [updated_at] has [onupdate=func.now()]. *)
Definition update_events_where (event_id : string) (now : DateTime)
    (status : string) (rows : list Event.t) :=
  map (fun e =>
         if String.eqb (Event.event_id e) event_id
         then Event.mk (Event.event_id e) (Event.json e) status (Event.created_at e) now
         else e) rows.

Definition is_final (status : string) : bool :=
  existsb (String.eqb status) ["UPLOADED"; "FAILED"].

(** What makes [session.execute(stmt)] raise on the UPDATE of
    [pending_uploads]: an [attempts] value that is not a 64-bit integer
    cannot be bound, whether or not a row matches; NULL is refused by the
    NOT NULL column [attempts] when a row matches. *)
Definition execute_error (s : Store) (upload_id : string) (kw : Kwargs) : option exn :=
  match kw_attempts kw with
  | Some (Some n) =>
      if sqlite_integer n then None
      else Some (OverflowError "Python int too large to convert to SQLite INTEGER")
  | Some None =>
      match get_upload s upload_id with
      | Some _ =>
          Some (IntegrityError "NOT NULL constraint failed: pending_uploads.attempts")
      | None => None
      end
  | None => None
  end.

(** [update_upload_status(upload_id, status, **kwargs)].

    The UPDATE has no condition other than the primary key.  When
    [session.execute] raises, the [with] block is left without a commit and
    the store is as before.  With a final status the companion event is
    updated in the same transaction. *)
Definition update_upload_status (s : Store) (now : DateTime)
    (upload_id : string) (status : string) (kw : Kwargs) : result Store :=
  match execute_error s upload_id kw with
  | Some e => Raise e
  | None =>
      let uploads' :=
        update_uploads_where upload_id (set_values now status kw) (pending_uploads s) in
      let s1 := mkStore (events s) uploads' (kb_meta s) in
      if is_final status then
        match get_upload s1 upload_id with
        | Some upload =>
            Ok (mkStore
                  (update_events_where (PendingUpload.event_id upload) now status (events s1))
                  uploads' (kb_meta s))
        | None => Ok s1
        end
      else Ok s1
  end.

End DBManager.

(** ** The aggregator: [edge_node/services/vss_aggregator.py] *)

Module Aggregator.

(** [class StatusUpdate(BaseModel)] *)
Record StatusUpdate := mkStatusUpdate {
  upload_id : string;
  status : string;
  final_url : option string;
  checksum : option string;
  attempts : option Z
}.

(** [Field(..., pattern="^(PROCESSING|FAILED|UPLOADED)$")] *)
Definition status_allowed (status : string) : bool :=
  existsb (String.eqb status) ["PROCESSING"; "FAILED"; "UPLOADED"].

(** [POST /events/mark_status]: the HTTP status of the response and the
    store afterwards.  A body that fails validation is answered 422
    before the handler runs; every keyword is passed to the store, set
    in the body or not; an exception is answered 500. *)
Definition mark_event_status (s : Store) (now : DateTime) (update : StatusUpdate)
    : Z * Store :=
  if status_allowed (status update) then
    match DBManager.update_upload_status s now (upload_id update) (status update)
            (mkKwargs (Some (attempts update)) (Some (checksum update))
                      (Some (final_url update))) with
    | Ok s' => (200, s')
    | Raise _ => (500, s)
    end
  else (422, s).

End Aggregator.

(** ** The uploader: [edge_node/services/vss_uploader.py] *)

(** *** Paths ([pathlib]) *)

(** [s.rfind(c)]: the text before the last [c] and the text from it on. *)
Fixpoint rsplit (c : ascii) (s : string) : option (string * string) :=
  match s with
  | EmptyString => None
  | String a s' =>
      match rsplit c s' with
      | Some (pre, suf) => Some (String a pre, suf)
      | None => if Ascii.eqb a c then Some (EmptyString, s) else None
      end
  end.

(** [Path.name]: the final component of a path written without a
    trailing separator. *)
Definition path_name (p : string) : string :=
  match rsplit "/" p with
  | Some (_, String _ rest) => rest
  | _ => p
  end.

(** [Path.suffix]: [i = name.rfind('.')], and [name[i:]] when
    [0 < i < len(name) - 1], else the empty string. *)
Definition path_suffix (p : string) : string :=
  match rsplit "." (path_name p) with
  | Some (pre, suf) =>
      if (0 <? String.length pre)%nat && (1 <? String.length suf)%nat then suf else ""
  | None => ""
  end.

(** [str.lower()] on ASCII letters. *)
Definition lower_ascii (a : ascii) : ascii :=
  let n := nat_of_ascii a in
  if (65 <=? n)%nat && (n <=? 90)%nat then ascii_of_nat (n + 32) else a.

Fixpoint lower (s : string) : string :=
  match s with
  | EmptyString => EmptyString
  | String a s' => String (lower_ascii a) (lower s')
  end.

(** *** What one transaction sees of the outside world *)

(** A reply to an HTTP request, or none ([session.post] raising a
    connection error or a timeout). *)
Inductive Response (A : Type) :=
| Responded (status_code : Z) (body : A)
| NoResponse (what : string).
Arguments Responded {A} status_code body.
Arguments NoResponse {A} what.

(** [response.raise_for_status()]: [HTTPError] for 4xx and 5xx. *)
Definition raise_for_status {A} (r : Response A) : result A :=
  match r with
  | Responded code body =>
      if (400 <=? code) && (code <? 600) then Raise (HTTPError code) else Ok body
  | NoResponse what => Raise (RequestException what)
  end.

(** The presign reply as [response.json()] gives it: an object whose
    three keys may be absent ([presigned_data.get(...)] is then [None]) and
    hold strings when they are there. *)
Record PresignedData := mkPresignedData {
  pd_upload_url : option string;
  pd_final_url : option string;
  pd_upload_id : option string
}.

(** The body of the presign reply: not JSON at all, or such an object. *)
Inductive PresignBody :=
| NotJson
| JsonObject (presigned_data : PresignedData).

(** The replies are those the transaction would get if it came to ask;
    a path is a regular file with its bytes, or does not exist. *)
Record Env := mkEnv {
  read_file : string -> option (list Byte.byte); (* [None]: no such path *)
  presign_reply : Response PresignBody;
  put_reply : Response unit;
  complete_reply : Response unit;
  metadata_reply : Response unit;
  random : Q;                  (* [random.random()] *)
  now_processing : DateTime;   (* [func.now()] at the PROCESSING update *)
  now_closing : DateTime       (* [func.now()] at the last update *)
}.

(** What a transaction does to the outside world, in order. *)
Inductive Effect :=
| PresignRequest (tenant_id device_id event_id filename : string)
                 (size_bytes : Z) (content_type : string) (hdr_event_id : string)
| PutRequest (upload_url : string) (data : list Byte.byte)
             (hdr_content_type hdr_x_amz_checksum_sha256 : string)
| CompleteRequest (upload_id event_id final_url checksum : string) (hdr_event_id : string)
| MetadataRequest (event_json clip_url upload_id : string) (hdr_event_id : string)
| Sleep (seconds : Q).

Definition is_network_call (e : Effect) : bool :=
  match e with
  | Sleep _ => false
  | _ => true
  end.

Definition is_sleep (e : Effect) : bool :=
  match e with
  | Sleep _ => true
  | _ => false
  end.

(** *** State and exceptions *)

Record World := mkWorld {
  w_store : Store;
  w_trace : list Effect
}.

(** A computation changes the world and returns or raises; what it did
    before raising stays done. *)
Definition M (A : Type) := World -> result A * World.

Definition ret {A} (a : A) : M A := fun w => (Ok a, w).

Definition raise {A} (e : exn) : M A := fun w => (Raise e, w).

Definition bind {A B} (m : M A) (k : A -> M B) : M B :=
  fun w =>
    match m w with
    | (Ok a, w') => k a w'
    | (Raise e, w') => (Raise e, w')
    end.

(** [try: m  except ...: h e] *)
Definition try_except {A} (m : M A) (h : exn -> M A) : M A :=
  fun w =>
    match m w with
    | (Ok a, w') => (Ok a, w')
    | (Raise e, w') => h e w'
    end.

Definition lift {A} (r : result A) : M A :=
  match r with
  | Ok a => ret a
  | Raise e => raise e
  end.

Definition emit (e : Effect) : M unit :=
  fun w => (Ok tt, mkWorld (w_store w) (w_trace w ++ [e])%list).

Definition get_store : M Store := fun w => (Ok (w_store w), w).

Declare Scope upload_scope.
Delimit Scope upload_scope with upload.
Notation "x <- m ;; k" := (bind m (fun x => k))
  (at level 100, m at next level, right associativity) : upload_scope.
Notation "m ;;; k" := (bind m (fun _ => k))
  (at level 100, right associativity) : upload_scope.

(** [self.db_manager.update_upload_status(...)] on the world's store. *)
Definition db_update_upload_status (now : DateTime) (upload_id status : string)
    (kw : Kwargs) : M unit :=
  fun w =>
    match DBManager.update_upload_status (w_store w) now upload_id status kw with
    | Ok s' => (Ok tt, mkWorld s' (w_trace w))
    | Raise e => (Raise e, w)
    end.

(** [EdgeConfig], the options the uploader reads. *)
Record Config := mkConfig {
  tenant_id : string;
  device_id : string;
  max_retries : Z;
  retry_backoff_seconds : Z
}.

Module Uploader.
Section Transaction.

(** [hashlib.sha256(...).hexdigest()] of a file's bytes. *)
Variable sha256 : list Byte.byte -> string.
Variable config : Config.
Variable env : Env.

Local Open Scope upload_scope.

(** [calculate_sha256(filepath)] *)
Definition calculate_sha256 (filepath : string) : M string :=
  match read_file env filepath with
  | Some content => ret (sha256 content)
  | None => raise (OSError "FileNotFoundError")
  end.

(** The content type the presign request declares. *)
Definition content_type_of (file_path : string) : string :=
  if String.eqb (lower (path_suffix file_path)) ".mp4"
  then "video/mp4" else "application/octet-stream".

(** [_request_presigned_url(upload, file_path)] *)
Definition _request_presigned_url (upload : PendingUpload.t) (file_path : string)
    : M PresignedData :=
  match read_file env file_path with
  | None => raise (OSError "FileNotFoundError")
  | Some content =>
      emit (PresignRequest (tenant_id config) (device_id config)
              (PendingUpload.event_id upload) (path_name file_path)
              (Z.of_nat (List.length content)) (content_type_of file_path)
              (PendingUpload.event_id upload)) ;;;
      body <- lift (raise_for_status (presign_reply env)) ;;
      match body with
      | NotJson => raise (RequestException "JSONDecodeError")
      | JsonObject presigned_data => ret presigned_data
      end
  end.

(** [_upload_file(upload_url, file_path, checksum)]: the Content-Type
    header is the literal ["video/mp4"]. *)
Definition _upload_file (upload_url file_path checksum : string) : M unit :=
  match read_file env file_path with
  | None => raise (OSError "FileNotFoundError")
  | Some content =>
      emit (PutRequest upload_url content "video/mp4" checksum) ;;;
      lift (raise_for_status (put_reply env))
  end.

(** [_complete_upload(upload, final_url, checksum)] *)
Definition _complete_upload (upload : PendingUpload.t) (final_url checksum : string)
    : M unit :=
  emit (CompleteRequest (PendingUpload.upload_id upload) (PendingUpload.event_id upload)
          final_url checksum (PendingUpload.event_id upload)) ;;;
  lift (raise_for_status (complete_reply env)).

(** [_post_metadata(upload, final_url)].  The event is looked up with
    [session.get(self.db_manager.Event, upload.event_id)]: evaluating the
    first argument reads an attribute of the manager, and raises
    [AttributeError] when the manager has none of that name. *)
Definition _post_metadata (upload : PendingUpload.t) (final_url : string) : M unit :=
  if DBManager.hasattr "Event" then
    s <- get_store ;;
    match DBManager.get_event s (PendingUpload.event_id upload) with
    | None => raise (ValueError "Event not found in DB.")
    | Some event =>
        emit (MetadataRequest (Event.json event) final_url (PendingUpload.upload_id upload)
                (PendingUpload.event_id upload)) ;;;
        lift (raise_for_status (metadata_reply env))
    end
  else raise (AttributeError "'DBManager' object has no attribute 'Event'").

(** [backoff_time = retry_backoff_seconds * (2 ** (new_attempts - 1))].
    The sleep length is a Python float; it is computed here over exact
    rationals, on which [2 ** k] is also defined for a negative [k]: the
    value is the float's up to rounding (see [wait_time_overflow] for the
    integers that have no float). *)
Definition backoff_time (new_attempts : Z) : Q :=
  (inject_Z (retry_backoff_seconds config) * Qpower 2 (new_attempts - 1))%Q.

(** [jitter = random.random() * retry_backoff_seconds] *)
Definition jitter : Q :=
  (random env * inject_Z (retry_backoff_seconds config))%Q.

(** [wait_time = min(backoff_time + jitter, 3600)] *)
Definition wait_time (new_attempts : Z) : Q :=
  Qmin (backoff_time new_attempts + jitter) 3600.

(** An integer too large for a float: [float(x)], which [int * float]
    and [int + float] make of their integer operand, raises
    [OverflowError] when [x] rounds to [2 ** 1024] or more. *)
Definition float_overflow (x : Z) : bool := 2 ^ 1024 - 2 ^ 970 <=? Z.abs x.

(** The conversions in the two lines that compute the sleep length: of
    [retry_backoff_seconds] in [random.random() * retry_backoff_seconds],
    and of [backoff_time], an integer when [new_attempts >= 1], in
    [backoff_time + jitter]. *)
Definition wait_time_overflow (new_attempts : Z) : bool :=
  float_overflow (retry_backoff_seconds config)
  || (1 <=? new_attempts)
     && float_overflow (retry_backoff_seconds config * 2 ^ (new_attempts - 1)).

(** [time.sleep(wait_time)]; a negative length is refused. *)
Definition sleep (seconds : Q) : M unit :=
  if Qle_bool 0 seconds then emit (Sleep seconds)
  else raise (ValueError "sleep length must be non-negative").

(** [_handle_failure(upload, status_code)] *)
Definition _handle_failure (upload : PendingUpload.t) (status_code : Z) : M unit :=
  let new_attempts := PendingUpload.attempts upload + 1 in
  let kw := mkKwargs (Some (Some new_attempts)) None None in
  if new_attempts >=? max_retries config then
    db_update_upload_status (now_closing env) (PendingUpload.upload_id upload) "FAILED" kw
  else if status_code >=? 500 then
    if wait_time_overflow new_attempts
    then raise (OverflowError "int too large to convert to float")
    else
      sleep (wait_time new_attempts) ;;;
      db_update_upload_status (now_closing env) (PendingUpload.upload_id upload)
        "PENDING_UPLOAD" kw
  else
    db_update_upload_status (now_closing env) (PendingUpload.upload_id upload) "FAILED" kw.

(** The [try] block of [process_upload]. *)
Definition upload_steps (upload : PendingUpload.t) : M unit :=
  let file_path := PendingUpload.filepath upload in
  checksum <- calculate_sha256 file_path ;;
  presigned_data <- _request_presigned_url upload file_path ;;
  let upload_url := pd_upload_url presigned_data in
  let final_url := pd_final_url presigned_data in
  (* Use server-provided ID if available *)
  let upload_id := default (PendingUpload.upload_id upload) (pd_upload_id presigned_data) in
  if falsy upload_url || falsy final_url then
    raise (ValueError "Presigned URL response missing 'upload_url' or 'final_url'.")
  else
    let upload_url := default "" upload_url in
    let final_url := default "" final_url in
    db_update_upload_status (now_processing env) upload_id "PROCESSING"
      (mkKwargs None (Some (Some checksum)) None) ;;;
    _upload_file upload_url file_path checksum ;;;
    _complete_upload upload final_url checksum ;;;
    _post_metadata upload final_url ;;;
    db_update_upload_status (now_closing env) upload_id "UPLOADED"
      (mkKwargs None None (Some (Some final_url))).

(** The two [except] clauses of [process_upload]. *)
Definition on_exception (upload : PendingUpload.t) (e : exn) : M unit :=
  match e with
  | HTTPError status_code => _handle_failure upload status_code
  | _ => _handle_failure upload 500
  end.

(** [process_upload(upload)] *)
Definition process_upload (upload : PendingUpload.t) : M unit :=
  match read_file env (PendingUpload.filepath upload) with
  | None =>
      db_update_upload_status (now_closing env) (PendingUpload.upload_id upload)
        "FAILED" no_kwargs
  | Some _ =>
      try_except (upload_steps upload) (on_exception upload)
  end.

End Transaction.
End Uploader.

(** ** The sync worker: [edge_node/services/vss_sync.py] *)

Module SyncWorker.

(** A package of the manifest; [package.get(k)] is [None] for a key
    that is absent. *)
Record Package := mkPackage {
  id : option string;
  version : option string;
  download_url : option string;
  sha256 : option string;
  signature : option string
}.

(** What is on disk under [MODEL_STORAGE_PATH]: the files directly in
    it (the downloaded archives), by name, and the directories in it (one
    per installed package), each a map from the path of a file below the
    directory to its content.

    The maps stand for the directory tree when names are what they are
    meant to be: a package id that is a single path component, a version
    without a separator, member names that are relative paths in normal
    form ([plain_component], [no_separator], [member_path]).  Other names
    are resolved by the file system ([..], an absolute path) or merged by it
    ([./x] is [x]) and are outside what the maps describe. *)
Record Disk := mkDisk {
  files : gmap string (list Byte.byte);
  dirs : gmap string (gmap string (list Byte.byte))
}.

(** No [/] and no NUL. *)
Definition no_separator (name : string) : bool :=
  forallb (fun c => negb (Ascii.eqb c "/") && negb (Ascii.eqb c Ascii.zero))
    (list_ascii_of_string name).

(** A name that is one component of a path and is the name of the entry
    it creates. *)
Definition plain_component (name : string) : bool :=
  no_separator name
  && negb (existsb (String.eqb name) [""; "."; ".."]).

(** [name.split("/")] *)
Fixpoint components (name : string) : list string :=
  match name with
  | EmptyString => [EmptyString]
  | String c rest =>
      if Ascii.eqb c "/" then EmptyString :: components rest
      else match components rest with
           | first :: others => String c first :: others
           | [] => [String c EmptyString]
           end
  end.

(** A member name that is a relative path in normal form: extracted
    under [install_path], it is the file of that name below it. *)
Definition member_path (name : string) : bool :=
  forallb plain_component (components name).

(** [self.session.get(download_url, stream=True)] and the copy loop.
    A [RequestException] is caught and logged; an [OSError] from
    [open(local_path, 'wb')] or [f.write(chunk)] (a directory of that name,
    no permission, a full disk) is not caught. *)
Inductive Download :=
| DownloadRefused (e : exn)          (* raised before the file was opened *)
| DownloadBroken (received : list Byte.byte) (* raised while copying chunks *)
| StagingFailed (written : option (list Byte.byte))
    (* [OSError]: from [open] ([None]), or from [write] after these bytes *)
| Downloaded (content : list Byte.byte).

(** [tarfile.open(...).extractall(...)] on an archive of regular files
    and directories: the files written, in order, and whether the archive
    was read to its end without an exception. *)
Record Extraction := mkExtraction {
  members : list (string * list Byte.byte);
  complete : bool
}.

Record SyncEnv := mkSyncEnv {
  download : Download;
  mkdir_error : option exn;    (* [install_path.mkdir(exist_ok=True)] raising *)
  reload_reply : Response unit
}.

(** The [logger.error] lines of [_process_package]. *)
Inductive LogError :=
| InvalidManifest
| DownloadFailed
| Sha256Mismatch
| ExtractFailed
| ReloadFailed.

Record SyncWorld := mkSyncWorld {
  sw_store : Store;
  sw_disk : Disk;
  sw_reloads : list string; (* [new_version] of each POST to [/_reload] *)
  sw_errors : list LogError
}.

Section Install.

(** [hashlib.sha256] and [tarfile], as functions of the bytes. *)
Variable file_sha256 : list Byte.byte -> string.
Variable tar_extract : list Byte.byte -> Extraction.
Variable env : SyncEnv.

(** [all([package_id, version, download_url, sha256, signature])] *)
Definition manifest_complete (package : Package) : bool :=
  forallb (fun x => negb (falsy x))
    [id package; version package; download_url package; sha256 package;
     signature package].

(** [f"{package_id}-{version}.tar.gz"] under [MODEL_STORAGE_PATH] *)
Definition local_path (package_id version : string) : string :=
  String.append package_id (String.append "-" (String.append version ".tar.gz")).

(** [tar.extractall(path=install_path)]: each member is written over
    what the directory holds under its name. *)
Definition write_members (ms : list (string * list Byte.byte))
    (dir : gmap string (list Byte.byte)) : gmap string (list Byte.byte) :=
  fold_left (fun d m => <[fst m := snd m]> d) ms dir.

(** [_process_package(package)]: the world afterwards, and whether the
    function returned or was left by an exception it does not catch.  The
    signature is not verified (the call is commented out in the source);
    no step is undone when a later one fails. *)
Definition _process_package (package : Package) (w : SyncWorld)
    : result unit * SyncWorld :=
  let error (e : LogError) := (sw_errors w ++ [e])%list in
  if negb (manifest_complete package) then
    (Ok tt, mkSyncWorld (sw_store w) (sw_disk w) (sw_reloads w) (error InvalidManifest))
  else
    let package_id := default "" (id package) in
    let version := default "" (version package) in
    let staged := local_path package_id version in
    let disk := sw_disk w in
    (* 1. Download package *)
    match download env with
    | DownloadRefused _ =>
        (Ok tt, mkSyncWorld (sw_store w) disk (sw_reloads w) (error DownloadFailed))
    | DownloadBroken received =>
        (Ok tt,
         mkSyncWorld (sw_store w)
           (mkDisk (<[staged := received]> (files disk)) (dirs disk))
           (sw_reloads w) (error DownloadFailed))
    | StagingFailed None => (Raise (OSError "open"), w)
    | StagingFailed (Some written) =>
        (Raise (OSError "write"),
         mkSyncWorld (sw_store w)
           (mkDisk (<[staged := written]> (files disk)) (dirs disk))
           (sw_reloads w) (sw_errors w))
    | Downloaded content =>
        let files1 := <[staged := content]> (files disk) in
        (* 2. Verify SHA256 *)
        if negb (String.eqb (file_sha256 content) (default "" (sha256 package))) then
          (Ok tt,
           mkSyncWorld (sw_store w) (mkDisk (delete staged files1) (dirs disk))
             (sw_reloads w) (error Sha256Mismatch))
        else
          (* 4. Extract and Install *)
          match mkdir_error env with
          | Some e =>
              (Raise e,
               mkSyncWorld (sw_store w) (mkDisk files1 (dirs disk)) (sw_reloads w)
                 (sw_errors w))
          | None =>
              let install_dir := default ∅ (dirs disk !! package_id) in
              let x := tar_extract content in
              let dirs1 :=
                <[package_id := write_members (members x) install_dir]> (dirs disk) in
              if negb (complete x) then
                (Ok tt,
                 mkSyncWorld (sw_store w) (mkDisk files1 dirs1) (sw_reloads w)
                   (error ExtractFailed))
              else
                (* 5. Call local model reload endpoint, 6. Clean up downloaded tar.gz *)
                (Ok tt,
                 mkSyncWorld (sw_store w) (mkDisk (delete staged files1) dirs1)
                   (sw_reloads w ++ [version])%list
                   (match raise_for_status (reload_reply env) with
                    | Ok _ => sw_errors w
                    | Raise _ => error ReloadFailed
                    end))
          end
    end.

End Install.
End SyncWorker.

(** ** The configuration validator: [edge_node/config_loader.py] *)

Module ConfigLoader.

(** [class CameraConfig(BaseModel)] *)
Record CameraConfig := mkCameraConfig {
  id : string;
  index : Z;
  label : string
}.

(** [class NVRConfig(BaseModel)] *)
Record NVRConfig := mkNVRConfig {
  name : string;
  host : string;
  onvif_port : Z;
  username : string;
  password : string;
  camera_rtsp_template : string;
  cameras : list CameraConfig
}.

(** The inner loop of [check_unique_camera_ids]: [for camera in
    nvr.cameras], with the set [all_camera_ids] built so far. *)
Fixpoint check_cameras (cameras : list CameraConfig) (all_camera_ids : gset string)
    : result (gset string) :=
  match cameras with
  | [] => Ok all_camera_ids
  | camera :: rest =>
      if decide (id camera ∈ all_camera_ids)
      then Raise (ValueError (String.append "Duplicate camera ID found: " (id camera)))
      else check_cameras rest ({[ id camera ]} ∪ all_camera_ids)
  end.

(** The outer loop: [for nvr in v]. *)
Fixpoint check_nvrs (v : list NVRConfig) (all_camera_ids : gset string)
    : result (gset string) :=
  match v with
  | [] => Ok all_camera_ids
  | nvr :: rest =>
      match check_cameras (cameras nvr) all_camera_ids with
      | Ok all_camera_ids' => check_nvrs rest all_camera_ids'
      | Raise e => Raise e
      end
  end.

(** [EdgeConfig.check_unique_camera_ids(v)]: the validator of
    [nvr_list]; it returns the list it was given. *)
Definition check_unique_camera_ids (v : list NVRConfig) : result (list NVRConfig) :=
  match check_nvrs v ∅ with
  | Ok _ => Ok v
  | Raise e => Raise e
  end.

(** The camera ids of a configuration, NVR by NVR, in order. *)
Definition camera_ids (v : list NVRConfig) : list string :=
  flat_map (fun nvr => map id (cameras nvr)) v.

End ConfigLoader.

(** ** The aggregator's event endpoints: [vss_aggregator.py] *)

Module AggregatorEvents.

(** [class EventIn(BaseModel)]; the timestamp is kept as its ISO text,
    the objects and the confidence as their JSON text. *)
Record EventIn := mkEventIn {
  camera_id : string;
  event_type : string;
  timestamp : string;
  local_clip_path : string;
  objects : string;
  dense_caption : option string;
  audio_text : option string;
  confidence : string
}.

(** The dictionary [build_event_json] returns. *)
Record EventJson := mkEventJson {
  ej_tenant_id : string;
  ej_device_id : string;
  ej_camera_id : string;
  ej_event_id : string;
  ej_timestamp : string;
  ej_event_type : string;
  ej_objects : string;
  ej_dense_caption : option string;
  ej_audio_text : option string;
  ej_local_clip_path : string;
  ej_confidence : string
}.

(** What the handler binds to [event]: [insert_event] returns the two
    ids, which are strings; an ORM row would have the attributes the
    handler reads. *)
Inductive PyObject :=
| PyStr (s : string)
| PyEventRow (e : Event.t).

(** [event.event_id]; [None] is Python's [AttributeError]. *)
Definition attr_event_id (o : PyObject) : option string :=
  match o with
  | PyEventRow e => Some (Event.event_id e)
  | PyStr _ => None
  end.

(** [event.status] *)
Definition attr_status (o : PyObject) : option string :=
  match o with
  | PyEventRow e => Some (Event.status e)
  | PyStr _ => None
  end.

(** [class EventOut(BaseModel)] *)
Record EventOut := mkEventOut {
  eo_event_id : string;
  eo_camera_id : string;
  eo_event_type : string;
  eo_timestamp : string;
  eo_status : string;
  eo_local_clip_path : string
}.

Section Endpoints.

(** [json.dumps] of the event dictionary. *)
Variable json_dumps : EventJson -> string.

(** [f"evt-{now:%Y%m%d-%H%M%S}-{uuid4().hex[:4]}"], from the formatted
    time and the 32 hexadecimal digits of the UUID. *)
Definition new_event_id (stamp uuid_hex : string) : string :=
  String.append "evt-" (String.append stamp (String.append "-" (substring 0 4 uuid_hex))).

(** [build_event_json(event_in)]; [None] is the [RuntimeError] raised
    when the configuration is not loaded. *)
Definition build_event_json (config : option Config) (stamp uuid_hex : string)
    (event_in : EventIn) : option EventJson :=
  match config with
  | None => None
  | Some config =>
      Some (mkEventJson (tenant_id config) (device_id config) (camera_id event_in)
              (new_event_id stamp uuid_hex) (timestamp event_in) (event_type event_in)
              (objects event_in) (dense_caption event_in) (audio_text event_in)
              (local_clip_path event_in) (confidence event_in))
  end.

(** [POST /events/new]: the HTTP status, the body of a 201 and the store
    afterwards.  [event, upload = db_manager.insert_event(...)] binds the
    two returned ids; every exception of the handler is answered 500, after
    the insertion was committed if it was raised later. *)
Definition create_new_event (config : option Config) (s : Store) (now : DateTime)
    (stamp uuid_hex : string) (event_in : EventIn) : Z * option EventOut * Store :=
  match build_event_json config stamp uuid_hex event_in with
  | None => (500, None, s)
  | Some event_json =>
      match DBManager.insert_event s now (ej_event_id event_json) (json_dumps event_json)
              (local_clip_path event_in) with
      | Raise _ => (500, None, s)
      | Ok (s', (event_id, upload_id)) =>
          let event := PyStr event_id in
          match attr_event_id event, attr_status event with
          | Some id, Some status =>
              (201,
               Some (mkEventOut id (camera_id event_in) (event_type event_in)
                       (timestamp event_in) status (local_clip_path event_in)),
               s')
          | _, _ => (500, None, s')
          end
      end
  end.

(** [GET /events/pending]: the pending uploads, at most 100. *)
Definition get_pending_events (s : Store) : Z * list PendingUpload.t :=
  (200, DBManager.get_pending_uploads s 100).

End Endpoints.
End AggregatorEvents.

(** ** The uploader's loop: [Uploader.run_loop] *)

Module UploaderLoop.
Section Iteration.

Variable sha256 : list Byte.byte -> string.
Variable config : Config.

(** What the transaction of each picked upload sees. *)
Variable env_for : PendingUpload.t -> Env.

Local Open Scope upload_scope.

(** [for upload in pending_uploads: self.process_upload(upload)] *)
Fixpoint process_all (pending_uploads : list PendingUpload.t) : M unit :=
  match pending_uploads with
  | [] => ret tt
  | upload :: rest =>
      Uploader.process_upload sha256 config (env_for upload) upload ;;;
      process_all rest
  end.

(** The body of the [while] loop of [run_loop], once: up to 10 pending
    uploads are picked and processed in turn; an empty queue is followed
    by a sleep of 5 seconds, an exception by a sleep of 10 seconds that
    ends the iteration. *)
Definition run_iteration : M unit :=
  try_except
    (s <- get_store ;;
     match DBManager.get_pending_uploads s 10 with
     | [] => emit (Sleep 5)
     | pending_uploads => process_all pending_uploads
     end)
    (fun _ => emit (Sleep 10)).

End Iteration.
End UploaderLoop.

(** ** The sync worker's polls: [vss_sync.py] *)

Module SyncPoll.

(** The manifest of [kb_manifest_endpoint], as [manifest.get] reads it. *)
Record Manifest := mkManifest {
  kb_version : option string;
  delta_package_url : option string
}.

(** [order_by(KBMeta.applied_at.desc()).first()]: a row with the latest
    [applied_at]; among rows applied at the same time, which SQL leaves
    open, the first inserted. *)
Fixpoint latest (rows : list KBMeta.t) : option KBMeta.t :=
  match rows with
  | [] => None
  | r :: rest =>
      match latest rest with
      | Some r' => if KBMeta.applied_at r <? KBMeta.applied_at r' then Some r' else Some r
      | None => Some r
      end
  end.

(** [_get_last_kb_version()] *)
Definition _get_last_kb_version (s : Store) : string :=
  match latest (kb_meta s) with
  | Some kb_meta => KBMeta.kb_version kb_meta
  | None => "0.0.0"
  end.

(** The integer primary key SQLite gives a new row: one more than the
    largest in the table. *)
Definition next_id (rows : list KBMeta.t) : Z :=
  1 + fold_right (fun r m => Z.max (KBMeta.id r) m) 0 rows.

(** [_download_and_apply_kb(version, download_url)]: the delta package
    is not fetched; the version is recorded. *)
Definition _download_and_apply_kb (s : Store) (now : DateTime) (version download_url : string)
    : Store :=
  mkStore (events s) (pending_uploads s)
    (kb_meta s ++ [KBMeta.mk (next_id (kb_meta s)) version now])%list.

(** The body of the manifest reply. *)
Inductive ManifestBody :=
| ManifestNotJson
| ManifestObject (manifest : Manifest).

(** [_poll_kb_manifest()]: the store afterwards and the request error
    logged, if any. *)
Definition _poll_kb_manifest (reply : Response ManifestBody) (s : Store) (now : DateTime)
    : Store * option exn :=
  let current_version := _get_last_kb_version s in
  match raise_for_status reply with
  | Raise e => (s, Some e)
  | Ok ManifestNotJson => (s, Some (RequestException "JSONDecodeError"))
  | Ok (ManifestObject manifest) =>
      let new_version := kb_version manifest in
      let download_url := delta_package_url manifest in
      if negb (falsy new_version)
         && negb (String.eqb (default "" new_version) current_version)
         && negb (falsy download_url)
      then (_download_and_apply_kb s now (default "" new_version) (default "" download_url),
            None)
      else (s, None)
  end.

Section Packages.

Variable file_sha256 : list Byte.byte -> string.
Variable tar_extract : list Byte.byte -> SyncWorker.Extraction.

(** What the installation of the package at each position of the
    manifest sees. *)
Variable env_at : nat -> SyncWorker.SyncEnv.

(** [for package in packages: self._process_package(package)]: an
    exception that leaves [_process_package] leaves the loop. *)
Fixpoint process_packages (i : nat) (packages : list SyncWorker.Package)
    (w : SyncWorker.SyncWorld) : result unit * SyncWorker.SyncWorld :=
  match packages with
  | [] => (Ok tt, w)
  | package :: rest =>
      match SyncWorker._process_package file_sha256 tar_extract (env_at i) package w with
      | (Ok _, w') => process_packages (S i) rest w'
      | (Raise e, w') => (Raise e, w')
      end
  end.

(** [_poll_packages()]: the world afterwards, and the request error
    logged, if any, or the exception that left the function.  The reply is
    a JSON array of packages, or not JSON; only a [RequestException] is
    caught. *)
Definition _poll_packages (reply : Response (option (list SyncWorker.Package)))
    (w : SyncWorker.SyncWorld) : result (option exn) * SyncWorker.SyncWorld :=
  match raise_for_status reply with
  | Raise e => (Ok (Some e), w)
  | Ok None => (Ok (Some (RequestException "JSONDecodeError")), w)
  | Ok (Some packages) =>
      match process_packages 0 packages w with
      | (Ok _, w') => (Ok None, w')
      | (Raise e, w') => (Raise e, w')
      end
  end.

(** [run_sync()]: the packages, then the knowledge base, which is not
    reached when the first poll is left by an exception. *)
Definition run_sync (packages_reply : Response (option (list SyncWorker.Package)))
    (manifest_reply : Response ManifestBody) (now : DateTime)
    (w : SyncWorker.SyncWorld) : result unit * SyncWorker.SyncWorld :=
  match _poll_packages packages_reply w with
  | (Raise e, w1) => (Raise e, w1)
  | (Ok _, w1) =>
      (Ok tt,
       SyncWorker.mkSyncWorld
         (fst (_poll_kb_manifest manifest_reply (SyncWorker.sw_store w1) now))
         (SyncWorker.sw_disk w1) (SyncWorker.sw_reloads w1) (SyncWorker.sw_errors w1))
  end.

End Packages.
End SyncPoll.

(** ** Vocabulary of the properties *)

(** The primary keys of the two tables are unique. *)
Definition keys_unique (s : Store) : Prop :=
  NoDup (map PendingUpload.upload_id (pending_uploads s))
  /\ NoDup (map Event.event_id (events s)).

(** The first element of a list that is in [seen] or occurred earlier
    in the list. *)
Fixpoint first_duplicate (ids : list string) (seen : gset string) : option string :=
  match ids with
  | [] => None
  | c :: rest =>
      if decide (c ∈ seen) then Some c else first_duplicate rest ({[ c ]} ∪ seen)
  end.

(** Every event of [s] is still in [s'], with its document; its status
    is the same or a final one. *)
Definition events_settle (s s' : Store) : Prop :=
  forall eid e,
    DBManager.get_event s eid = Some e ->
    exists e',
      DBManager.get_event s' eid = Some e'
      /\ Event.json e' = Event.json e
      /\ (Event.status e' = Event.status e \/ DBManager.is_final (Event.status e') = true).

(** The [attempts] keyword of a status update can be written: it is
    absent, or a 64-bit integer (not NULL). *)
Definition attempts_storable (kw : Kwargs) : Prop :=
  match kw_attempts kw with
  | None => True
  | Some None => False
  | Some (Some n) => DBManager.sqlite_integer n = true
  end.

(** What identifies a pending upload, and an event. *)
Definition upload_identity (r : PendingUpload.t) : string * string * string :=
  (PendingUpload.upload_id r, PendingUpload.event_id r, PendingUpload.filepath r).

Definition event_identity (e : Event.t) : string * string * DateTime :=
  (Event.event_id e, Event.json e, Event.created_at e).

(** The two stores have the same rows, in the same order, as far as
    their identity goes, and the same knowledge-base log. *)
Definition identity_kept (s s' : Store) : Prop :=
  map upload_identity (pending_uploads s') = map upload_identity (pending_uploads s)
  /\ map event_identity (events s') = map event_identity (events s)
  /\ kb_meta s' = kb_meta s.

(** A relation between stores, as a relation between worlds. *)
Definition on_stores (R : Store -> Store -> Prop) (w w' : World) : Prop :=
  R (w_store w) (w_store w').

(** Every value a computation returns satisfies [Q]. *)
Definition returns {A} (Q : A -> Prop) (m : M A) : Prop :=
  forall w a w', m w = (Ok a, w') -> Q a.

(** The row under [id], or its absence, is the same in both worlds. *)
Definition row_untouched (id : string) (w w' : World) : Prop :=
  DBManager.get_upload (w_store w') id = DBManager.get_upload (w_store w) id.

(** No row other than the one under [uid] has a different [attempts]. *)
Definition other_attempts_same (uid : string) (w w' : World) : Prop :=
  forall id, id <> uid ->
    option_map PendingUpload.attempts (DBManager.get_upload (w_store w') id)
    = option_map PendingUpload.attempts (DBManager.get_upload (w_store w) id).

(** The installation of a package reaches the reload call: the manifest
    entry is complete, the archive is staged, its SHA-256 is the
    manifest's, the directory is made and the archive is extracted to its
    end. *)
Definition installs (file_sha256 : list Byte.byte -> string)
    (tar_extract : list Byte.byte -> SyncWorker.Extraction)
    (env : SyncWorker.SyncEnv) (package : SyncWorker.Package) : bool :=
  SyncWorker.manifest_complete package
  && match SyncWorker.download env with
     | SyncWorker.Downloaded content =>
         String.eqb (file_sha256 content) (default "" (SyncWorker.sha256 package))
         && bool_decide (SyncWorker.mkdir_error env = None)
         && SyncWorker.complete (tar_extract content)
     | _ => false
     end.

(** The installation of a package is left by an [OSError]: staging the
    archive fails, or making the directory of a verified archive does. *)
Definition aborts (file_sha256 : list Byte.byte -> string)
    (env : SyncWorker.SyncEnv) (package : SyncWorker.Package) : bool :=
  SyncWorker.manifest_complete package
  && match SyncWorker.download env with
     | SyncWorker.StagingFailed _ => true
     | SyncWorker.Downloaded content =>
         String.eqb (file_sha256 content) (default "" (SyncWorker.sha256 package))
         && negb (bool_decide (SyncWorker.mkdir_error env = None))
     | _ => false
     end.

(** The versions of the packages of a list that install, in order;
    [i] is the position of the first in the manifest. *)
Fixpoint reloaded (file_sha256 : list Byte.byte -> string)
    (tar_extract : list Byte.byte -> SyncWorker.Extraction)
    (env_at : nat -> SyncWorker.SyncEnv) (i : nat)
    (packages : list SyncWorker.Package) : list string :=
  match packages with
  | [] => []
  | package :: rest =>
      ((if installs file_sha256 tar_extract (env_at i) package
        then [default "" (SyncWorker.version package)] else [])
       ++ reloaded file_sha256 tar_extract env_at (S i) rest)%list
  end.


(** The presign request of a transaction for a clip with these bytes. *)
Definition presign_request (config : Config) (upload : PendingUpload.t)
    (content : list Byte.byte) : Effect :=
  PresignRequest (tenant_id config) (device_id config)
    (PendingUpload.event_id upload) (path_name (PendingUpload.filepath upload))
    (Z.of_nat (length content))
    (Uploader.content_type_of (PendingUpload.filepath upload))
    (PendingUpload.event_id upload).

(** The completion request of a transaction. *)
Definition complete_request (upload : PendingUpload.t) (final_url checksum : string)
    : Effect :=
  CompleteRequest (PendingUpload.upload_id upload) (PendingUpload.event_id upload)
    final_url checksum (PendingUpload.event_id upload).

(** How the steps that follow the PUT request end, by the replies: the
    requests made and the exception raised.  When the PUT and the
    completion are accepted it is the [AttributeError] of
    [_post_metadata]. *)
Definition after_put (env : Env) (complete : Effect) : list Effect * exn :=
  match raise_for_status (put_reply env) with
  | Raise e => ([], e)
  | Ok _ =>
      ([complete],
       match raise_for_status (complete_reply env) with
       | Raise e => e
       | Ok _ => AttributeError "'DBManager' object has no attribute 'Event'"
       end)
  end.

(** The status code that the [except] clauses of [process_upload] pass
    to [_handle_failure]. *)
Definition failure_code (e : exn) : Z :=
  match e with
  | HTTPError status_code => status_code
  | _ => 500
  end.

(** The kinds of effect, for the order of a transaction's requests. *)
Inductive Kind := KPresign | KPut | KComplete | KMetadata | KSleep.

Definition kind_of (e : Effect) : Kind :=
  match e with
  | PresignRequest _ _ _ _ _ _ _ => KPresign
  | PutRequest _ _ _ _ => KPut
  | CompleteRequest _ _ _ _ _ => KComplete
  | MetadataRequest _ _ _ _ => KMetadata
  | Sleep _ => KSleep
  end.

(** Nothing was delivered between the two worlds: a row, or an event,
    that is UPLOADED in [w'] was in [w] as it is, and no metadata request
    was added to the trace. *)
Definition nothing_delivered (w w' : World) : Prop :=
  (forall id r,
     DBManager.get_upload (w_store w') id = Some r ->
     PendingUpload.status r = "UPLOADED" ->
     DBManager.get_upload (w_store w) id = Some r)
  /\ (forall eid e,
        DBManager.get_event (w_store w') eid = Some e ->
        Event.status e = "UPLOADED" ->
        DBManager.get_event (w_store w) eid = Some e)
  /\ exists new,
       w_trace w' = (w_trace w ++ new)%list
       /\ Forall (fun e => kind_of e <> KMetadata) new.

(** ** Relations between the world before and after a transaction *)

(** A computation keeps a relation between the world before and the
    world after, whether it returns or raises. *)
Definition keeps (R : World -> World -> Prop) {A} (m : M A) : Prop :=
  forall w, R w (snd (m w)).

(** No row's [attempts] differs between the two worlds. *)
Definition same_attempts (w w' : World) : Prop :=
  forall id,
    option_map PendingUpload.attempts (DBManager.get_upload (w_store w') id)
    = option_map PendingUpload.attempts (DBManager.get_upload (w_store w) id).

(** Every row is still there and its [attempts] is not lower. *)
Definition attempts_not_lowered (w w' : World) : Prop :=
  forall id r,
    DBManager.get_upload (w_store w) id = Some r ->
    exists r',
      DBManager.get_upload (w_store w') id = Some r'
      /\ PendingUpload.attempts r <= PendingUpload.attempts r'.

(** Every row is still there; its [attempts] is as before, or the row
    is the one under [uid] and its [attempts] is [n]. *)
Definition attempts_same_or_set (uid : string) (n : Z) (w w' : World) : Prop :=
  forall id r,
    DBManager.get_upload (w_store w) id = Some r ->
    exists r',
      DBManager.get_upload (w_store w') id = Some r'
      /\ (PendingUpload.attempts r' = PendingUpload.attempts r
          \/ (id = uid /\ PendingUpload.attempts r' = n)).

(** What every PUT request of a transaction carries. *)
Definition put_headers_ok (sha256 : list Byte.byte -> string) (e : Effect) : Prop :=
  match e with
  | PutRequest _ data hdr_content_type hdr_checksum =>
      hdr_content_type = "video/mp4" /\ hdr_checksum = sha256 data
  | _ => True
  end.

(** The requests added to the trace all satisfy [put_headers_ok]. *)
Definition adds_good_puts (sha256 : list Byte.byte -> string) (w w' : World) : Prop :=
  exists new, w_trace w' = (w_trace w ++ new)%list /\ Forall (put_headers_ok sha256) new.

(** ** Concrete scenarios

    The stores, configurations and replies at which the properties below
    are instantiated. *)

Module Scenario.

(** One event and its upload as [insert_event] leaves them. *)
Definition event1 : Event.t :=
  Event.mk "evt-test-001" "{}" "PENDING_UPLOAD" 1 1.

Definition upload1 : PendingUpload.t :=
  PendingUpload.mk "upload-evt-test-001" "evt-test-001" "/tmp/test_clip.mp4"
    0 None "PENDING_UPLOAD" None None.

Definition store_pending : Store := mkStore [event1] [upload1] [].

(** The same upload marked UPLOADED, with its checksum and URL, after
    two attempts, as POST /events/mark_status leaves it. *)
Definition upload1_done : PendingUpload.t :=
  PendingUpload.mk "upload-evt-test-001" "evt-test-001" "/tmp/test_clip.mp4"
    2 (Some 40) "UPLOADED" (Some "5a17") (Some "https://cdn/u1").

Definition store_uploaded : Store :=
  mkStore [Event.mk "evt-test-001" "{}" "UPLOADED" 1 40] [upload1_done] [].

(** The clip on disk, and a stand-in for its SHA-256 digest (the
    properties hold for every digest function). *)
Definition clip : list Byte.byte := [Byte.x54; Byte.x68; Byte.x69; Byte.x73].

Definition digest (content : list Byte.byte) : string := "5a17".

Definition disk (path : string) : option (list Byte.byte) :=
  if String.eqb path "/tmp/test_clip.mp4" then Some clip else None.


(** [max_retries = 3], [retry_backoff_seconds = 1]. *)
Definition config : Config := mkConfig "acme" "thor-mini-001" 3 1.

(** [retry_backoff_seconds = 4000]. *)
Definition config_slow : Config := mkConfig "acme" "thor-mini-001" 3 4000.

(** The presign reply of the mock central server: it assigns its own
    [upload_id]. *)
Definition mock_presign : Response PresignBody :=
  Responded 200
    (JsonObject (mkPresignedData (Some "http://localhost:5000/mock-upload/mock-upload-1")
                   (Some "https://cdn.example.com/acme/thor-mini-001/evt-test-001/test_clip.mp4")
                   (Some "mock-upload-1"))).

(** Every request is answered 200. *)
Definition env_ok : Env :=
  mkEnv disk mock_presign (Responded 200 tt) (Responded 200 tt) (Responded 200 tt)
    (1 # 2) 10 20.

(** The mock central server in full: it knows the upload under its
    own id only, and answers 404 to a completion for another id. *)
Definition env_mock : Env :=
  mkEnv disk mock_presign (Responded 200 tt) (Responded 404 tt) (Responded 200 tt)
    (1 # 2) 10 20.

(** The presign request is answered 503. *)
Definition env_503 : Env :=
  mkEnv disk (Responded 503 NotJson) (Responded 200 tt) (Responded 200 tt)
    (Responded 200 tt) (1 # 2) 10 20.

(** The presign reply is a JSON object without [upload_url]. *)
Definition env_no_url : Env :=
  mkEnv disk
    (Responded 200 (JsonObject (mkPresignedData None (Some "https://cdn/u1") None)))
    (Responded 200 tt) (Responded 200 tt) (Responded 200 tt) (1 # 2) 10 20.


(** A clip that is not an MP4 file, and its upload. *)
Definition upload_mkv : PendingUpload.t :=
  PendingUpload.mk "upload-evt-test-002" "evt-test-002" "/tmp/clip.mkv"
    0 None "PENDING_UPLOAD" None None.

Definition store_mkv : Store :=
  mkStore [Event.mk "evt-test-002" "{}" "PENDING_UPLOAD" 1 1] [upload_mkv] [].

Definition env_mkv : Env :=
  mkEnv (fun path => if String.eqb path "/tmp/clip.mkv" then Some clip else None)
    (Responded 200
       (JsonObject (mkPresignedData (Some "http://m/u2") (Some "https://cdn/u2") None)))
    (Responded 200 tt) (Responded 200 tt) (Responded 200 tt) (1 # 2) 10 20.

(** A package of the manifest, its archive, a stand-in for the
    archive's digest and for its extraction. *)
Definition package : SyncWorker.Package :=
  SyncWorker.mkPackage (Some "mock-detector") (Some "v2.0")
    (Some "http://localhost:5000/download/mock-model-v2.0.tar.gz")
    (Some "ab12") (Some "mock-signature-12345").

Definition archive : list Byte.byte := [Byte.x1f; Byte.x8b; Byte.x08].

Definition archive_digest (content : list Byte.byte) : string := "ab12".

Definition other_digest (content : list Byte.byte) : string := "ffff".

Definition untar (content : list Byte.byte) : SyncWorker.Extraction :=
  SyncWorker.mkExtraction [("model/dummy_model_file.txt", clip)] true.

(** The archive downloads; the reload endpoint is down. *)
Definition sync_env_reload_down : SyncWorker.SyncEnv :=
  SyncWorker.mkSyncEnv (SyncWorker.Downloaded archive) None
    (NoResponse "connection refused").

(** Nothing installed, nothing staged. *)
Definition sync_world : SyncWorker.SyncWorld :=
  SyncWorker.mkSyncWorld store_pending (SyncWorker.mkDisk ∅ ∅) [] [].

End Scenario.

(** * Properties *)

(** ** Facts about the store *)

Section StoreFacts.

Import DBManager.

(** A lookup by primary key after the UPDATE sees the updated row. *)
Lemma find_update_uploads uid f rows id :
  (forall r, PendingUpload.upload_id (f r) = PendingUpload.upload_id r) ->
  find (fun r => String.eqb (PendingUpload.upload_id r) id)
       (update_uploads_where uid f rows)
  = option_map (fun r => if String.eqb id uid then f r else r)
      (find (fun r => String.eqb (PendingUpload.upload_id r) id) rows).
Proof.
  intros Hf. induction rows as [|r rows IH]; [reflexivity|].
  cbn [update_uploads_where map find].
  destruct (String.eqb_spec (PendingUpload.upload_id r) uid) as [Huid|Huid].
  - rewrite Hf.
    destruct (String.eqb_spec (PendingUpload.upload_id r) id) as [Hid|Hid].
    + cbn. rewrite <- Hid, Huid, String.eqb_refl. reflexivity.
    + apply IH.
  - destruct (String.eqb_spec (PendingUpload.upload_id r) id) as [Hid|Hid].
    + cbn. rewrite <- Hid. apply String.eqb_neq in Huid. rewrite Huid. reflexivity.
    + apply IH.
Qed.

(** The UPDATE touches no row when none has the key. *)
Lemma update_uploads_absent uid f rows :
  find (fun r => String.eqb (PendingUpload.upload_id r) uid) rows = None ->
  update_uploads_where uid f rows = rows.
Proof.
  induction rows as [|r rows IH]; [reflexivity|].
  cbn [find update_uploads_where map].
  destruct (String.eqb (PendingUpload.upload_id r) uid); [discriminate|].
  intros H. f_equal. apply IH, H.
Qed.

(** When [update_upload_status] returns, each row is what the SET
    clause makes of it if it has the key, and itself otherwise. *)
Lemma get_upload_update_upload_status s now uid status kw s' id :
  update_upload_status s now uid status kw = Ok s' ->
  get_upload s' id
  = option_map (fun r => if String.eqb id uid then set_values now status kw r else r)
      (get_upload s id).
Proof.
  unfold update_upload_status.
  set (s1 := mkStore _ _ _).
  assert (H1 : get_upload s1 id
               = option_map (fun r => if String.eqb id uid
                                      then set_values now status kw r else r)
                   (get_upload s id)).
  { unfold get_upload, s1. cbn [pending_uploads].
    apply find_update_uploads. intros r. reflexivity. }
  intros H.
  assert (Hs' : pending_uploads s' = pending_uploads s1).
  { destruct (execute_error s uid kw); [discriminate|].
    destruct (is_final status); try (injection H as <-; reflexivity);
      destruct (get_upload s1 uid); injection H as <-; reflexivity. }
  unfold get_upload in *. rewrite Hs'. exact H1.
Qed.

(** [update_upload_status] returns exactly when the statement can be
    executed. *)
Lemma update_upload_status_returns s now uid status kw :
  execute_error s uid kw = None ->
  exists s', update_upload_status s now uid status kw = Ok s'.
Proof.
  intros H. unfold update_upload_status. rewrite H.
  destruct (is_final status); eauto;
    match goal with |- context [match ?x with _ => _ end] => destruct x end; eauto.
Qed.

Lemma update_upload_status_raises s now uid status kw e :
  execute_error s uid kw = Some e ->
  update_upload_status s now uid status kw = Raise e.
Proof. intros H. unfold update_upload_status. rewrite H. reflexivity. Qed.

(** Without the [attempts] keyword the statement can be executed. *)
Lemma execute_error_no_attempts s uid kw :
  kw_attempts kw = None -> execute_error s uid kw = None.
Proof. intros H. unfold execute_error. rewrite H. reflexivity. Qed.

(** With a 64-bit [attempts] the statement can be executed. *)
Lemma execute_error_attempts s uid kw n :
  kw_attempts kw = Some (Some n) -> sqlite_integer n = true ->
  execute_error s uid kw = None.
Proof. intros H Hn. unfold execute_error. rewrite H, Hn. reflexivity. Qed.

(** The rows of [kb_meta] are never written by [update_upload_status]. *)
Lemma kb_meta_update_upload_status s now uid status kw s' :
  update_upload_status s now uid status kw = Ok s' -> kb_meta s' = kb_meta s.
Proof.
  unfold update_upload_status. intros H.
  destruct (execute_error s uid kw); [discriminate|].
  destruct (is_final status); try (injection H as <-; reflexivity);
    match type of H with context [match ?x with _ => _ end] => destruct x end;
    injection H as <-; reflexivity.
Qed.

Lemma find_update_events eid now status rows id :
  find (fun e => String.eqb (Event.event_id e) id) (update_events_where eid now status rows)
  = option_map
      (fun e => if String.eqb id eid
                then Event.mk (Event.event_id e) (Event.json e) status
                       (Event.created_at e) now
                else e)
      (find (fun e => String.eqb (Event.event_id e) id) rows).
Proof.
  induction rows as [|e rows IH]; [reflexivity|].
  cbn [update_events_where map find].
  destruct (String.eqb_spec (Event.event_id e) eid) as [Heid|Heid]; cbn [Event.event_id].
  - destruct (String.eqb_spec (Event.event_id e) id) as [Hid|Hid]; [|apply IH].
    cbn. rewrite <- Hid, Heid, String.eqb_refl. reflexivity.
  - destruct (String.eqb_spec (Event.event_id e) id) as [Hid|Hid]; [|apply IH].
    cbn. rewrite <- Hid. apply String.eqb_neq in Heid. rewrite Heid. reflexivity.
Qed.

(** What [update_upload_status] returns, table by table. *)
Lemma update_upload_status_tables s now uid status kw s' :
  update_upload_status s now uid status kw = Ok s' ->
  pending_uploads s'
  = update_uploads_where uid (set_values now status kw) (pending_uploads s)
  /\ kb_meta s' = kb_meta s
  /\ events s'
     = match get_upload s uid with
       | Some r =>
           if is_final status
           then update_events_where (PendingUpload.event_id r) now status (events s)
           else events s
       | None => events s
       end.
Proof.
  unfold update_upload_status. intros H.
  assert (Hlook : forall ev kb,
             get_upload (mkStore ev (update_uploads_where uid (set_values now status kw)
                                       (pending_uploads s)) kb) uid
             = option_map (set_values now status kw) (get_upload s uid)).
  { intros ev kb. unfold get_upload. cbn [pending_uploads].
    rewrite find_update_uploads by reflexivity. rewrite String.eqb_refl.
    destruct (find _ _); reflexivity. }
  rewrite Hlook in H.
  destruct (execute_error s uid kw); [discriminate|].
  destruct (get_upload s uid) as [r|] eqn:Hget; cbn [option_map] in H;
    destruct (is_final status) eqn:Hfinal; injection H as <-; cbn;
    repeat split.
Qed.

Lemma falsy_Some_false (x : string) : x <> "" -> falsy (Some x) = false.
Proof. intros H. cbn. apply String.eqb_neq. exact H. Qed.


End StoreFacts.

(** ** The store's status update *)

(** C10 (as amended).  [update_upload_status] called with an [upload_id]
    that no row of [pending_uploads] has leaves the whole store as it was:
    no row is created and no status is mirrored into an event, whatever
    the status and the keywords.  It returns without raising when the
    [attempts] keyword is absent, NULL or a 64-bit integer; an [attempts]
    that is not a 64-bit integer cannot be bound to the statement, which
    then raises [OverflowError] although no row matches. *)
Theorem update_upload_status_unknown_id s now uid status kw :
  (forall r, In r (pending_uploads s) -> PendingUpload.upload_id r <> uid) ->
  ((forall n, kw_attempts kw = Some (Some n) -> DBManager.sqlite_integer n = true) ->
   DBManager.update_upload_status s now uid status kw = Ok s)
  /\ (forall n,
        kw_attempts kw = Some (Some n) -> DBManager.sqlite_integer n = false ->
        exists what,
          DBManager.update_upload_status s now uid status kw = Raise (OverflowError what)).
Proof.
  intros Habsent.
  assert (Hfind : DBManager.get_upload s uid = None).
  { unfold DBManager.get_upload.
    destruct (find _ (pending_uploads s)) as [r|] eqn:Hf; [|reflexivity].
    apply find_some in Hf as [Hin Heq].
    apply String.eqb_eq in Heq. destruct (Habsent r Hin Heq). }
  split.
  - intros Hkw.
    assert (Hexec : DBManager.execute_error s uid kw = None).
    { unfold DBManager.execute_error. rewrite Hfind.
      destruct (kw_attempts kw) as [[n|]|]; try reflexivity.
      rewrite (Hkw n eq_refl). reflexivity. }
    unfold DBManager.update_upload_status. rewrite Hexec.
    assert (Hs : mkStore (events s)
                   (DBManager.update_uploads_where uid
                      (DBManager.set_values now status kw) (pending_uploads s))
                   (kb_meta s) = s).
    { rewrite update_uploads_absent by exact Hfind. destruct s; reflexivity. }
    rewrite Hs, Hfind.
    destruct (DBManager.is_final status); reflexivity.
  - intros n Hkw Hn. eexists. apply update_upload_status_raises.
    unfold DBManager.execute_error. rewrite Hkw, Hn. reflexivity.
Qed.

Lemma update_upload_status_unknown_id_witness :
  DBManager.update_upload_status Scenario.store_uploaded 50 "mock-upload-1" "FAILED"
    (mkKwargs (Some None) (Some None) (Some None))
  = Ok Scenario.store_uploaded.
Proof.
  destruct (update_upload_status_unknown_id Scenario.store_uploaded 50 "mock-upload-1"
              "FAILED" (mkKwargs (Some None) (Some None) (Some None))) as [H _].
  - intros r [<-|[]]. discriminate.
  - apply H. discriminate.
Defined.

(** C10, the claim as stated fails: no row has the id [mock-upload-1];
    an update that carries [attempts = 2 ** 63] raises, and POST
    /events/mark_status with that body is answered 500. *)
Lemma update_upload_status_unknown_id_overflow :
  DBManager.get_upload Scenario.store_uploaded "mock-upload-1" = None
  /\ DBManager.update_upload_status Scenario.store_uploaded 50 "mock-upload-1" "FAILED"
       (mkKwargs (Some (Some (2 ^ 63))) (Some None) (Some None))
     = Raise (OverflowError "Python int too large to convert to SQLite INTEGER")
  /\ Aggregator.mark_event_status Scenario.store_uploaded 50
       (Aggregator.mkStatusUpdate "mock-upload-1" "FAILED" None None (Some (2 ^ 63)))
     = (500, Scenario.store_uploaded).
Proof. repeat split. Qed.

(** C2 (as amended).  The move to PROCESSING is an unconditional UPDATE
    keyed by [upload_id] alone, with no compare on the current status.  For
    every existing row, whatever its current status, a request for
    PROCESSING whose keywords can be stored (no [attempts], as in the
    uploader's request, or an [attempts] that is a 64-bit integer) sets the
    row's status to PROCESSING, and no row with another key changes.  A
    request whose [attempts] is NULL or not a 64-bit integer raises instead,
    whatever the row's status. *)
Theorem processing_update_is_unconditional s now uid kw r :
  DBManager.get_upload s uid = Some r ->
  (attempts_storable kw ->
   exists s' r',
     DBManager.update_upload_status s now uid "PROCESSING" kw = Ok s'
     /\ DBManager.get_upload s' uid = Some r'
     /\ PendingUpload.status r' = "PROCESSING"
     /\ forall id, id <> uid -> DBManager.get_upload s' id = DBManager.get_upload s id)
  /\ (~ attempts_storable kw ->
      exists e, DBManager.update_upload_status s now uid "PROCESSING" kw = Raise e).
Proof.
  intros Hget. split.
  - intros Hkw.
    destruct (update_upload_status_returns s now uid "PROCESSING" kw) as [s' Hs'].
    { unfold DBManager.execute_error. unfold attempts_storable in Hkw.
      destruct (kw_attempts kw) as [[n|]|]; [rewrite Hkw; reflexivity | destruct Hkw
                                            | reflexivity]. }
    exists s', (DBManager.set_values now "PROCESSING" kw r).
    split; [exact Hs'|].
    split.
    { rewrite (get_upload_update_upload_status _ _ _ _ _ _ uid Hs'), Hget.
      cbn. rewrite String.eqb_refl. reflexivity. }
    split; [reflexivity|].
    intros id Hne.
    rewrite (get_upload_update_upload_status _ _ _ _ _ _ id Hs').
    apply String.eqb_neq in Hne. rewrite Hne.
    destruct (DBManager.get_upload s id); reflexivity.
  - intros Hkw. unfold DBManager.update_upload_status, DBManager.execute_error.
    unfold attempts_storable in Hkw. rewrite Hget.
    destruct (kw_attempts kw) as [[n|]|]; [|eauto|destruct Hkw; exact I].
    destruct (DBManager.sqlite_integer n); [destruct Hkw; reflexivity | eauto].
Qed.

Lemma processing_update_is_unconditional_witness :
  exists s' r',
    DBManager.update_upload_status Scenario.store_uploaded 50 "upload-evt-test-001"
      "PROCESSING" (mkKwargs None (Some (Some "5a17")) None) = Ok s'
    /\ DBManager.get_upload s' "upload-evt-test-001" = Some r'
    /\ PendingUpload.status r' = "PROCESSING"
    /\ forall id, id <> "upload-evt-test-001" ->
         DBManager.get_upload s' id = DBManager.get_upload Scenario.store_uploaded id.
Proof.
  destruct (processing_update_is_unconditional Scenario.store_uploaded 50
              "upload-evt-test-001" (mkKwargs None (Some (Some "5a17")) None)
              Scenario.upload1_done eq_refl) as [H _].
  apply H. exact I.
Defined.

(** C2, the claim as stated fails: a row that is UPLOADED, not
    PENDING_UPLOAD, is moved to PROCESSING by the request. *)
Lemma processing_update_no_lease :
  option_map PendingUpload.status
    (DBManager.get_upload Scenario.store_uploaded "upload-evt-test-001") = Some "UPLOADED"
  /\ exists s',
       DBManager.update_upload_status Scenario.store_uploaded 50 "upload-evt-test-001"
         "PROCESSING" (mkKwargs None (Some (Some "5a17")) None) = Ok s'
       /\ option_map PendingUpload.status
            (DBManager.get_upload s' "upload-evt-test-001") = Some "PROCESSING".
Proof.
  split; [reflexivity|].
  eexists. split; reflexivity.
Qed.

(** C3 (as amended).  A row's checksum is written exactly when an update
    carries one.  A status update without the [checksum] keyword (the
    uploader's FAILED, PENDING_UPLOAD and UPLOADED updates) leaves the
    checksum of every row as it was; an update that is executed and
    carries a checksum (the uploader's PROCESSING update) sets the checksum
    of the row it addresses to the carried value, whether or not one was
    set before, and leaves the other rows' checksums as they were.  POST
    /events/mark_status always passes the keyword: with a valid status and
    a 64-bit [attempts] in its body it writes the body's [checksum] into
    the row it addresses, NULL when the body has none, whatever the row
    held.  For an existing row and a body that has no [attempts], or one
    that is not a 64-bit integer, it is answered 500 and writes nothing. *)
Theorem checksum_written_when_carried :
  (forall s now uid status kw s' id,
     kw_checksum kw = None ->
     DBManager.update_upload_status s now uid status kw = Ok s' ->
     option_map PendingUpload.checksum (DBManager.get_upload s' id)
     = option_map PendingUpload.checksum (DBManager.get_upload s id))
  /\ (forall s now uid status kw c s' r,
        kw_checksum kw = Some (Some c) ->
        DBManager.update_upload_status s now uid status kw = Ok s' ->
        DBManager.get_upload s uid = Some r ->
        option_map PendingUpload.checksum (DBManager.get_upload s' uid) = Some (Some c)
        /\ forall id, id <> uid ->
             option_map PendingUpload.checksum (DBManager.get_upload s' id)
             = option_map PendingUpload.checksum (DBManager.get_upload s id))
  /\ (forall s now update n r,
        Aggregator.status_allowed (Aggregator.status update) = true ->
        Aggregator.attempts update = Some n ->
        DBManager.sqlite_integer n = true ->
        DBManager.get_upload s (Aggregator.upload_id update) = Some r ->
        fst (Aggregator.mark_event_status s now update) = 200
        /\ option_map PendingUpload.checksum
             (DBManager.get_upload (snd (Aggregator.mark_event_status s now update))
                (Aggregator.upload_id update))
           = Some (Aggregator.checksum update))
  /\ (forall s now update r,
        Aggregator.status_allowed (Aggregator.status update) = true ->
        (forall n, Aggregator.attempts update = Some n ->
                   DBManager.sqlite_integer n = false) ->
        DBManager.get_upload s (Aggregator.upload_id update) = Some r ->
        Aggregator.mark_event_status s now update = (500, s)).
Proof.
  assert (Hcarried : forall s now uid status kw c s' r,
             kw_checksum kw = Some (Some c) ->
             DBManager.update_upload_status s now uid status kw = Ok s' ->
             DBManager.get_upload s uid = Some r ->
             option_map PendingUpload.checksum (DBManager.get_upload s' uid)
             = Some (Some c)).
  { intros s now uid status kw c s' r Hkw Hupd Hget.
    rewrite (get_upload_update_upload_status _ _ _ _ _ _ uid Hupd), Hget.
    cbn. rewrite String.eqb_refl. cbn. rewrite Hkw. reflexivity. }
  split; [|split; [|split]].
  - intros s now uid status kw s' id Hkw Hupd.
    rewrite (get_upload_update_upload_status _ _ _ _ _ _ id Hupd).
    destruct (DBManager.get_upload s id) as [r|]; [|reflexivity].
    cbn. destruct (String.eqb id uid); [|reflexivity].
    cbn. rewrite Hkw. reflexivity.
  - intros s now uid status kw c s' r Hkw Hupd Hget.
    split; [exact (Hcarried _ _ _ _ _ _ _ _ Hkw Hupd Hget)|].
    intros id Hne.
    rewrite (get_upload_update_upload_status _ _ _ _ _ _ id Hupd).
    apply String.eqb_neq in Hne. rewrite Hne.
    destruct (DBManager.get_upload s id); reflexivity.
  - intros s now update n r Hallowed Hn Hint Hget.
    unfold Aggregator.mark_event_status. rewrite Hallowed, Hn.
    destruct (update_upload_status_returns s now (Aggregator.upload_id update)
                (Aggregator.status update)
                (mkKwargs (Some (Some n)) (Some (Aggregator.checksum update))
                          (Some (Aggregator.final_url update))))
      as [s' Hs']; [eapply execute_error_attempts; [reflexivity | exact Hint]|].
    rewrite Hs'. split; [reflexivity|].
    cbn [snd].
    rewrite (get_upload_update_upload_status _ _ _ _ _ _ _ Hs'), Hget.
    cbn. rewrite String.eqb_refl. reflexivity.
  - intros s now update r Hallowed Hn Hget.
    unfold Aggregator.mark_event_status, DBManager.update_upload_status,
      DBManager.execute_error.
    rewrite Hallowed, Hget. cbn [kw_attempts].
    destruct (Aggregator.attempts update) as [n|]; [|reflexivity].
    rewrite (Hn n eq_refl). reflexivity.
Qed.

Lemma checksum_written_when_carried_witness :
  fst (Aggregator.mark_event_status Scenario.store_uploaded 50
         (Aggregator.mkStatusUpdate "upload-evt-test-001" "UPLOADED" None
            (Some "5a17") (Some 2))) = 200
  /\ option_map PendingUpload.checksum
       (DBManager.get_upload
          (snd (Aggregator.mark_event_status Scenario.store_uploaded 50
                  (Aggregator.mkStatusUpdate "upload-evt-test-001" "UPLOADED" None
                     (Some "5a17") (Some 2))))
          "upload-evt-test-001")
     = Some (Some "5a17").
Proof.
  apply (proj1 (proj2 (proj2 checksum_written_when_carried)) Scenario.store_uploaded 50
           (Aggregator.mkStatusUpdate "upload-evt-test-001" "UPLOADED" None
              (Some "5a17") (Some 2))
           2 Scenario.upload1_done); reflexivity.
Defined.

(** C3, the claim as stated fails: the row's checksum is set to [5a17];
    a POST /events/mark_status whose body carries another checksum
    replaces it. *)
Lemma checksum_replaced_by_mark_status :
  option_map PendingUpload.checksum
    (DBManager.get_upload Scenario.store_uploaded "upload-evt-test-001")
  = Some (Some "5a17")
  /\ Aggregator.mark_event_status Scenario.store_uploaded 50
       (Aggregator.mkStatusUpdate "upload-evt-test-001" "FAILED" None
          (Some "ffff") (Some 2))
     = (200,
        mkStore [Event.mk "evt-test-001" "{}" "FAILED" 1 50]
          [PendingUpload.mk "upload-evt-test-001" "evt-test-001" "/tmp/test_clip.mp4"
             2 (Some 50) "FAILED" (Some "ffff") None]
          []).
Proof. split; reflexivity. Qed.

(** ** Reasoning about transactions *)

Section Keeps.

Variable R : World -> World -> Prop.
Hypothesis R_refl : forall w, R w w.
Hypothesis R_trans : forall w1 w2 w3, R w1 w2 -> R w2 w3 -> R w1 w3.

Lemma keeps_ret {A} (a : A) : keeps R (ret a).
Proof. intros w. apply R_refl. Qed.

Lemma keeps_raise {A} (e : exn) : keeps R (@raise A e).
Proof. intros w. apply R_refl. Qed.

Lemma keeps_lift {A} (r : result A) : keeps R (lift r).
Proof. destruct r; [apply keeps_ret | apply keeps_raise]. Qed.

Lemma keeps_get_store : keeps R get_store.
Proof. intros w. apply R_refl. Qed.

Lemma keeps_bind {A B} (m : M A) (k : A -> M B) :
  keeps R m -> (forall a, keeps R (k a)) -> keeps R (bind m k).
Proof.
  intros Hm Hk w. unfold bind. specialize (Hm w).
  destruct (m w) as [[a|e] w1]; cbn [snd] in *; [|exact Hm].
  eapply R_trans; [exact Hm | apply Hk].
Qed.

Lemma keeps_bind_raise {A B} (e : exn) (k : A -> M B) : keeps R (bind (raise e) k).
Proof. intros w. apply R_refl. Qed.

Lemma keeps_try_except {A} (m : M A) (h : exn -> M A) :
  keeps R m -> (forall e, keeps R (h e)) -> keeps R (try_except m h).
Proof.
  intros Hm Hh w. unfold try_except. specialize (Hm w).
  destruct (m w) as [[a|e] w1]; cbn [snd] in *; [exact Hm|].
  eapply R_trans; [exact Hm | apply Hh].
Qed.

End Keeps.

(** One step of a proof that a computation keeps a relation which is
    reflexive ([Hrefl]) and transitive ([Htrans]); a [bind] whose first
    computation only returns is the rest applied to the value. *)
Ltac keeps_step Hrefl Htrans :=
  lazymatch goal with
  | |- keeps ?R (bind (ret ?a) ?k) => change (keeps R (k a)); cbv beta
  | |- keeps _ (bind (raise _) _) => apply (keeps_bind_raise _ Hrefl)
  | |- keeps _ (bind _ _) => apply (keeps_bind _ Htrans); [|intros ?]
  | |- keeps _ (ret _) => apply (keeps_ret _ Hrefl)
  | |- keeps _ (raise _) => apply (keeps_raise _ Hrefl)
  | |- keeps _ (lift _) => apply (keeps_lift _ Hrefl)
  | |- keeps _ get_store => apply (keeps_get_store _ Hrefl)
  | |- keeps _ (match ?x with _ => _ end) => destruct x
  end.

Lemma same_attempts_refl w : same_attempts w w.
Proof. intros id. reflexivity. Qed.

Lemma same_attempts_trans w1 w2 w3 :
  same_attempts w1 w2 -> same_attempts w2 w3 -> same_attempts w1 w3.
Proof. intros H12 H23 id. rewrite H23. apply H12. Qed.

Lemma same_attempts_not_lowered w w' :
  same_attempts w w' -> attempts_not_lowered w w'.
Proof.
  intros H id r Hget. specialize (H id). rewrite Hget in H.
  destruct (DBManager.get_upload (w_store w') id) as [r'|]; [|discriminate].
  injection H as H. exists r'. split; [reflexivity | lia].
Qed.

Lemma same_attempts_emit e : keeps same_attempts (emit e).
Proof. intros w id. reflexivity. Qed.

(** A status update without the [attempts] keyword changes no row's
    [attempts]. *)
Lemma same_attempts_db_update now uid status kw :
  kw_attempts kw = None ->
  keeps same_attempts (db_update_upload_status now uid status kw).
Proof.
  intros Hkw w id. unfold db_update_upload_status.
  destruct (DBManager.update_upload_status (w_store w) now uid status kw)
    as [s'|e] eqn:Hupd; [|reflexivity].
  cbn [snd w_store].
  rewrite (get_upload_update_upload_status _ _ _ _ _ _ id Hupd).
  destruct (DBManager.get_upload (w_store w) id) as [r|]; [|reflexivity].
  cbn. destruct (String.eqb id uid); [|reflexivity].
  cbn. rewrite Hkw. reflexivity.
Qed.

Section UploaderFacts.

Variable sha256 : list Byte.byte -> string.
Variable config : Config.
Variable env : Env.

(** The steps of the [try] block write no [attempts]. *)
Lemma upload_steps_same_attempts upload :
  keeps same_attempts (Uploader.upload_steps sha256 config env upload).
Proof.
  unfold Uploader.upload_steps, Uploader.calculate_sha256,
    Uploader._request_presigned_url, Uploader._upload_file,
    Uploader._complete_upload, Uploader._post_metadata.
  repeat first
    [ apply same_attempts_emit
    | apply same_attempts_db_update; reflexivity
    | keeps_step same_attempts_refl same_attempts_trans ].
Qed.

End UploaderFacts.

(** A status update that carries [attempts = n] lowers no row's
    [attempts] when the row it addresses has at most [n]. *)
Lemma attempts_not_lowered_db_update now uid status kw n w0 w :
  w_store w0 = w_store w ->
  kw_attempts kw = Some (Some n) ->
  (forall r, DBManager.get_upload (w_store w) uid = Some r ->
             PendingUpload.attempts r <= n) ->
  attempts_not_lowered w0 (snd (db_update_upload_status now uid status kw w)).
Proof.
  intros Hw0 Hkw Hrow id r Hget. rewrite Hw0 in Hget.
  unfold db_update_upload_status.
  destruct (DBManager.update_upload_status (w_store w) now uid status kw)
    as [s'|e] eqn:Hupd; cbn [snd w_store].
  - rewrite (get_upload_update_upload_status _ _ _ _ _ _ id Hupd), Hget. cbn.
    destruct (String.eqb_spec id uid) as [->|Hne].
    + eexists. split; [reflexivity|]. cbn. rewrite Hkw. apply Hrow, Hget.
    + exists r. split; [reflexivity | lia].
  - exists r. split; [exact Hget | lia].
Qed.

Lemma attempts_same_or_set_refl uid n w : attempts_same_or_set uid n w w.
Proof. intros id r Hget. exists r. split; [exact Hget | left; reflexivity]. Qed.

Lemma attempts_same_or_set_trans uid n w1 w2 w3 :
  attempts_same_or_set uid n w1 w2 -> attempts_same_or_set uid n w2 w3 ->
  attempts_same_or_set uid n w1 w3.
Proof.
  intros H12 H23 id r Hget.
  destruct (H12 id r Hget) as (r2 & Hget2 & H2).
  destruct (H23 id r2 Hget2) as (r3 & Hget3 & H3).
  exists r3. split; [exact Hget3|].
  destruct H3 as [H3|H3]; [|right; exact H3].
  rewrite H3. exact H2.
Qed.

Lemma same_attempts_same_or_set uid n w w' :
  same_attempts w w' -> attempts_same_or_set uid n w w'.
Proof.
  intros H id r Hget. specialize (H id). rewrite Hget in H.
  destruct (DBManager.get_upload (w_store w') id) as [r'|]; [|discriminate].
  injection H as H. exists r'. split; [reflexivity | left; exact H].
Qed.

(** A status update of the row under [uid] that carries [attempts = n]. *)
Lemma attempts_same_or_set_db_update now uid status kw n :
  kw_attempts kw = Some (Some n) ->
  keeps (attempts_same_or_set uid n) (db_update_upload_status now uid status kw).
Proof.
  intros Hkw w id r Hget. unfold db_update_upload_status.
  destruct (DBManager.update_upload_status (w_store w) now uid status kw)
    as [s'|e] eqn:Hupd; cbn [snd w_store].
  - rewrite (get_upload_update_upload_status _ _ _ _ _ _ id Hupd), Hget. cbn.
    destruct (String.eqb_spec id uid) as [->|Hne].
    + eexists. split; [reflexivity|]. right. split; [reflexivity|].
      cbn. rewrite Hkw. reflexivity.
    + exists r. split; [reflexivity | left; reflexivity].
  - exists r. split; [exact Hget | left; reflexivity].
Qed.

Section FailureFacts.

Variable config : Config.
Variable env : Env.

(** [_handle_failure] writes [upload.attempts + 1] into the row of the
    upload, and no other [attempts]. *)
Lemma handle_failure_same_or_set upload status_code :
  keeps (attempts_same_or_set (PendingUpload.upload_id upload)
           (PendingUpload.attempts upload + 1))
    (Uploader._handle_failure config env upload status_code).
Proof.
  unfold Uploader._handle_failure, Uploader.sleep.
  repeat first
    [ apply attempts_same_or_set_db_update; reflexivity
    | intros w; apply same_attempts_same_or_set, same_attempts_emit
    | keeps_step (attempts_same_or_set_refl (PendingUpload.upload_id upload)
                    (PendingUpload.attempts upload + 1))
                 (attempts_same_or_set_trans (PendingUpload.upload_id upload)
                    (PendingUpload.attempts upload + 1)) ].
Qed.

(** [_handle_failure] writes [upload.attempts + 1]: no row's [attempts]
    is lowered when the stored row has at most that. *)
Lemma handle_failure_attempts upload status_code w :
  (forall r, DBManager.get_upload (w_store w) (PendingUpload.upload_id upload) = Some r ->
             PendingUpload.attempts r <= PendingUpload.attempts upload + 1) ->
  attempts_not_lowered w (snd (Uploader._handle_failure config env upload status_code w)).
Proof.
  intros Hrow id r Hget.
  destruct (handle_failure_same_or_set upload status_code w id r Hget)
    as (r' & Hget' & [H|[-> H]]).
  - exists r'. split; [exact Hget' | lia].
  - exists r'. split; [exact Hget'|]. rewrite H. apply Hrow, Hget.
Qed.

End FailureFacts.

(** What a transaction does to the [attempts] of the rows. *)
Lemma process_upload_same_or_set sha256 config env upload :
  keeps (attempts_same_or_set (PendingUpload.upload_id upload)
           (PendingUpload.attempts upload + 1))
    (Uploader.process_upload sha256 config env upload).
Proof.
  unfold Uploader.process_upload.
  destruct (read_file env (PendingUpload.filepath upload)) as [content|].
  - apply (keeps_try_except _ (attempts_same_or_set_trans _ _)).
    + intros w. apply same_attempts_same_or_set, upload_steps_same_attempts.
    + intros e. destruct e; apply handle_failure_same_or_set.
  - intros w. apply same_attempts_same_or_set, same_attempts_db_update. reflexivity.
Qed.

(** ** The [attempts] counter *)

(** C7 (as amended).  The uploader never lowers [attempts].  A
    transaction leaves every row of [pending_uploads] in place, with its
    [attempts] unchanged (by the PROCESSING update and by the missing-file
    FAILED update) or, for the row of the upload on a failure, set to
    [upload.attempts + 1]; so no [attempts] is lower than before when
    [upload] is the stored row.  POST /events/mark_status with an
    [attempts] value in its body that is a 64-bit integer writes that value
    into the row it addresses, whatever the row held before. *)
Theorem attempts_uploader_monotone_mark_status_writes :
  (forall sha256 config env upload w id r,
     DBManager.get_upload (w_store w) id = Some r ->
     exists r',
       DBManager.get_upload
         (w_store (snd (Uploader.process_upload sha256 config env upload w))) id
       = Some r'
       /\ (PendingUpload.attempts r' = PendingUpload.attempts r
           \/ (id = PendingUpload.upload_id upload
               /\ PendingUpload.attempts r' = PendingUpload.attempts upload + 1)))
  /\ (forall sha256 config env upload w,
        DBManager.get_upload (w_store w) (PendingUpload.upload_id upload) = Some upload ->
        forall id r,
          DBManager.get_upload (w_store w) id = Some r ->
          exists r',
            DBManager.get_upload
              (w_store (snd (Uploader.process_upload sha256 config env upload w))) id
            = Some r'
            /\ PendingUpload.attempts r <= PendingUpload.attempts r')
  /\ (forall s now update n r,
        Aggregator.status_allowed (Aggregator.status update) = true ->
        Aggregator.attempts update = Some n ->
        DBManager.sqlite_integer n = true ->
        DBManager.get_upload s (Aggregator.upload_id update) = Some r ->
        fst (Aggregator.mark_event_status s now update) = 200
        /\ option_map PendingUpload.attempts
             (DBManager.get_upload (snd (Aggregator.mark_event_status s now update))
                (Aggregator.upload_id update))
           = Some n).
Proof.
  split; [|split].
  - intros sha256 config env upload w id r Hget.
    exact (process_upload_same_or_set sha256 config env upload w id r Hget).
  - intros sha256 config env upload w Hsnap id r Hget.
    destruct (process_upload_same_or_set sha256 config env upload w id r Hget)
      as (r' & Hget' & [H|[-> H]]).
    + exists r'. split; [exact Hget' | lia].
    + exists r'. split; [exact Hget'|].
      rewrite Hsnap in Hget. injection Hget as <-. lia.
  - intros s now update n r Hallowed Hn Hint Hget.
    unfold Aggregator.mark_event_status. rewrite Hallowed, Hn.
    destruct (update_upload_status_returns s now (Aggregator.upload_id update)
                (Aggregator.status update)
                (mkKwargs (Some (Some n)) (Some (Aggregator.checksum update))
                          (Some (Aggregator.final_url update))))
      as [s' Hs']; [eapply execute_error_attempts; [reflexivity | exact Hint]|].
    rewrite Hs'. split; [reflexivity|]. cbn [snd].
    rewrite (get_upload_update_upload_status _ _ _ _ _ _ _ Hs'), Hget.
    cbn. rewrite String.eqb_refl. reflexivity.
Qed.

(** C7, the claim as stated fails: the row has [attempts = 2]; a POST
    /events/mark_status whose body says [attempts = 0] lowers it to 0. *)
Lemma attempts_lowered_by_mark_status :
  option_map PendingUpload.attempts
    (DBManager.get_upload Scenario.store_uploaded "upload-evt-test-001") = Some 2
  /\ Aggregator.mark_event_status Scenario.store_uploaded 50
       (Aggregator.mkStatusUpdate "upload-evt-test-001" "PROCESSING"
          (Some "https://cdn/u1") (Some "5a17") (Some 0))
     = (200,
        mkStore [Event.mk "evt-test-001" "{}" "UPLOADED" 1 40]
          [PendingUpload.mk "upload-evt-test-001" "evt-test-001" "/tmp/test_clip.mp4"
             0 (Some 50) "PROCESSING" (Some "5a17") (Some "https://cdn/u1")]
          [])
  /\ 0 < 2.
Proof. repeat split; reflexivity. Qed.

Lemma attempts_uploader_monotone_mark_status_writes_witness :
  exists r',
    DBManager.get_upload
      (w_store (snd (Uploader.process_upload Scenario.digest Scenario.config
                       Scenario.env_503 Scenario.upload1
                       (mkWorld Scenario.store_pending []))))
      "upload-evt-test-001"
    = Some r'
    /\ PendingUpload.attempts Scenario.upload1 <= PendingUpload.attempts r'.
Proof.
  apply (proj1 (proj2 attempts_uploader_monotone_mark_status_writes)
           Scenario.digest Scenario.config Scenario.env_503 Scenario.upload1
           (mkWorld Scenario.store_pending []) eq_refl
           "upload-evt-test-001" Scenario.upload1 eq_refl).
Defined.

(** ** The missing clip *)



(** ** Failure handling and the retry sleep *)

Lemma db_update_trace now uid status kw w :
  w_trace (snd (db_update_upload_status now uid status kw w)) = w_trace w.
Proof.
  unfold db_update_upload_status.
  destruct (DBManager.update_upload_status _ _ _ _ _); reflexivity.
Qed.

Section RetryFacts.

Variable config : Config.
Variable env : Env.

Let B := retry_backoff_seconds config.

(** [_handle_failure] sleeps at most once, and only on the retry branch. *)
Lemma handle_failure_trace upload status_code w :
  let n := PendingUpload.attempts upload + 1 in
  w_trace (snd (Uploader._handle_failure config env upload status_code w))
  = (w_trace w ++
     if negb (n >=? max_retries config) && (status_code >=? 500)
        && negb (Uploader.wait_time_overflow config n)
        && Qle_bool 0 (Uploader.wait_time config env n)
     then [Sleep (Uploader.wait_time config env n)] else [])%list.
Proof.
  cbv zeta. unfold Uploader._handle_failure.
  destruct (_ >=? max_retries config); cbn [negb andb].
  { rewrite db_update_trace, app_nil_r. reflexivity. }
  destruct (status_code >=? 500); cbn [andb].
  2: { rewrite db_update_trace, app_nil_r. reflexivity. }
  destruct (Uploader.wait_time_overflow config _); cbn [negb andb].
  { cbn. rewrite app_nil_r. reflexivity. }
  unfold bind, Uploader.sleep.
  destruct (Qle_bool 0 _).
  - unfold emit. cbv beta iota. rewrite db_update_trace. reflexivity.
  - cbn. rewrite app_nil_r. reflexivity.
Qed.

Lemma backoff_time_ge n :
  0 <= B -> 1 <= n -> (inject_Z B <= Uploader.backoff_time config n)%Q.
Proof.
  intros HB Hn. unfold Uploader.backoff_time. fold B.
  assert (Hp : (1 <= 2 ^ (n - 1))%Q) by (apply Qpower_1_le; [lra | lia]).
  rewrite Zle_Qle in HB. change (inject_Z 0) with 0%Q in HB.
  nra.
Qed.

Lemma jitter_bounds :
  0 <= B -> (0 <= random env)%Q -> (random env < 1)%Q ->
  (0 <= Uploader.jitter config env /\ Uploader.jitter config env <= inject_Z B)%Q.
Proof.
  intros HB H0 H1. unfold Uploader.jitter. fold B.
  rewrite Zle_Qle in HB. change (inject_Z 0) with 0%Q in HB.
  split; nra.
Qed.

(** The sleep length is never negative for a base and a random draw
    that are not. *)
Lemma wait_time_nonneg n :
  0 <= B -> (0 <= random env)%Q -> (0 <= Uploader.wait_time config env n)%Q.
Proof.
  intros HB H0. unfold Uploader.wait_time.
  apply Q.min_glb; [|lra].
  assert (Hb : (0 <= Uploader.backoff_time config n)%Q).
  { unfold Uploader.backoff_time. apply Qmult_le_0_compat.
    - rewrite Zle_Qle in HB. exact HB.
    - apply Qpower_0_le. lra. }
  assert (Hj : (0 <= Uploader.jitter config env)%Q).
  { unfold Uploader.jitter. apply Qmult_le_0_compat; [exact H0|].
    rewrite Zle_Qle in HB. exact HB. }
  lra.
Qed.

(** No integer of the sleep computation is too large for a float when
    the base is at most the cap and the row has had fewer than 1000
    attempts; and the new [attempts] is a 64-bit integer. *)
Lemma small_attempts_fit a :
  0 <= B <= 3600 -> 0 <= a < 1000 ->
  DBManager.sqlite_integer (a + 1) = true
  /\ Uploader.wait_time_overflow config (a + 1) = false.
Proof.
  intros HB Ha. split.
  - unfold DBManager.sqlite_integer. apply andb_true_intro. split.
    + apply Z.leb_le. assert (- 2 ^ 63 <= 0) by (vm_compute; discriminate). lia.
    + apply Z.ltb_lt. assert (1001 < 2 ^ 63) by reflexivity. lia.
  - unfold Uploader.wait_time_overflow, Uploader.float_overflow. fold B.
    assert (Hbig : 3600 * 2 ^ 999 < 2 ^ 1024 - 2 ^ 970) by reflexivity.
    assert (Hpow : 0 < 2 ^ (a + 1 - 1) <= 2 ^ 999).
    { split; [apply Z.pow_pos_nonneg; lia | apply Z.pow_le_mono_r; lia]. }
    assert (Hprod : 0 <= B * 2 ^ (a + 1 - 1) <= 3600 * 2 ^ 999).
    { split; [apply Z.mul_nonneg_nonneg; lia|].
      apply Z.mul_le_mono_nonneg; lia. }
    assert (H1 : 3600 < 2 ^ 1024 - 2 ^ 970) by reflexivity.
    apply orb_false_intro.
    + apply Z.leb_gt. rewrite Z.abs_eq by lia. lia.
    + apply andb_false_intro2. apply Z.leb_gt. rewrite Z.abs_eq by lia. lia.
Qed.

(** What [_handle_failure] leaves in the store and adds to the trace
    when its update can be executed and its sleep computed. *)
Lemma handle_failure_outcome upload status_code w r :
  0 <= B -> (0 <= random env)%Q ->
  DBManager.sqlite_integer (PendingUpload.attempts upload + 1) = true ->
  Uploader.wait_time_overflow config (PendingUpload.attempts upload + 1) = false ->
  DBManager.get_upload (w_store w) (PendingUpload.upload_id upload) = Some r ->
  exists w' r',
    Uploader._handle_failure config env upload status_code w = (Ok tt, w')
    /\ DBManager.get_upload (w_store w') (PendingUpload.upload_id upload) = Some r'
    /\ r' = PendingUpload.mk (PendingUpload.upload_id r) (PendingUpload.event_id r)
              (PendingUpload.filepath r) (PendingUpload.attempts upload + 1)
              (Some (now_closing env))
              (if (PendingUpload.attempts upload + 1 >=? max_retries config)
                  || negb (status_code >=? 500)
               then "FAILED" else "PENDING_UPLOAD")
              (PendingUpload.checksum r) (PendingUpload.final_url r)
    /\ w_trace w'
       = (w_trace w ++
          if (PendingUpload.attempts upload + 1 >=? max_retries config)
             || negb (status_code >=? 500)
          then []
          else [Sleep (Uploader.wait_time config env (PendingUpload.attempts upload + 1))])%list
    /\ (forall id, id <> PendingUpload.upload_id upload ->
                   DBManager.get_upload (w_store w') id = DBManager.get_upload (w_store w) id)
    /\ events (w_store w')
       = if (PendingUpload.attempts upload + 1 >=? max_retries config)
            || negb (status_code >=? 500)
         then DBManager.update_events_where (PendingUpload.event_id r) (now_closing env)
                "FAILED" (events (w_store w))
         else events (w_store w).
Proof.
  intros HB H0 Hint Hfit Hget.
  assert (Hupd : forall status tr,
             exists w' r',
               db_update_upload_status (now_closing env) (PendingUpload.upload_id upload)
                 status (mkKwargs (Some (Some (PendingUpload.attempts upload + 1))) None None)
                 (mkWorld (w_store w) tr) = (Ok tt, w')
               /\ DBManager.get_upload (w_store w') (PendingUpload.upload_id upload)
                  = Some r'
               /\ r' = PendingUpload.mk (PendingUpload.upload_id r)
                         (PendingUpload.event_id r) (PendingUpload.filepath r)
                         (PendingUpload.attempts upload + 1) (Some (now_closing env))
                         status (PendingUpload.checksum r) (PendingUpload.final_url r)
               /\ w_trace w' = tr
               /\ (forall id, id <> PendingUpload.upload_id upload ->
                              DBManager.get_upload (w_store w') id
                              = DBManager.get_upload (w_store w) id)
               /\ events (w_store w')
                  = if DBManager.is_final status
                    then DBManager.update_events_where (PendingUpload.event_id r)
                           (now_closing env) status (events (w_store w))
                    else events (w_store w)).
  { intros status tr. unfold db_update_upload_status. cbn [w_store w_trace].
    destruct (update_upload_status_returns (w_store w) (now_closing env)
                (PendingUpload.upload_id upload) status
                (mkKwargs (Some (Some (PendingUpload.attempts upload + 1))) None None))
      as [s' Hs']; [eapply execute_error_attempts; [reflexivity | exact Hint]|].
    rewrite Hs'. eexists. eexists. split; [reflexivity|]. cbn [w_store w_trace].
    pose proof (get_upload_update_upload_status _ _ _ _ _ _
                  (PendingUpload.upload_id upload) Hs') as Hrow.
    rewrite Hget in Hrow. cbn in Hrow. rewrite String.eqb_refl in Hrow.
    split; [exact Hrow|]. split; [reflexivity|]. split; [reflexivity|].
    split.
    - intros id Hne.
      rewrite (get_upload_update_upload_status _ _ _ _ _ _ id Hs').
      apply String.eqb_neq in Hne. rewrite Hne.
      destruct (DBManager.get_upload (w_store w) id); reflexivity.
    - unfold DBManager.update_upload_status in Hs'.
      rewrite (execute_error_attempts _ _
                 (mkKwargs (Some (Some (PendingUpload.attempts upload + 1))) None None)
                 _ eq_refl Hint) in Hs'.
      destruct (DBManager.is_final status).
      + match type of Hs' with
        | match ?g with _ => _ end = _ =>
            assert (Hg : g = Some (DBManager.set_values (now_closing env) status
                                     (mkKwargs (Some (Some (PendingUpload.attempts upload + 1)))
                                        None None) r))
        end.
        { unfold DBManager.get_upload. cbn [pending_uploads].
          rewrite find_update_uploads by reflexivity.
          fold (DBManager.get_upload (w_store w) (PendingUpload.upload_id upload)).
          rewrite Hget. cbn. rewrite String.eqb_refl. reflexivity. }
        rewrite Hg in Hs'. injection Hs' as <-. reflexivity.
      + injection Hs' as <-. reflexivity. }
  unfold Uploader._handle_failure.
  destruct (_ >=? max_retries config); cbn [orb].
  { destruct w as [st tr]. cbn [w_store w_trace] in *.
    destruct (Hupd "FAILED" tr) as (w' & r' & H1 & H2 & H3 & H4 & H5 & H6).
    exists w', r'. rewrite app_nil_r. repeat split; assumption. }
  destruct (status_code >=? 500); cbn [negb].
  2: { destruct w as [st tr]. cbn [w_store w_trace] in *.
       destruct (Hupd "FAILED" tr) as (w' & r' & H1 & H2 & H3 & H4 & H5 & H6).
       exists w', r'. rewrite app_nil_r. repeat split; assumption. }
  rewrite Hfit.
  unfold bind, Uploader.sleep.
  pose proof (wait_time_nonneg (PendingUpload.attempts upload + 1) HB H0) as Hw.
  apply Qle_bool_iff in Hw. rewrite Hw.
  unfold emit. cbv beta iota.
  destruct (Hupd "PENDING_UPLOAD"
              (w_trace w ++ [Sleep (Uploader.wait_time config env
                                      (PendingUpload.attempts upload + 1))])%list)
    as (w' & r' & H1 & H2 & H3 & H4 & H5 & H6).
  exists w', r'. repeat split; assumption.
Qed.

End RetryFacts.

(** C6 (as amended).  For a base [B = retry_backoff_seconds] with
    [0 <= B <= 3600], an attempt number [n = attempts + 1 >= 1] and a
    random draw in [[0, 1)], every sleep of [_handle_failure] lasts
    [min(B * 2^(n-1) + random * B, 3600)] seconds, and
    [B <= sleep <= min(B * 2^(n-1) + B, 3600)]. *)
Theorem retry_sleep_bounds config env upload status_code w new seconds :
  0 <= retry_backoff_seconds config <= 3600 ->
  0 <= PendingUpload.attempts upload ->
  (0 <= random env)%Q ->
  (random env < 1)%Q ->
  w_trace (snd (Uploader._handle_failure config env upload status_code w))
  = (w_trace w ++ new)%list ->
  In (Sleep seconds) new ->
  let B := inject_Z (retry_backoff_seconds config) in
  let n := PendingUpload.attempts upload + 1 in
  seconds = Qmin (B * 2 ^ (n - 1) + random env * B) 3600
  /\ (B <= seconds)%Q
  /\ (seconds <= Qmin (B * 2 ^ (n - 1) + B) 3600)%Q.
Proof.
  intros [HB0 HB1] Hatt Hr0 Hr1 Htrace Hin B n.
  rewrite handle_failure_trace in Htrace. cbv zeta in Htrace. fold n in Htrace.
  apply app_inv_head in Htrace. subst new.
  destruct (negb _ && _ && _ && _); [|destruct Hin].
  destruct Hin as [Heq|[]]. injection Heq as <-.
  split; [reflexivity|].
  pose proof (backoff_time_ge config n HB0 ltac:(lia)) as Hback.
  destruct (jitter_bounds config env HB0 Hr0 Hr1) as [Hj0 Hj1].
  unfold Uploader.wait_time.
  unfold Uploader.backoff_time, Uploader.jitter in *. fold B in Hback, Hj0, Hj1 |- *.
  assert (HB : (B <= 3600)%Q) by (unfold B; rewrite Zle_Qle in HB1; exact HB1).
  set (x := (B * 2 ^ (n - 1))%Q) in *. set (j := (random env * B)%Q) in *.
  clearbody x j B.
  split.
  - apply Q.min_glb; lra.
  - apply Q.min_le_compat_r. lra.
Qed.

Lemma retry_sleep_bounds_witness :
  Uploader.wait_time Scenario.config Scenario.env_503 1
  = Qmin (inject_Z 1 * 2 ^ (0 + 1 - 1) + (1 # 2) * inject_Z 1) 3600
  /\ (inject_Z 1 <= Uploader.wait_time Scenario.config Scenario.env_503 1)%Q
  /\ (Uploader.wait_time Scenario.config Scenario.env_503 1
      <= Qmin (inject_Z 1 * 2 ^ (0 + 1 - 1) + inject_Z 1) 3600)%Q.
Proof.
  apply (retry_sleep_bounds Scenario.config Scenario.env_503 Scenario.upload1 503
           (mkWorld Scenario.store_pending [])
           [Sleep (Uploader.wait_time Scenario.config Scenario.env_503 1)]).
  - cbn. lia.
  - cbn. lia.
  - cbn. lra.
  - cbn. lra.
  - reflexivity.
  - left. reflexivity.
Defined.

(** C6, the claim as stated fails: with [retry_backoff_seconds = 4000]
    the first retry sleeps 3600 seconds, less than the base. *)
Lemma retry_sleep_below_base :
  w_trace (snd (Uploader._handle_failure Scenario.config_slow Scenario.env_503
                  Scenario.upload1 503 (mkWorld Scenario.store_pending [])))
  = [Sleep 3600]
  /\ ~ (inject_Z (retry_backoff_seconds Scenario.config_slow) <= 3600)%Q.
Proof.
  split; [reflexivity|]. intros H. unfold Qle in H. cbn in H. lia.
Qed.

(** ** A presign reply without its URLs *)

(** C4 (as amended).  A presign reply that is not JSON, or that lacks
    [upload_url] or [final_url], is handled as a failure with status 500,
    which is retryable.  For [0 <= retry_backoff_seconds <= 3600] and a row
    with [0 <= attempts < 1000] the transaction returns after the presign
    request alone, and the row's [attempts] is [upload.attempts + 1]; the
    row is FAILED, without a sleep, only when that reaches [max_retries];
    otherwise it is back in PENDING_UPLOAD after one backoff sleep of at
    most an hour. *)
Theorem presign_without_urls_handled_as_500 sha256 config env upload w r content body :
  0 <= retry_backoff_seconds config <= 3600 ->
  0 <= PendingUpload.attempts upload < 1000 ->
  (0 <= random env)%Q ->
  read_file env (PendingUpload.filepath upload) = Some content ->
  raise_for_status (presign_reply env) = Ok body ->
  match body with
  | NotJson => True
  | JsonObject d => falsy (pd_upload_url d) || falsy (pd_final_url d) = true
  end ->
  DBManager.get_upload (w_store w) (PendingUpload.upload_id upload) = Some r ->
  let presign :=
    PresignRequest (tenant_id config) (device_id config)
      (PendingUpload.event_id upload) (path_name (PendingUpload.filepath upload))
      (Z.of_nat (length content))
      (Uploader.content_type_of (PendingUpload.filepath upload))
      (PendingUpload.event_id upload) in
  exists w' r',
    Uploader.process_upload sha256 config env upload w = (Ok tt, w')
    /\ DBManager.get_upload (w_store w') (PendingUpload.upload_id upload) = Some r'
    /\ PendingUpload.attempts r' = PendingUpload.attempts upload + 1
    /\ (max_retries config <= PendingUpload.attempts upload + 1 ->
        PendingUpload.status r' = "FAILED"
        /\ w_trace w' = (w_trace w ++ [presign])%list)
    /\ (PendingUpload.attempts upload + 1 < max_retries config ->
        PendingUpload.status r' = "PENDING_UPLOAD"
        /\ exists seconds,
             w_trace w' = (w_trace w ++ [presign; Sleep seconds])%list
             /\ (0 <= seconds <= 3600)%Q).
Proof.
  intros HB Hatt Hr0 Hfile Hreply Hbody Hget presign.
  destruct (small_attempts_fit config (PendingUpload.attempts upload) HB Hatt)
    as [Hint Hfit].
  unfold Uploader.process_upload. rewrite Hfile.
  unfold try_except, Uploader.upload_steps, Uploader.calculate_sha256,
    Uploader._request_presigned_url.
  rewrite Hfile. unfold bind at 1. unfold ret at 1. cbv beta iota.
  unfold bind at 1. unfold bind at 1. unfold emit at 1. cbv beta iota.
  unfold bind at 1. rewrite Hreply. unfold lift, ret at 1. cbv beta iota.
  fold presign.
  set (w1 := mkWorld (w_store w) _).
  assert (Hfail : exists w' r',
             Uploader._handle_failure config env upload 500 w1 = (Ok tt, w')
             /\ DBManager.get_upload (w_store w') (PendingUpload.upload_id upload) = Some r'
             /\ PendingUpload.attempts r' = PendingUpload.attempts upload + 1
             /\ (max_retries config <= PendingUpload.attempts upload + 1 ->
                 PendingUpload.status r' = "FAILED"
                 /\ w_trace w' = (w_trace w ++ [presign])%list)
             /\ (PendingUpload.attempts upload + 1 < max_retries config ->
                 PendingUpload.status r' = "PENDING_UPLOAD"
                 /\ exists seconds,
                      w_trace w' = (w_trace w ++ [presign; Sleep seconds])%list
                      /\ (0 <= seconds <= 3600)%Q)).
  { destruct (handle_failure_outcome config env upload 500 w1 r (proj1 HB) Hr0 Hint Hfit
                Hget)
      as (w' & r' & H1 & H2 & H3 & H4 & _).
    exists w', r'. split; [exact H1|]. split; [exact H2|].
    change (500 >=? 500) with true in H3, H4. cbn [negb] in H3, H4.
    rewrite orb_false_r in H3, H4.
    split; [rewrite H3; reflexivity|].
    split.
    - intros Hmax. apply Z.geb_le in Hmax. rewrite Hmax in H3, H4.
      split; [rewrite H3; reflexivity|].
      rewrite H4. unfold w1. cbn [w_trace]. rewrite app_nil_r. reflexivity.
    - intros Hmax.
      assert (Hge : (PendingUpload.attempts upload + 1 >=? max_retries config) = false).
      { rewrite Z.geb_leb. apply Z.leb_gt. exact Hmax. }
      rewrite Hge in H3, H4.
      split; [rewrite H3; reflexivity|].
      eexists. split.
      + rewrite H4. unfold w1. cbn [w_trace]. rewrite <- app_assoc. reflexivity.
      + split.
        * apply wait_time_nonneg; [exact (proj1 HB) | exact Hr0].
        * unfold Uploader.wait_time. apply Q.le_min_r. }
  destruct body as [|d].
  - unfold raise. cbv beta iota. exact Hfail.
  - unfold ret. cbv beta iota. rewrite Hbody. unfold raise. cbv beta iota. exact Hfail.
Qed.

Lemma presign_without_urls_handled_as_500_witness :
  exists w' r',
    Uploader.process_upload Scenario.digest Scenario.config Scenario.env_no_url
      Scenario.upload1 (mkWorld Scenario.store_pending []) = (Ok tt, w')
    /\ DBManager.get_upload (w_store w') "upload-evt-test-001" = Some r'
    /\ PendingUpload.attempts r' = 0 + 1
    /\ PendingUpload.status r' = "PENDING_UPLOAD".
Proof.
  destruct (presign_without_urls_handled_as_500 Scenario.digest Scenario.config
              Scenario.env_no_url Scenario.upload1 (mkWorld Scenario.store_pending [])
              Scenario.upload1 Scenario.clip
              (JsonObject (mkPresignedData None (Some "https://cdn/u1") None)))
    as (w' & r' & H1 & H2 & H3 & _ & H5).
  - cbn. lia.
  - cbn. lia.
  - cbn. lra.
  - reflexivity.
  - reflexivity.
  - reflexivity.
  - reflexivity.
  - exists w', r'. split; [exact H1|]. split; [exact H2|]. split; [exact H3|].
    apply H5. cbn. lia.
Defined.

(** C4, the claim as stated fails: the presign reply has no
    [upload_url]; the row, at its first attempt of three, is not FAILED
    but back in PENDING_UPLOAD after a backoff sleep. *)
Lemma presign_without_upload_url_retried :
  Uploader.process_upload Scenario.digest Scenario.config Scenario.env_no_url
    Scenario.upload1 (mkWorld Scenario.store_pending [])
  = (Ok tt,
     mkWorld
       (mkStore [Scenario.event1]
          [PendingUpload.mk "upload-evt-test-001" "evt-test-001" "/tmp/test_clip.mp4"
             1 (Some 20) "PENDING_UPLOAD" None None]
          [])
       [PresignRequest "acme" "thor-mini-001" "evt-test-001" "test_clip.mp4" 4
          "video/mp4" "evt-test-001";
        Sleep (Uploader.wait_time Scenario.config Scenario.env_no_url 1)]).
Proof. reflexivity. Qed.

(** ** The upload id returned by the server *)

(** C1 fails on the code.  The mock central server answers the presign
    request with its own [upload_id], [mock-upload-1].  The PROCESSING
    update is addressed to [mock-upload-1], a key no row has, so the row is
    never PROCESSING and never gets its checksum, while the completion
    request and the failure handling use the local id.  When every request
    is answered 200 the transaction fails at the metadata step and the
    failure is written under the local id: the row is back in
    PENDING_UPLOAD with one attempt, without checksum and without
    [final_url], and no row carries the server's id.  When the server
    refuses the completion sent under the local id, as the mock server
    does, the row that was never PROCESSING is FAILED, without checksum. *)
Theorem server_upload_id_not_recorded :
  Uploader.process_upload Scenario.digest Scenario.config Scenario.env_ok
    Scenario.upload1 (mkWorld Scenario.store_pending [])
  = (Ok tt,
     mkWorld
       (mkStore [Scenario.event1]
          [PendingUpload.mk "upload-evt-test-001" "evt-test-001" "/tmp/test_clip.mp4"
             1 (Some 20) "PENDING_UPLOAD" None None]
          [])
       [PresignRequest "acme" "thor-mini-001" "evt-test-001" "test_clip.mp4" 4
          "video/mp4" "evt-test-001";
        PutRequest "http://localhost:5000/mock-upload/mock-upload-1" Scenario.clip
          "video/mp4" "5a17";
        CompleteRequest "upload-evt-test-001" "evt-test-001"
          "https://cdn.example.com/acme/thor-mini-001/evt-test-001/test_clip.mp4"
          "5a17" "evt-test-001";
        Sleep (Uploader.wait_time Scenario.config Scenario.env_ok 1)])
  /\ Uploader.process_upload Scenario.digest Scenario.config Scenario.env_mock
       Scenario.upload1 (mkWorld Scenario.store_pending [])
     = (Ok tt,
        mkWorld
          (mkStore [Event.mk "evt-test-001" "{}" "FAILED" 1 20]
             [PendingUpload.mk "upload-evt-test-001" "evt-test-001" "/tmp/test_clip.mp4"
                1 (Some 20) "FAILED" None None]
             [])
          [PresignRequest "acme" "thor-mini-001" "evt-test-001" "test_clip.mp4" 4
             "video/mp4" "evt-test-001";
           PutRequest "http://localhost:5000/mock-upload/mock-upload-1" Scenario.clip
             "video/mp4" "5a17";
           CompleteRequest "upload-evt-test-001" "evt-test-001"
             "https://cdn.example.com/acme/thor-mini-001/evt-test-001/test_clip.mp4"
             "5a17" "evt-test-001"]).
Proof. split; reflexivity. Qed.

(** ** The headers of the PUT *)

Section PutFacts.

Variable sha256 : list Byte.byte -> string.
Variable config : Config.
Variable env : Env.

Lemma adds_good_puts_refl w : adds_good_puts sha256 w w.
Proof. exists []. split; [symmetry; apply app_nil_r | constructor]. Qed.

Lemma adds_good_puts_trans w1 w2 w3 :
  adds_good_puts sha256 w1 w2 -> adds_good_puts sha256 w2 w3 ->
  adds_good_puts sha256 w1 w3.
Proof.
  intros [n1 [H1 F1]] [n2 [H2 F2]]. exists (n1 ++ n2)%list. split.
  - rewrite H2, H1, app_assoc. reflexivity.
  - apply Forall_app. split; assumption.
Qed.

Lemma adds_good_puts_emit e :
  put_headers_ok sha256 e -> keeps (adds_good_puts sha256) (emit e).
Proof. intros He w. exists [e]. split; [reflexivity | repeat constructor; exact He]. Qed.

Lemma adds_good_puts_db_update now uid status kw :
  keeps (adds_good_puts sha256) (db_update_upload_status now uid status kw).
Proof.
  intros w. exists []. split; [|constructor].
  rewrite db_update_trace, app_nil_r. reflexivity.
Qed.

Lemma adds_good_puts_handle_failure upload status_code :
  keeps (adds_good_puts sha256) (Uploader._handle_failure config env upload status_code).
Proof.
  intros w. eexists. split; [apply handle_failure_trace|].
  cbv zeta. destruct (_ && _); repeat constructor.
Qed.

(** Every PUT of [process_upload] has Content-Type [video/mp4],
    whatever the file's extension, and carries the SHA-256 digest of the
    bytes it sends. *)
Lemma process_upload_put_headers upload :
  keeps (adds_good_puts sha256) (Uploader.process_upload sha256 config env upload).
Proof.
  unfold Uploader.process_upload.
  destruct (read_file env (PendingUpload.filepath upload)) as [content|] eqn:Hfile;
    [|apply adds_good_puts_db_update].
  apply (keeps_try_except _ adds_good_puts_trans).
  - unfold Uploader.upload_steps, Uploader.calculate_sha256,
      Uploader._request_presigned_url, Uploader._upload_file,
      Uploader._complete_upload, Uploader._post_metadata.
    rewrite Hfile.
    repeat first
      [ apply adds_good_puts_emit; cbn; auto
      | apply adds_good_puts_db_update
      | keeps_step adds_good_puts_refl adds_good_puts_trans ].
  - intros e. destruct e; apply adds_good_puts_handle_failure.
Qed.

End PutFacts.

Section PresignedFacts.

Variable sha256 : list Byte.byte -> string.
Variable config : Config.
Variable env : Env.

Lemma on_exception_code upload e :
  Uploader.on_exception config env upload e
  = Uploader._handle_failure config env upload (failure_code e).
Proof. destruct e; reflexivity. Qed.

(** The [try] block after a presign reply with both URLs: the row
    under the id in use is set to PROCESSING with the checksum, the PUT is
    made, and the block is left by an exception. *)
Lemma upload_steps_presigned upload w content d upload_url final_url :
  read_file env (PendingUpload.filepath upload) = Some content ->
  raise_for_status (presign_reply env) = Ok (JsonObject d) ->
  pd_upload_url d = Some upload_url ->
  pd_final_url d = Some final_url ->
  upload_url <> "" -> final_url <> "" ->
  let complete := complete_request upload final_url (sha256 content) in
  exists s1,
    DBManager.update_upload_status (w_store w) (now_processing env)
      (default (PendingUpload.upload_id upload) (pd_upload_id d)) "PROCESSING"
      (mkKwargs None (Some (Some (sha256 content))) None) = Ok s1
    /\ Uploader.upload_steps sha256 config env upload w
       = (Raise (snd (after_put env complete)),
          mkWorld s1
            (w_trace w ++
             presign_request config upload content
             :: PutRequest upload_url content "video/mp4" (sha256 content)
             :: fst (after_put env complete))%list).
Proof.
  intros Hfile Hpresign Hurl Hfinal Hurl_ne Hfinal_ne complete.
  set (kw1 := mkKwargs None (Some (Some (sha256 content))) None).
  set (uid := default (PendingUpload.upload_id upload) (pd_upload_id d)).
  destruct (update_upload_status_returns (w_store w) (now_processing env) uid
              "PROCESSING" kw1) as [s1 Hs1]; [reflexivity|].
  exists s1. split; [exact Hs1|].
  unfold Uploader.upload_steps, Uploader.calculate_sha256,
    Uploader._request_presigned_url, Uploader._upload_file,
    Uploader._complete_upload, Uploader._post_metadata.
  change (DBManager.hasattr "Event") with false. cbv iota.
  rewrite Hfile, Hpresign.
  unfold lift. unfold bind, ret, emit, raise, db_update_upload_status.
  cbn [w_store w_trace]. rewrite Hurl, Hfinal. cbn [from_option].
  rewrite (falsy_Some_false _ Hurl_ne), (falsy_Some_false _ Hfinal_ne).
  cbn [orb w_store w_trace]. unfold id.
  change (from_option (fun x : string => x) (PendingUpload.upload_id upload)
            (pd_upload_id d)) with uid.
  fold kw1. rewrite Hs1.
  cbn [w_store w_trace].
  unfold after_put. fold complete.
  destruct (raise_for_status (put_reply env)) as [[]|e1]; cbn [fst snd w_store w_trace].
  - destruct (raise_for_status (complete_reply env)) as [[]|e2];
      cbn [fst snd w_store w_trace]; rewrite <- !app_assoc; reflexivity.
  - rewrite <- !app_assoc. reflexivity.
Qed.

(** The trace of a transaction after a presign reply with both URLs. *)
Lemma process_upload_presigned_trace upload w content d upload_url final_url :
  read_file env (PendingUpload.filepath upload) = Some content ->
  raise_for_status (presign_reply env) = Ok (JsonObject d) ->
  pd_upload_url d = Some upload_url ->
  pd_final_url d = Some final_url ->
  upload_url <> "" -> final_url <> "" ->
  exists sleeps,
    w_trace (snd (Uploader.process_upload sha256 config env upload w))
    = (w_trace w ++
       presign_request config upload content
       :: PutRequest upload_url content "video/mp4" (sha256 content)
       :: fst (after_put env (complete_request upload final_url (sha256 content)))
       ++ sleeps)%list
    /\ Forall (fun e => is_sleep e = true) sleeps.
Proof.
  intros Hfile Hpresign Hurl Hfinal Hurl_ne Hfinal_ne.
  destruct (upload_steps_presigned upload w content d upload_url final_url
              Hfile Hpresign Hurl Hfinal Hurl_ne Hfinal_ne) as (s1 & _ & Hsteps).
  unfold Uploader.process_upload. rewrite Hfile. unfold try_except. rewrite Hsteps.
  rewrite on_exception_code, handle_failure_trace. cbv zeta. cbn [w_trace].
  eexists. split.
  - rewrite <- app_assoc. cbn [app]. reflexivity.
  - destruct (_ && _); repeat constructor.
Qed.

End PresignedFacts.

(** C9 (as amended).  The PUT is sent with Content-Type [video/mp4]
    whatever the file's extension; only the presign request declares a type
    computed from the extension.  When the clip exists and the presign
    reply has both URLs, the transaction makes the presign request, which
    declares [video/mp4] for a [.mp4] suffix and
    [application/octet-stream] otherwise, and then exactly one PUT, to
    [upload_url], of the bytes of the file, with Content-Type
    [video/mp4] and their SHA-256 digest in [x-amz-checksum-sha256]. *)
Theorem put_content_type_ignores_extension sha256 config env upload w content d
    upload_url final_url :
  read_file env (PendingUpload.filepath upload) = Some content ->
  raise_for_status (presign_reply env) = Ok (JsonObject d) ->
  pd_upload_url d = Some upload_url ->
  pd_final_url d = Some final_url ->
  upload_url <> "" -> final_url <> "" ->
  exists rest,
    w_trace (snd (Uploader.process_upload sha256 config env upload w))
    = (w_trace w ++
       PresignRequest (tenant_id config) (device_id config)
         (PendingUpload.event_id upload) (path_name (PendingUpload.filepath upload))
         (Z.of_nat (length content))
         (if String.eqb (lower (path_suffix (PendingUpload.filepath upload))) ".mp4"
          then "video/mp4" else "application/octet-stream")
         (PendingUpload.event_id upload)
       :: PutRequest upload_url content "video/mp4" (sha256 content)
       :: rest)%list
    /\ Forall (fun e => kind_of e <> KPut) rest.
Proof.
  intros Hfile Hpresign Hurl Hfinal Hurl_ne Hfinal_ne.
  destruct (process_upload_presigned_trace sha256 config env upload w content d
              upload_url final_url Hfile Hpresign Hurl Hfinal Hurl_ne Hfinal_ne)
    as (sleeps & Htrace & Hsleeps).
  eexists. split; [exact Htrace|].
  apply Forall_app. split.
  - unfold after_put.
    destruct (raise_for_status (put_reply env)); cbn [fst]; repeat constructor.
    discriminate.
  - eapply Forall_impl; [exact Hsleeps|].
    intros [] He; cbn in He; try discriminate He. discriminate.
Qed.

Lemma put_content_type_ignores_extension_witness :
  exists rest,
    w_trace (snd (Uploader.process_upload Scenario.digest Scenario.config
                    Scenario.env_mkv Scenario.upload_mkv
                    (mkWorld Scenario.store_mkv [])))
    = PresignRequest "acme" "thor-mini-001" "evt-test-002" "clip.mkv" 4
        "application/octet-stream" "evt-test-002"
      :: PutRequest "http://m/u2" Scenario.clip "video/mp4" "5a17" :: rest
    /\ Forall (fun e => kind_of e <> KPut) rest.
Proof.
  apply (put_content_type_ignores_extension Scenario.digest Scenario.config
           Scenario.env_mkv Scenario.upload_mkv (mkWorld Scenario.store_mkv [])
           Scenario.clip (mkPresignedData (Some "http://m/u2") (Some "https://cdn/u2") None)
           "http://m/u2" "https://cdn/u2");
    first [reflexivity | discriminate].
Defined.

(** C9, the claim as stated fails: the clip is [/tmp/clip.mkv], whose
    extension is not [.mp4]; the presign request declares
    [application/octet-stream], and the PUT that follows is sent with
    Content-Type [video/mp4], not [application/octet-stream]. *)
Lemma put_of_mkv_sent_as_video_mp4 :
  path_suffix "/tmp/clip.mkv" = ".mkv"
  /\ Uploader.process_upload Scenario.digest Scenario.config Scenario.env_mkv
       Scenario.upload_mkv (mkWorld Scenario.store_mkv [])
     = (Ok tt,
        mkWorld
          (mkStore [Event.mk "evt-test-002" "{}" "PENDING_UPLOAD" 1 1]
             [PendingUpload.mk "upload-evt-test-002" "evt-test-002" "/tmp/clip.mkv"
                1 (Some 20) "PENDING_UPLOAD" (Some "5a17") None]
             [])
          [PresignRequest "acme" "thor-mini-001" "evt-test-002" "clip.mkv" 4
             "application/octet-stream" "evt-test-002";
           PutRequest "http://m/u2" Scenario.clip "video/mp4"
             (Scenario.digest Scenario.clip);
           CompleteRequest "upload-evt-test-002" "evt-test-002" "https://cdn/u2" "5a17"
             "evt-test-002";
           Sleep (Uploader.wait_time Scenario.config Scenario.env_mkv 1)])
  /\ "video/mp4" <> "application/octet-stream".
Proof. repeat split; try reflexivity. discriminate. Qed.

(** ** Installing a model package *)

(** C5 (as amended).  For a package whose id is a single path
    component, whose version has no separator and whose archive holds
    files under relative paths in normal form: installing it, with a
    complete manifest entry, never writes the store.  If the download
    fails, or the SHA-256 of the downloaded bytes is not the manifest's, the
    model directories are exactly as before and no reload is requested; on
    such a mismatch the staging archive has been removed.  The signature
    is not verified: its value changes nothing.  Once the archive has been
    extracted to its end the installation is not undone: the package's
    directory holds the extracted members, the reload is requested and the
    staging archive is removed, whether the reload call succeeds or
    fails. *)
Theorem install_not_rolled_back file_sha256 tar_extract env package w :
  SyncWorker.manifest_complete package = true ->
  SyncWorker.plain_component (default "" (SyncWorker.id package)) = true ->
  SyncWorker.no_separator (default "" (SyncWorker.version package)) = true ->
  (forall content,
     SyncWorker.download env = SyncWorker.Downloaded content ->
     forallb (fun m => SyncWorker.member_path (fst m))
       (SyncWorker.members (tar_extract content)) = true) ->
  let w' := snd (SyncWorker._process_package file_sha256 tar_extract env package w) in
  let package_id := default "" (SyncWorker.id package) in
  let version := default "" (SyncWorker.version package) in
  let staged := SyncWorker.local_path package_id version in
  SyncWorker.sw_store w' = SyncWorker.sw_store w
  /\ ((forall content, SyncWorker.download env <> SyncWorker.Downloaded content) ->
      SyncWorker.dirs (SyncWorker.sw_disk w') = SyncWorker.dirs (SyncWorker.sw_disk w)
      /\ SyncWorker.sw_reloads w' = SyncWorker.sw_reloads w)
  /\ (forall content,
        SyncWorker.download env = SyncWorker.Downloaded content ->
        file_sha256 content <> default "" (SyncWorker.sha256 package) ->
        SyncWorker.dirs (SyncWorker.sw_disk w') = SyncWorker.dirs (SyncWorker.sw_disk w)
        /\ SyncWorker.sw_reloads w' = SyncWorker.sw_reloads w
        /\ SyncWorker.files (SyncWorker.sw_disk w') !! staged = None)
  /\ (forall signature',
        falsy signature' = false ->
        SyncWorker._process_package file_sha256 tar_extract env
          (SyncWorker.mkPackage (SyncWorker.id package) (SyncWorker.version package)
             (SyncWorker.download_url package) (SyncWorker.sha256 package) signature') w
        = SyncWorker._process_package file_sha256 tar_extract env package w)
  /\ (forall content,
        SyncWorker.download env = SyncWorker.Downloaded content ->
        file_sha256 content = default "" (SyncWorker.sha256 package) ->
        SyncWorker.mkdir_error env = None ->
        SyncWorker.complete (tar_extract content) = true ->
        SyncWorker.dirs (SyncWorker.sw_disk w') !! package_id
        = Some (SyncWorker.write_members (SyncWorker.members (tar_extract content))
                  (default ∅ (SyncWorker.dirs (SyncWorker.sw_disk w) !! package_id)))
        /\ SyncWorker.sw_reloads w' = (SyncWorker.sw_reloads w ++ [version])%list
        /\ SyncWorker.files (SyncWorker.sw_disk w') !! staged = None).
Proof.
  intros Hmanifest _ _ _. cbv zeta.
  assert (Hsig : forall signature',
             falsy signature' = false ->
             SyncWorker._process_package file_sha256 tar_extract env
               (SyncWorker.mkPackage (SyncWorker.id package) (SyncWorker.version package)
                  (SyncWorker.download_url package) (SyncWorker.sha256 package)
                  signature') w
             = SyncWorker._process_package file_sha256 tar_extract env package w).
  { intros signature' Hs. unfold SyncWorker._process_package.
    rewrite Hmanifest.
    assert (Hm' : SyncWorker.manifest_complete
                    (SyncWorker.mkPackage (SyncWorker.id package)
                       (SyncWorker.version package) (SyncWorker.download_url package)
                       (SyncWorker.sha256 package) signature') = true).
    { unfold SyncWorker.manifest_complete in *. cbn [forallb] in *.
      cbn [SyncWorker.id SyncWorker.version SyncWorker.download_url SyncWorker.sha256
           SyncWorker.signature].
      rewrite Hs. cbn [negb].
      destruct (negb (falsy (SyncWorker.id package))); [|discriminate].
      destruct (negb (falsy (SyncWorker.version package))); [|discriminate].
      destruct (negb (falsy (SyncWorker.download_url package))); [|discriminate].
      destruct (negb (falsy (SyncWorker.sha256 package))); [|discriminate].
      reflexivity. }
    rewrite Hm'. reflexivity. }
  split; [|split; [|split; [|split; [exact Hsig|]]]];
    unfold SyncWorker._process_package; rewrite Hmanifest; cbn [negb].
  - destruct (SyncWorker.download env) as [e|received|[written|]|content];
      try reflexivity.
    destruct (negb _); [reflexivity|].
    destruct (SyncWorker.mkdir_error env); [reflexivity|].
    destruct (negb _); reflexivity.
  - intros Hdl.
    destruct (SyncWorker.download env) as [e|received|[written|]|content];
      try (split; reflexivity).
    destruct (Hdl content eq_refl).
  - intros content Hdl Hsum. rewrite Hdl.
    apply String.eqb_neq in Hsum. rewrite Hsum. cbn.
    repeat split. apply lookup_delete_eq.
  - intros content Hdl Hsum Hmk Hx. rewrite Hdl, Hmk, Hx.
    apply String.eqb_eq in Hsum. rewrite Hsum. cbn.
    split; [apply lookup_insert_eq|].
    split; [reflexivity | apply lookup_delete_eq].
Qed.

Lemma install_not_rolled_back_witness :
  SyncWorker.dirs
    (SyncWorker.sw_disk
       (snd (SyncWorker._process_package Scenario.other_digest Scenario.untar
               Scenario.sync_env_reload_down Scenario.package Scenario.sync_world)))
  = SyncWorker.dirs (SyncWorker.sw_disk Scenario.sync_world)
  /\ SyncWorker.sw_reloads
       (snd (SyncWorker._process_package Scenario.other_digest Scenario.untar
               Scenario.sync_env_reload_down Scenario.package Scenario.sync_world))
     = SyncWorker.sw_reloads Scenario.sync_world
  /\ SyncWorker.files
       (SyncWorker.sw_disk
          (snd (SyncWorker._process_package Scenario.other_digest Scenario.untar
                  Scenario.sync_env_reload_down Scenario.package Scenario.sync_world)))
     !! "mock-detector-v2.0.tar.gz" = None.
Proof.
  destruct (install_not_rolled_back Scenario.other_digest Scenario.untar
              Scenario.sync_env_reload_down Scenario.package Scenario.sync_world)
    as (_ & _ & H & _).
  - reflexivity.
  - reflexivity.
  - reflexivity.
  - intros content _. reflexivity.
  - apply (H Scenario.archive eq_refl). discriminate.
Defined.

(** C5, the claim as stated fails: the archive is downloaded, verified
    and extracted, and the reload endpoint is down.  Nothing was installed
    before the attempt; after it the model directory holds the package,
    although the reload failed. *)
Lemma install_kept_when_reload_fails :
  SyncWorker.dirs (SyncWorker.sw_disk Scenario.sync_world) !! "mock-detector" = None
  /\ SyncWorker.sw_errors
       (snd (SyncWorker._process_package Scenario.archive_digest Scenario.untar
               Scenario.sync_env_reload_down Scenario.package Scenario.sync_world))
     = [SyncWorker.ReloadFailed]
  /\ SyncWorker.dirs
       (SyncWorker.sw_disk
          (snd (SyncWorker._process_package Scenario.archive_digest Scenario.untar
                  Scenario.sync_env_reload_down Scenario.package Scenario.sync_world)))
     !! "mock-detector"
     = Some {[ "model/dummy_model_file.txt" := Scenario.clip ]}.
Proof. repeat split; vm_compute; reflexivity. Qed.

(** * Further properties of the modelled code *)

(* [set_solver] clears hypotheses that are already gone. *)
#[local] Set Warnings "-clear-no-such-hyp".

(** ** Camera ids of a configuration *)

Section ConfigFacts.

Import ConfigLoader.

Lemma first_duplicate_None (ids : list string) seen :
  first_duplicate ids seen = None <->
  NoDup ids /\ forall c, c ∈ ids -> c ∉ seen.
Proof.
  revert seen. induction ids as [|c rest IH]; intros seen; cbn [first_duplicate].
  - split; [|reflexivity]. intros _. split; [constructor|].
    intros c Hc. apply elem_of_nil in Hc. destruct Hc.
  - destruct (decide (c ∈ seen)) as [Hin|Hnin].
    + split; [discriminate|]. intros [_ H]. exfalso. apply (H c); [left | exact Hin].
    + rewrite IH, NoDup_cons. split.
      * intros [Hnd Hrest]. split; [split; [|exact Hnd]|].
        -- intros Hc. apply (Hrest c Hc), elem_of_union_l, elem_of_singleton. reflexivity.
        -- intros x Hx. apply elem_of_cons in Hx as [->|Hx]; [exact Hnin|].
           intros Hs. apply (Hrest x Hx), elem_of_union_r, Hs.
      * intros [[Hc Hnd] Hall]. split; [exact Hnd|].
        intros x Hx. apply not_elem_of_union. split.
        -- apply not_elem_of_singleton. intros ->. exact (Hc Hx).
        -- apply Hall. right. exact Hx.
Qed.

Lemma first_duplicate_Some (ids : list string) seen c :
  first_duplicate ids seen = Some c ->
  exists l1 l2,
    ids = (l1 ++ c :: l2)%list /\ NoDup l1
    /\ (forall x, x ∈ l1 -> x ∉ seen) /\ (c ∈ seen \/ c ∈ l1).
Proof.
  revert seen. induction ids as [|a rest IH]; intros seen; cbn [first_duplicate];
    [discriminate|].
  destruct (decide (a ∈ seen)) as [Hin|Hnin].
  - intros [= <-]. exists [], rest.
    split; [reflexivity|]. split; [constructor|]. split; [|left; exact Hin].
    intros x Hx. apply elem_of_nil in Hx. destruct Hx.
  - intros H. destruct (IH _ H) as (l1 & l2 & -> & Hnd & Hall & Hc).
    exists (a :: l1), l2. split; [reflexivity|]. split.
    { apply NoDup_cons. split; [|exact Hnd]. intros Ha.
      apply (Hall a Ha), elem_of_union_l, elem_of_singleton. reflexivity. }
    split.
    { intros x Hx. apply elem_of_cons in Hx as [->|Hx]; [exact Hnin|].
      intros Hs. apply (Hall x Hx), elem_of_union_r, Hs. }
    destruct Hc as [Hc|Hc]; [|right; right; exact Hc].
    apply elem_of_union in Hc as [Hc|Hc]; [|left; exact Hc].
    apply elem_of_singleton in Hc as ->. right. left.
Qed.

Lemma first_duplicate_app l1 l2 seen :
  first_duplicate (l1 ++ l2) seen
  = match first_duplicate l1 seen with
    | Some c => Some c
    | None => first_duplicate l2 (list_to_set l1 ∪ seen)
    end.
Proof.
  revert seen. induction l1 as [|a l1 IH]; intros seen; cbn [app first_duplicate].
  - f_equal. set_solver.
  - destruct (decide (a ∈ seen)); [reflexivity|]. rewrite IH.
    destruct (first_duplicate l1 _); [reflexivity|]. f_equal. set_solver.
Qed.

(** The loops of the validator find the first duplicate. *)
Lemma check_cameras_first_duplicate cams seen :
  check_cameras cams seen
  = match first_duplicate (map id cams) seen with
    | Some c => Raise (ValueError (String.append "Duplicate camera ID found: " c))
    | None => Ok (list_to_set (map id cams) ∪ seen)
    end.
Proof.
  revert seen. induction cams as [|camera rest IH]; intros seen;
    cbn [check_cameras map first_duplicate].
  - f_equal. set_solver.
  - destruct (decide (id camera ∈ seen)); [reflexivity|]. rewrite IH.
    destruct (first_duplicate _ _); [reflexivity|]. f_equal. set_solver.
Qed.

Lemma check_nvrs_first_duplicate v seen :
  check_nvrs v seen
  = match first_duplicate (camera_ids v) seen with
    | Some c => Raise (ValueError (String.append "Duplicate camera ID found: " c))
    | None => Ok (list_to_set (camera_ids v) ∪ seen)
    end.
Proof.
  revert seen. induction v as [|nvr rest IH]; intros seen;
    cbn [check_nvrs camera_ids flat_map first_duplicate].
  - f_equal. set_solver.
  - rewrite check_cameras_first_duplicate, first_duplicate_app.
    destruct (first_duplicate (map id (cameras nvr)) seen); [reflexivity|].
    rewrite IH. unfold camera_ids.
    destruct (first_duplicate _ _); [reflexivity|]. f_equal.
    rewrite list_to_set_app_L. set_solver.
Qed.

End ConfigFacts.

(** X1.  [check_unique_camera_ids] accepts a list of NVRs exactly when
    no camera id occurs twice across all of them, and then returns the
    list unchanged.  When it refuses, the [ValueError] names an id that
    occurs a second time, and it is the first such occurrence: the ids
    before it are pairwise different. *)
Theorem check_unique_camera_ids_spec v :
  (NoDup (ConfigLoader.camera_ids v) <-> ConfigLoader.check_unique_camera_ids v = Ok v)
  /\ (forall e,
        ConfigLoader.check_unique_camera_ids v = Raise e ->
        exists c l1 l2 l3,
          e = ValueError (String.append "Duplicate camera ID found: " c)
          /\ ConfigLoader.camera_ids v = (l1 ++ c :: l2 ++ c :: l3)%list
          /\ NoDup (l1 ++ c :: l2)).
Proof.
  unfold ConfigLoader.check_unique_camera_ids. rewrite check_nvrs_first_duplicate.
  destruct (first_duplicate (ConfigLoader.camera_ids v) ∅) as [c|] eqn:Hfd.
  - split.
    + split; [|discriminate]. intros Hnd.
      assert (Hnone : first_duplicate (ConfigLoader.camera_ids v) ∅ = None).
      { apply first_duplicate_None. split; [exact Hnd|]. intros x _. apply not_elem_of_empty. }
      congruence.
    + intros e [= <-].
      destruct (first_duplicate_Some _ _ _ Hfd) as (l & l3 & Hids & Hnd & _ & Hc).
      destruct Hc as [Hc|Hc]; [destruct (not_elem_of_empty (C:=gset string) _ Hc)|].
      apply list_elem_of_split in Hc as (l1 & l2 & ->).
      exists c, l1, l2, l3. split; [reflexivity|]. split; [|exact Hnd].
      rewrite Hids, <- app_assoc. reflexivity.
  - split; [|discriminate]. split; [reflexivity|]. intros _.
    apply first_duplicate_None in Hfd. apply Hfd.
Qed.

(** ** Inserting and finding rows *)

Section InsertFacts.

Import DBManager.

Lemma find_app_last {A} (p : A -> bool) (l : list A) (x : A) :
  find p (l ++ [x])
  = match find p l with
    | Some y => Some y
    | None => if p x then Some x else None
    end.
Proof.
  induction l as [|a l IH]; cbn; [reflexivity|].
  destruct (p a); [reflexivity | exact IH].
Qed.

Lemma get_upload_None_ids s uid :
  get_upload s uid = None -> uid ∉ map PendingUpload.upload_id (pending_uploads s).
Proof.
  unfold get_upload. intros Hfind Hin.
  apply list_elem_of_In, in_map_iff in Hin as (r & Hr & Hin).
  pose proof (find_none _ _ Hfind r Hin) as Hne. cbn in Hne.
  rewrite Hr, String.eqb_refl in Hne. discriminate.
Qed.

Lemma get_event_None_ids s eid :
  get_event s eid = None -> eid ∉ map Event.event_id (events s).
Proof.
  unfold get_event. intros Hfind Hin.
  apply list_elem_of_In, in_map_iff in Hin as (e & He & Hin).
  pose proof (find_none _ _ Hfind e Hin) as Hne. cbn in Hne.
  rewrite He, String.eqb_refl in Hne. discriminate.
Qed.

(** The UPDATE of [pending_uploads] changes no primary key. *)
Lemma update_uploads_where_ids uid now status kw rows :
  map PendingUpload.upload_id (update_uploads_where uid (set_values now status kw) rows)
  = map PendingUpload.upload_id rows.
Proof.
  unfold update_uploads_where. rewrite map_map. apply map_ext.
  intros r. destruct (String.eqb _ _); reflexivity.
Qed.

(** The UPDATE of [events] changes no primary key. *)
Lemma update_events_where_ids eid now status rows :
  map Event.event_id (update_events_where eid now status rows) = map Event.event_id rows.
Proof.
  unfold update_events_where. rewrite map_map. apply map_ext.
  intros e. destruct (String.eqb _ _); reflexivity.
Qed.


End InsertFacts.

(** X2.  [insert_event] with an event id that is free, as is the upload
    id [upload-<event_id>] derived from it, returns the two ids; afterwards
    both rows are found under them, PENDING_UPLOAD, the upload with no
    attempt, checksum or URL; every other row of the store is found as
    before. *)
Theorem insert_event_then_lookup s now event_id event_json local_clip_path :
  DBManager.get_event s event_id = None ->
  DBManager.get_upload s (String.append "upload-" event_id) = None ->
  exists s',
    DBManager.insert_event s now event_id event_json local_clip_path
    = Ok (s', (event_id, String.append "upload-" event_id))
    /\ DBManager.get_event s' event_id
       = Some (Event.mk event_id event_json "PENDING_UPLOAD" now now)
    /\ DBManager.get_upload s' (String.append "upload-" event_id)
       = Some (PendingUpload.mk (String.append "upload-" event_id) event_id
                 local_clip_path 0 None "PENDING_UPLOAD" None None)
    /\ (forall id, id <> event_id -> DBManager.get_event s' id = DBManager.get_event s id)
    /\ (forall id, id <> String.append "upload-" event_id ->
                   DBManager.get_upload s' id = DBManager.get_upload s id)
    /\ kb_meta s' = kb_meta s.
Proof.
  intros Hev Hup. unfold DBManager.insert_event. rewrite Hev, Hup.
  eexists. split; [reflexivity|].
  unfold DBManager.get_event, DBManager.get_upload in *. cbn [events pending_uploads kb_meta].
  repeat split.
  - rewrite find_app_last, Hev. cbn. rewrite String.eqb_refl. reflexivity.
  - rewrite find_app_last, Hup. cbn. rewrite String.eqb_refl. reflexivity.
  - intros id Hne. rewrite find_app_last. cbn.
    apply not_eq_sym, String.eqb_neq in Hne. rewrite Hne.
    match goal with |- match ?f with _ => _ end = _ => destruct f end; reflexivity.
  - intros id Hne. rewrite find_app_last. cbn.
    apply not_eq_sym, String.eqb_neq in Hne. rewrite Hne.
    match goal with |- match ?f with _ => _ end = _ => destruct f end; reflexivity.
Qed.

Lemma insert_event_then_lookup_witness :
  exists s',
    DBManager.insert_event Scenario.store_pending 30 "evt-test-003" "{}" "/tmp/clip3.mp4"
    = Ok (s', ("evt-test-003", "upload-evt-test-003"))
    /\ DBManager.get_upload s' "upload-evt-test-001" = Some Scenario.upload1.
Proof.
  destruct (insert_event_then_lookup Scenario.store_pending 30 "evt-test-003" "{}"
              "/tmp/clip3.mp4" eq_refl eq_refl)
    as (s' & Hins & _ & _ & _ & Hothers & _).
  exists s'. split; [exact Hins|].
  rewrite Hothers; [reflexivity | discriminate].
Defined.

(** X3.  The primary keys stay unique.  [insert_event] refuses an event
    id or a derived upload id that is taken, and adds its two rows to a
    store with unique keys only so that the keys are still unique;
    [update_upload_status] and POST /events/mark_status neither add nor
    remove a row nor change a key. *)
Theorem keys_unique_preserved :
  (forall s now event_id event_json local_clip_path,
     DBManager.get_event s event_id <> None
     \/ DBManager.get_upload s (String.append "upload-" event_id) <> None ->
     exists e,
       DBManager.insert_event s now event_id event_json local_clip_path = Raise e)
  /\ (forall s now event_id event_json local_clip_path s' ids,
        keys_unique s ->
        DBManager.insert_event s now event_id event_json local_clip_path = Ok (s', ids) ->
        keys_unique s')
  /\ (forall s now uid status kw s',
        DBManager.update_upload_status s now uid status kw = Ok s' ->
        map PendingUpload.upload_id (pending_uploads s')
        = map PendingUpload.upload_id (pending_uploads s)
        /\ map Event.event_id (events s') = map Event.event_id (events s))
  /\ (forall s now update,
        map PendingUpload.upload_id
          (pending_uploads (snd (Aggregator.mark_event_status s now update)))
        = map PendingUpload.upload_id (pending_uploads s)
        /\ map Event.event_id (events (snd (Aggregator.mark_event_status s now update)))
           = map Event.event_id (events s)).
Proof.
  assert (Hupd : forall s now uid status kw s',
             DBManager.update_upload_status s now uid status kw = Ok s' ->
             map PendingUpload.upload_id (pending_uploads s')
             = map PendingUpload.upload_id (pending_uploads s)
             /\ map Event.event_id (events s') = map Event.event_id (events s)).
  { intros s now uid status kw s' H.
    destruct (update_upload_status_tables _ _ _ _ _ _ H) as (Hp & _ & He).
    rewrite Hp, update_uploads_where_ids. split; [reflexivity|]. rewrite He.
    destruct (DBManager.get_upload s uid); [|reflexivity].
    destruct (DBManager.is_final status); [|reflexivity].
    apply update_events_where_ids. }
  split; [|split; [|split]].
  - intros s now eid json path H. unfold DBManager.insert_event.
    destruct (DBManager.get_event s eid), (DBManager.get_upload s _);
      try (eexists; reflexivity).
    destruct H as [H|H]; destruct (H eq_refl).
  - intros s now eid json path s' ids [Hup Hev] H. unfold DBManager.insert_event in H.
    destruct (DBManager.get_event s eid) eqn:Hge; [discriminate|].
    destruct (DBManager.get_upload s _) eqn:Hgu; [discriminate|].
    injection H as <- _. unfold keys_unique. cbn [events pending_uploads].
    rewrite !map_app. cbn [map]. split.
    + apply NoDup_app. split; [exact Hup|]. split; [|apply NoDup_singleton].
      intros x Hx Hx'. apply list_elem_of_singleton in Hx'. subst x.
      exact (get_upload_None_ids _ _ Hgu Hx).
    + apply NoDup_app. split; [exact Hev|]. split; [|apply NoDup_singleton].
      intros x Hx Hx'. apply list_elem_of_singleton in Hx'. subst x.
      exact (get_event_None_ids _ _ Hge Hx).
  - exact Hupd.
  - intros s now update. unfold Aggregator.mark_event_status.
    destruct (Aggregator.status_allowed _); [|split; reflexivity].
    destruct (DBManager.update_upload_status _ _ _ _ _) as [s'|e] eqn:H;
      [|split; reflexivity].
    exact (Hupd _ _ _ _ _ _ H).
Qed.

(** ** The queue of pending uploads *)

Lemma get_pending_uploads_sound s limit r :
  r ∈ DBManager.get_pending_uploads s limit ->
  r ∈ pending_uploads s /\ PendingUpload.status r = "PENDING_UPLOAD".
Proof.
  unfold DBManager.get_pending_uploads. intros Hr.
  apply (subseteq_take limit) in Hr. apply list_elem_of_filter in Hr as [Hst Hin].
  split; [exact Hin|].
  destruct (String.eqb_spec (PendingUpload.status r) "PENDING_UPLOAD");
    [assumption | destruct Hst].
Qed.

Lemma get_pending_uploads_NoDup s limit :
  NoDup (map PendingUpload.upload_id (pending_uploads s)) ->
  NoDup (map PendingUpload.upload_id (DBManager.get_pending_uploads s limit)).
Proof.
  intros Hup. unfold DBManager.get_pending_uploads.
  apply (sublist_NoDup _ (map PendingUpload.upload_id (pending_uploads s))); [exact Hup|].
  apply (fmap_sublist PendingUpload.upload_id).
  etransitivity; [apply sublist_take | apply sublist_filter].
Qed.

(** X4.  [get_pending_uploads] returns at most [limit] rows, each a
    stored row whose status is PENDING_UPLOAD, and never the same row
    twice when the keys are unique; a batch shorter than the limit is the
    whole queue. *)
Theorem get_pending_uploads_spec s limit :
  (length (DBManager.get_pending_uploads s limit) <= limit)%nat
  /\ (forall r, r ∈ DBManager.get_pending_uploads s limit ->
                r ∈ pending_uploads s /\ PendingUpload.status r = "PENDING_UPLOAD")
  /\ (keys_unique s ->
      NoDup (map PendingUpload.upload_id (DBManager.get_pending_uploads s limit)))
  /\ ((length (DBManager.get_pending_uploads s limit) < limit)%nat ->
      forall r, r ∈ pending_uploads s -> PendingUpload.status r = "PENDING_UPLOAD" ->
                r ∈ DBManager.get_pending_uploads s limit).
Proof.
  unfold DBManager.get_pending_uploads.
  set (queue := filter _ (pending_uploads s)).
  assert (Hqueue : forall r, r ∈ queue <->
                     PendingUpload.status r = "PENDING_UPLOAD" /\ r ∈ pending_uploads s).
  { intros r. unfold queue. rewrite list_elem_of_filter.
    destruct (String.eqb_spec (PendingUpload.status r) "PENDING_UPLOAD"); cbn; tauto. }
  split; [|split; [|split]].
  - change (firstn limit queue) with (take limit queue). rewrite length_take. lia.
  - intros r Hr. apply (get_pending_uploads_sound s limit r Hr).
  - intros [Hup _]. apply (get_pending_uploads_NoDup s limit Hup).
  - change (firstn limit queue) with (take limit queue). rewrite length_take.
    intros Hlen r Hr Hst. rewrite take_ge by lia. apply Hqueue. split; assumption.
Qed.

(** X5.  Once [update_upload_status] has given a row a status other
    than PENDING_UPLOAD, [get_pending_uploads] no longer returns a row with
    that [upload_id], whatever the limit. *)
Theorem updated_row_leaves_queue s now uid status kw s' limit r :
  DBManager.update_upload_status s now uid status kw = Ok s' ->
  status <> "PENDING_UPLOAD" ->
  r ∈ DBManager.get_pending_uploads s' limit ->
  PendingUpload.upload_id r <> uid.
Proof.
  intros Hupd Hstatus Hr Hid.
  destruct (get_pending_uploads_sound s' limit r Hr) as [Hin Hpending].
  destruct (update_upload_status_tables _ _ _ _ _ _ Hupd) as (Hrows & _).
  rewrite Hrows in Hin. unfold DBManager.update_uploads_where in Hin.
  apply list_elem_of_In, in_map_iff in Hin as (r0 & Hr0 & _).
  destruct (String.eqb_spec (PendingUpload.upload_id r0) uid) as [Heq|Hne].
  - subst r. cbn in Hpending. exact (Hstatus Hpending).
  - subst r. exact (Hne Hid).
Qed.

Lemma updated_row_leaves_queue_witness :
  PendingUpload.upload_id Scenario.upload_mkv <> "upload-evt-test-001".
Proof.
  apply (updated_row_leaves_queue
           (mkStore [Scenario.event1] [Scenario.upload1; Scenario.upload_mkv] [])
           30 "upload-evt-test-001" "PROCESSING" no_kwargs _ 10 Scenario.upload_mkv eq_refl).
  - discriminate.
  - vm_compute. apply list_elem_of_In. left. reflexivity.
Defined.

(** ** What every status update keeps, a transaction and the loop keep *)

Section StoreRelation.

Variable R : Store -> Store -> Prop.
Hypothesis R_refl : forall s, R s s.
Hypothesis R_trans : forall s1 s2 s3, R s1 s2 -> R s2 s3 -> R s1 s3.
Hypothesis R_update :
  forall s now uid status kw s',
    DBManager.update_upload_status s now uid status kw = Ok s' -> R s s'.

Lemma on_stores_refl w : on_stores R w w.
Proof. apply R_refl. Qed.

Lemma on_stores_trans w1 w2 w3 :
  on_stores R w1 w2 -> on_stores R w2 w3 -> on_stores R w1 w3.
Proof. apply R_trans. Qed.

Lemma on_stores_emit e : keeps (on_stores R) (emit e).
Proof. intros w. apply R_refl. Qed.

Lemma on_stores_db_update now uid status kw :
  keeps (on_stores R) (db_update_upload_status now uid status kw).
Proof.
  intros w. unfold db_update_upload_status, on_stores.
  destruct (DBManager.update_upload_status _ _ _ _ _) as [s'|e] eqn:H; cbn.
  - exact (R_update _ _ _ _ _ _ H).
  - apply R_refl.
Qed.

Lemma on_stores_handle_failure config env upload status_code :
  keeps (on_stores R) (Uploader._handle_failure config env upload status_code).
Proof.
  unfold Uploader._handle_failure, Uploader.sleep.
  repeat first
    [ apply on_stores_emit
    | apply on_stores_db_update
    | keeps_step on_stores_refl on_stores_trans ].
Qed.

Lemma on_stores_process_upload sha256 config env upload :
  keeps (on_stores R) (Uploader.process_upload sha256 config env upload).
Proof.
  unfold Uploader.process_upload.
  destruct (read_file env (PendingUpload.filepath upload));
    [|apply on_stores_db_update].
  apply (keeps_try_except _ on_stores_trans).
  - unfold Uploader.upload_steps, Uploader.calculate_sha256,
      Uploader._request_presigned_url, Uploader._upload_file,
      Uploader._complete_upload, Uploader._post_metadata.
    repeat first
      [ apply on_stores_emit
      | apply on_stores_db_update
      | keeps_step on_stores_refl on_stores_trans ].
  - intros e. destruct e; apply on_stores_handle_failure.
Qed.

Lemma on_stores_process_all sha256 config env_for uploads :
  keeps (on_stores R) (UploaderLoop.process_all sha256 config env_for uploads).
Proof.
  induction uploads as [|upload rest IH]; cbn [UploaderLoop.process_all].
  - apply (keeps_ret _ on_stores_refl).
  - apply (keeps_bind _ on_stores_trans); [apply on_stores_process_upload|].
    intros _. exact IH.
Qed.

Lemma on_stores_run_iteration sha256 config env_for :
  keeps (on_stores R) (UploaderLoop.run_iteration sha256 config env_for).
Proof.
  unfold UploaderLoop.run_iteration.
  apply (keeps_try_except _ on_stores_trans); [|intros e; apply on_stores_emit].
  apply (keeps_bind _ on_stores_trans); [apply (keeps_get_store _ on_stores_refl)|].
  intros s. destruct (DBManager.get_pending_uploads s 10) as [|u rest].
  - apply on_stores_emit.
  - apply on_stores_process_all.
Qed.

End StoreRelation.

(** ** Events *)

Section EventFacts.

Import DBManager.


Lemma events_settle_refl s : events_settle s s.
Proof. intros eid e H. exists e. repeat split; [exact H | left; reflexivity]. Qed.

Lemma events_settle_trans s1 s2 s3 :
  events_settle s1 s2 -> events_settle s2 s3 -> events_settle s1 s3.
Proof.
  intros H12 H23 eid e He.
  destruct (H12 eid e He) as (e2 & He2 & Hj2 & Hs2).
  destruct (H23 eid e2 He2) as (e3 & He3 & Hj3 & Hs3).
  exists e3. split; [exact He3|]. split; [congruence|].
  destruct Hs3 as [Hs3|Hs3]; [|right; exact Hs3].
  destruct Hs2 as [Hs2|Hs2]; [left; congruence | right; congruence].
Qed.

Lemma events_settle_update s now uid status kw s' :
  update_upload_status s now uid status kw = Ok s' -> events_settle s s'.
Proof.
  intros H eid e He.
  destruct (update_upload_status_tables _ _ _ _ _ _ H) as (_ & _ & Hev).
  unfold get_event in *. rewrite Hev.
  destruct (get_upload s uid) as [r|];
    [|exists e; repeat split; [exact He | left; reflexivity]].
  destruct (is_final status) eqn:Hfinal;
    [|exists e; repeat split; [exact He | left; reflexivity]].
  rewrite find_update_events, He. cbn.
  destruct (String.eqb eid (PendingUpload.event_id r)).
  - eexists. split; [reflexivity|]. split; [reflexivity|]. right. exact Hfinal.
  - exists e. repeat split. left. reflexivity.
Qed.

End EventFacts.

(** X6.  No event leaves a final status.  After a status update, a POST
    /events/mark_status, an upload transaction or an iteration of the
    uploader's loop, every event is still in the store with its document,
    and its status is the one it had or one of UPLOADED and FAILED; an
    event that was UPLOADED or FAILED is so afterwards. *)
Theorem events_never_leave_final_status :
  (forall s now uid status kw s',
     DBManager.update_upload_status s now uid status kw = Ok s' -> events_settle s s')
  /\ (forall s now update,
        events_settle s (snd (Aggregator.mark_event_status s now update)))
  /\ (forall sha256 config env upload w,
        events_settle (w_store w)
          (w_store (snd (Uploader.process_upload sha256 config env upload w))))
  /\ (forall sha256 config env_for w,
        events_settle (w_store w)
          (w_store (snd (UploaderLoop.run_iteration sha256 config env_for w))))
  /\ (forall s s' eid e,
        events_settle s s' ->
        DBManager.get_event s eid = Some e ->
        DBManager.is_final (Event.status e) = true ->
        exists e',
          DBManager.get_event s' eid = Some e'
          /\ DBManager.is_final (Event.status e') = true).
Proof.
  split; [exact events_settle_update|]. split; [|split; [|split]].
  - intros s now update. unfold Aggregator.mark_event_status.
    destruct (Aggregator.status_allowed _); [|apply events_settle_refl].
    destruct (DBManager.update_upload_status _ _ _ _ _) as [s'|e] eqn:H;
      [|apply events_settle_refl].
    exact (events_settle_update _ _ _ _ _ _ H).
  - intros sha256 config env upload w.
    apply (on_stores_process_upload events_settle events_settle_refl events_settle_trans
             events_settle_update).
  - intros sha256 config env_for w.
    apply (on_stores_run_iteration events_settle events_settle_refl events_settle_trans
             events_settle_update).
  - intros s s' eid e Hs He Hfinal.
    destruct (Hs eid e He) as (e' & He' & _ & [Hst|Hst]); exists e';
      (split; [exact He'|]); [rewrite Hst; exact Hfinal | exact Hst].
Qed.

(** X7.  A status update of an existing row with a final status (UPLOADED
    or FAILED) writes that status, and the time, into the event the row
    belongs to, and leaves the other events as they are; with any other
    status (PROCESSING, PENDING_UPLOAD) the table of events is not
    written at all. *)
Theorem final_status_is_mirrored s now uid status kw s' r :
  DBManager.update_upload_status s now uid status kw = Ok s' ->
  DBManager.get_upload s uid = Some r ->
  (DBManager.is_final status = false -> events s' = events s)
  /\ (DBManager.is_final status = true ->
      (forall e, DBManager.get_event s (PendingUpload.event_id r) = Some e ->
                 DBManager.get_event s' (PendingUpload.event_id r)
                 = Some (Event.mk (Event.event_id e) (Event.json e) status
                           (Event.created_at e) now))
      /\ (forall eid, eid <> PendingUpload.event_id r ->
                      DBManager.get_event s' eid = DBManager.get_event s eid)).
Proof.
  intros H Hget.
  destruct (update_upload_status_tables _ _ _ _ _ _ H) as (_ & _ & Hev).
  rewrite Hget in Hev. unfold DBManager.get_event. rewrite Hev.
  split; intros Hfinal; rewrite Hfinal; [reflexivity|].
  split.
  - intros e He. unfold DBManager.get_event in He.
    rewrite find_update_events, He. cbn. rewrite String.eqb_refl. reflexivity.
  - intros eid Hne. rewrite find_update_events.
    apply String.eqb_neq in Hne. rewrite Hne.
    destruct (find _ (events s)); reflexivity.
Qed.

Lemma final_status_is_mirrored_witness :
  DBManager.get_event
    (mkStore [Event.mk "evt-test-001" "{}" "FAILED" 1 30]
       [PendingUpload.mk "upload-evt-test-001" "evt-test-001" "/tmp/test_clip.mp4"
          0 (Some 30) "FAILED" None None] [])
    "evt-test-001"
  = Some (Event.mk "evt-test-001" "{}" "FAILED" 1 30).
Proof.
  apply (proj1 (proj2 (final_status_is_mirrored Scenario.store_pending 30
                         "upload-evt-test-001" "FAILED" no_kwargs _ Scenario.upload1
                         eq_refl eq_refl) eq_refl) Scenario.event1 eq_refl).
Defined.

(** ** Rows are never created, deleted or renamed by the uploader *)

Section IdentityFacts.

Import DBManager.

Lemma identity_kept_refl s : identity_kept s s.
Proof. repeat split. Qed.

Lemma identity_kept_trans s1 s2 s3 :
  identity_kept s1 s2 -> identity_kept s2 s3 -> identity_kept s1 s3.
Proof. intros (A1 & B1 & C1) (A2 & B2 & C2). repeat split; congruence. Qed.

Lemma identity_kept_update s now uid status kw s' :
  update_upload_status s now uid status kw = Ok s' -> identity_kept s s'.
Proof.
  intros H. destruct (update_upload_status_tables _ _ _ _ _ _ H) as (Hp & Hkb & Hev).
  split; [|split; [|exact Hkb]].
  - rewrite Hp. unfold update_uploads_where. rewrite map_map. apply map_ext.
    intros r. destruct (String.eqb _ _); reflexivity.
  - rewrite Hev. destruct (get_upload s uid); [|reflexivity].
    destruct (is_final status); [|reflexivity].
    unfold update_events_where. rewrite map_map. apply map_ext.
    intros e. destruct (String.eqb _ _); reflexivity.
Qed.

End IdentityFacts.

(** X8.  The uploader and POST /events/mark_status write only the
    status, attempts, time, checksum and URL of uploads and the status and
    time of events: after a transaction, an iteration of the loop or a
    mark_status, both tables have the same rows in the same order with the
    same [upload_id], [event_id], [filepath], event document and creation
    time, and the knowledge-base log is untouched.  Unique keys stay
    unique. *)
Theorem uploader_keeps_row_identity :
  (forall sha256 config env upload w,
     identity_kept (w_store w)
       (w_store (snd (Uploader.process_upload sha256 config env upload w))))
  /\ (forall sha256 config env_for w,
        identity_kept (w_store w)
          (w_store (snd (UploaderLoop.run_iteration sha256 config env_for w))))
  /\ (forall s now update,
        identity_kept s (snd (Aggregator.mark_event_status s now update)))
  /\ (forall s s', identity_kept s s' -> keys_unique s -> keys_unique s').
Proof.
  split; [|split; [|split]].
  - intros sha256 config env upload w.
    apply (on_stores_process_upload identity_kept identity_kept_refl identity_kept_trans
             identity_kept_update).
  - intros sha256 config env_for w.
    apply (on_stores_run_iteration identity_kept identity_kept_refl identity_kept_trans
             identity_kept_update).
  - intros s now update. unfold Aggregator.mark_event_status.
    destruct (Aggregator.status_allowed _); [|apply identity_kept_refl].
    destruct (DBManager.update_upload_status _ _ _ _ _) as [s'|e] eqn:H;
      [|apply identity_kept_refl].
    exact (identity_kept_update _ _ _ _ _ _ H).
  - intros s s' (Hup & Hev & _) [Ku Ke]. unfold keys_unique.
    assert (Hu : map PendingUpload.upload_id (pending_uploads s')
                 = map PendingUpload.upload_id (pending_uploads s)).
    { transitivity (map (fun i => fst (fst i)) (map upload_identity (pending_uploads s'))).
      - rewrite map_map. reflexivity.
      - rewrite Hup, map_map. reflexivity. }
    assert (He : map Event.event_id (events s') = map Event.event_id (events s)).
    { transitivity (map (fun i => fst (fst i)) (map event_identity (events s'))).
      - rewrite map_map. reflexivity.
      - rewrite Hev, map_map. reflexivity. }
    rewrite Hu, He. split; assumption.
Qed.

(** ** The aggregator's endpoints *)

(** X9.  POST /events/new never answers 201: the handler reads
    [event.event_id] of the id string that [insert_event] returned, and
    every path ends in the 500 of its [except] clause, without a body.
    When the configuration is loaded and the generated event id is free,
    the event and its upload have been inserted all the same, both
    PENDING_UPLOAD, the upload pointing to the clip of the request. *)
Theorem create_new_event_answers_500 json_dumps config s now stamp uuid_hex event_in :
  fst (AggregatorEvents.create_new_event json_dumps config s now stamp uuid_hex event_in)
  = (500, None)
  /\ (forall c event_json,
        config = Some c ->
        AggregatorEvents.build_event_json config stamp uuid_hex event_in = Some event_json ->
        DBManager.get_event s (AggregatorEvents.new_event_id stamp uuid_hex) = None ->
        DBManager.get_upload s
          (String.append "upload-" (AggregatorEvents.new_event_id stamp uuid_hex)) = None ->
        let s' := snd (AggregatorEvents.create_new_event json_dumps config s now stamp
                         uuid_hex event_in) in
        DBManager.get_event s' (AggregatorEvents.new_event_id stamp uuid_hex)
        = Some (Event.mk (AggregatorEvents.new_event_id stamp uuid_hex)
                  (json_dumps event_json) "PENDING_UPLOAD" now now)
        /\ DBManager.get_upload s'
             (String.append "upload-" (AggregatorEvents.new_event_id stamp uuid_hex))
           = Some (PendingUpload.mk
                     (String.append "upload-" (AggregatorEvents.new_event_id stamp uuid_hex))
                     (AggregatorEvents.new_event_id stamp uuid_hex)
                     (AggregatorEvents.local_clip_path event_in)
                     0 None "PENDING_UPLOAD" None None)).
Proof.
  split.
  - unfold AggregatorEvents.create_new_event.
    destruct (AggregatorEvents.build_event_json _ _ _ _); [|reflexivity].
    destruct (DBManager.insert_event _ _ _ _ _) as [[s' [eid uid]]|err]; reflexivity.
  - intros c event_json -> Hbuild Hev Hup. cbv zeta.
    unfold AggregatorEvents.create_new_event. rewrite Hbuild.
    cbn in Hbuild. injection Hbuild as <-. cbn [AggregatorEvents.ej_event_id].
    unfold DBManager.insert_event. rewrite Hev, Hup.
    cbn [snd AggregatorEvents.attr_event_id].
    unfold DBManager.get_event, DBManager.get_upload in *. cbn [events pending_uploads].
    rewrite !find_app_last, Hev, Hup. cbn. rewrite !String.eqb_refl. split; reflexivity.
Qed.

Lemma create_new_event_answers_500_witness :
  DBManager.get_event
    (snd (AggregatorEvents.create_new_event (fun _ => "{}") (Some Scenario.config)
            Scenario.store_pending 30 "20251116-100230" "a3f9c2d1e0b44c55"
            (AggregatorEvents.mkEventIn "cam-01" "motion" "2025-11-16T10:02:30"
               "/tmp/test_clip.mp4" "[]" None None "0.9")))
    "evt-20251116-100230-a3f9"
  = Some (Event.mk "evt-20251116-100230-a3f9" "{}" "PENDING_UPLOAD" 30 30)
  /\ DBManager.get_upload
       (snd (AggregatorEvents.create_new_event (fun _ => "{}") (Some Scenario.config)
               Scenario.store_pending 30 "20251116-100230" "a3f9c2d1e0b44c55"
               (AggregatorEvents.mkEventIn "cam-01" "motion" "2025-11-16T10:02:30"
                  "/tmp/test_clip.mp4" "[]" None None "0.9")))
       "upload-evt-20251116-100230-a3f9"
     = Some (PendingUpload.mk "upload-evt-20251116-100230-a3f9" "evt-20251116-100230-a3f9"
               "/tmp/test_clip.mp4" 0 None "PENDING_UPLOAD" None None).
Proof.
  apply (proj2 (create_new_event_answers_500 (fun _ => "{}") (Some Scenario.config)
                  Scenario.store_pending 30 "20251116-100230" "a3f9c2d1e0b44c55"
                  (AggregatorEvents.mkEventIn "cam-01" "motion" "2025-11-16T10:02:30"
                     "/tmp/test_clip.mp4" "[]" None None "0.9"))
           Scenario.config _ eq_refl eq_refl eq_refl eq_refl).
Defined.

(** X10.  POST /events/mark_status at its edges.  A status outside
    PROCESSING, FAILED and UPLOADED (PENDING_UPLOAD among them) is refused
    with 422; for an [upload_id] that no row has, and a body whose
    [attempts] is absent or a 64-bit integer, the answer is 200; when the
    body has no [attempts] and the row exists, the NULL is refused by the
    store and the answer is 500; an [attempts] that is not a 64-bit
    integer is answered 500 whether or not the row exists.  In all four
    cases the store is exactly as before. *)
Theorem mark_event_status_edges s now update :
  (Aggregator.status_allowed (Aggregator.status update) = false ->
   Aggregator.mark_event_status s now update = (422, s))
  /\ (Aggregator.status_allowed (Aggregator.status update) = true ->
      DBManager.get_upload s (Aggregator.upload_id update) = None ->
      (forall n, Aggregator.attempts update = Some n ->
                 DBManager.sqlite_integer n = true) ->
      Aggregator.mark_event_status s now update = (200, s))
  /\ (Aggregator.status_allowed (Aggregator.status update) = true ->
      DBManager.get_upload s (Aggregator.upload_id update) <> None ->
      Aggregator.attempts update = None ->
      Aggregator.mark_event_status s now update = (500, s))
  /\ (forall n,
        Aggregator.status_allowed (Aggregator.status update) = true ->
        Aggregator.attempts update = Some n ->
        DBManager.sqlite_integer n = false ->
        Aggregator.mark_event_status s now update = (500, s)).
Proof.
  unfold Aggregator.mark_event_status. split; [|split; [|split]].
  - intros ->. reflexivity.
  - intros -> Hget Hn.
    unfold DBManager.update_upload_status, DBManager.execute_error.
    rewrite Hget. cbn [kw_attempts].
    rewrite (update_uploads_absent _ _ _ Hget).
    assert (Hs : mkStore (events s) (pending_uploads s) (kb_meta s) = s)
      by (destruct s; reflexivity).
    rewrite Hs, Hget.
    destruct (Aggregator.attempts update) as [n|].
    + rewrite (Hn n eq_refl). destruct (DBManager.is_final _); reflexivity.
    + destruct (DBManager.is_final _); reflexivity.
  - intros -> Hget ->.
    unfold DBManager.update_upload_status, DBManager.execute_error. cbn [kw_attempts].
    destruct (DBManager.get_upload s (Aggregator.upload_id update));
      [reflexivity | destruct (Hget eq_refl)].
  - intros n -> -> Hn.
    unfold DBManager.update_upload_status, DBManager.execute_error. cbn [kw_attempts].
    rewrite Hn. reflexivity.
Qed.

Lemma mark_event_status_edges_witness :
  Aggregator.mark_event_status Scenario.store_pending 30
    (Aggregator.mkStatusUpdate "upload-evt-test-001" "PROCESSING" None None None)
  = (500, Scenario.store_pending).
Proof.
  apply (proj1 (proj2 (proj2 (mark_event_status_edges Scenario.store_pending 30
                                (Aggregator.mkStatusUpdate "upload-evt-test-001"
                                   "PROCESSING" None None None)))));
    [reflexivity | discriminate | reflexivity].
Defined.

(** ** The upload transaction, step by step *)

Lemma bind_Ok {A B} (m : M A) (k : A -> M B) w a w1 :
  m w = (Ok a, w1) -> bind m k w = k a w1.
Proof. intros H. unfold bind. rewrite H. reflexivity. Qed.

Lemma bind_Raise {A B} (m : M A) (k : A -> M B) w e w1 :
  m w = (Raise e, w1) -> bind m k w = (Raise e, w1).
Proof. intros H. unfold bind. rewrite H. reflexivity. Qed.


(** The best case of a transaction, step by step. *)
Lemma process_upload_best_case sha256 config env upload w event content
    upload_url final_url :
  0 <= retry_backoff_seconds config <= 3600 ->
  0 <= PendingUpload.attempts upload < 1000 ->
  (0 <= random env)%Q ->
  read_file env (PendingUpload.filepath upload) = Some content ->
  raise_for_status (presign_reply env)
  = Ok (JsonObject (mkPresignedData (Some upload_url) (Some final_url) None)) ->
  upload_url <> "" -> final_url <> "" ->
  raise_for_status (put_reply env) = Ok tt ->
  raise_for_status (complete_reply env) = Ok tt ->
  DBManager.get_upload (w_store w) (PendingUpload.upload_id upload) = Some upload ->
  DBManager.get_event (w_store w) (PendingUpload.event_id upload) = Some event ->
  let retry := PendingUpload.attempts upload + 1 <? max_retries config in
  exists w' sleeps,
    Uploader.process_upload sha256 config env upload w = (Ok tt, w')
    /\ w_trace w'
       = (w_trace w ++
          [PresignRequest (tenant_id config) (device_id config)
             (PendingUpload.event_id upload) (path_name (PendingUpload.filepath upload))
             (Z.of_nat (length content))
             (Uploader.content_type_of (PendingUpload.filepath upload))
             (PendingUpload.event_id upload);
           PutRequest upload_url content "video/mp4" (sha256 content);
           CompleteRequest (PendingUpload.upload_id upload) (PendingUpload.event_id upload)
             final_url (sha256 content) (PendingUpload.event_id upload)]
          ++ sleeps)%list
    /\ (if retry
        then exists seconds, sleeps = [Sleep seconds] /\ (0 <= seconds <= 3600)%Q
        else sleeps = [])
    /\ DBManager.get_upload (w_store w') (PendingUpload.upload_id upload)
       = Some (PendingUpload.mk (PendingUpload.upload_id upload)
                 (PendingUpload.event_id upload) (PendingUpload.filepath upload)
                 (PendingUpload.attempts upload + 1) (Some (now_closing env))
                 (if retry then "PENDING_UPLOAD" else "FAILED")
                 (Some (sha256 content)) (PendingUpload.final_url upload))
    /\ DBManager.get_event (w_store w') (PendingUpload.event_id upload)
       = Some (if retry then event
               else Event.mk (Event.event_id event) (Event.json event) "FAILED"
                      (Event.created_at event) (now_closing env)).
Proof.
  intros HB Hatt Hr0 Hfile Hpresign Hurl Hfinal Hput Hcomplete Hrow Hevent retry.
  destruct (small_attempts_fit config (PendingUpload.attempts upload) HB Hatt)
    as [Hint Hfit].
  destruct (upload_steps_presigned sha256 config env upload w content
              (mkPresignedData (Some upload_url) (Some final_url) None)
              upload_url final_url Hfile Hpresign eq_refl eq_refl Hurl Hfinal)
    as (s1 & Hs1 & Hsteps).
  cbn [pd_upload_id from_option] in Hs1.
  unfold after_put in Hsteps. rewrite Hput, Hcomplete in Hsteps. cbn [fst snd] in Hsteps.
  pose proof (get_upload_update_upload_status _ _ _ _ _ _
                (PendingUpload.upload_id upload) Hs1) as Hrow1.
  rewrite Hrow, String.eqb_refl in Hrow1. cbn [option_map] in Hrow1.
  destruct (update_upload_status_tables _ _ _ _ _ _ Hs1) as (_ & _ & Hev1).
  rewrite Hrow in Hev1. cbn in Hev1.
  set (w1 := mkWorld s1 _) in Hsteps.
  destruct (handle_failure_outcome config env upload 500 w1 _ (proj1 HB) Hr0 Hint Hfit
              Hrow1)
    as (w' & r' & Hrun & Hget' & Hr' & Htrace & _ & Hevents).
  change (500 >=? 500) with true in Hr', Htrace, Hevents. cbn [negb] in Hr', Htrace, Hevents.
  rewrite orb_false_r in Hr', Htrace, Hevents.
  assert (Hretry : (PendingUpload.attempts upload + 1 >=? max_retries config)
                   = negb retry).
  { unfold retry. rewrite Z.geb_leb, Z.ltb_antisym, negb_involutive. reflexivity. }
  rewrite Hretry in Hr', Htrace, Hevents.
  exists w'.
  exists (if retry
          then [Sleep (Uploader.wait_time config env (PendingUpload.attempts upload + 1))]
          else []).
  split.
  { unfold Uploader.process_upload. rewrite Hfile. unfold try_except. rewrite Hsteps.
    exact Hrun. }
  split.
  { rewrite Htrace. unfold w1. cbn [w_trace]. unfold presign_request, complete_request.
    rewrite <- app_assoc. cbn [app]. destruct retry; reflexivity. }
  split.
  { destruct retry; [|reflexivity]. eexists. split; [reflexivity|]. split.
    - apply wait_time_nonneg; [exact (proj1 HB) | exact Hr0].
    - unfold Uploader.wait_time. apply Q.le_min_r. }
  split.
  { rewrite Hget', Hr'. cbn. destruct retry; reflexivity. }
  unfold DBManager.get_event in *. rewrite Hevents. cbn [w1 w_store].
  destruct retry; cbn [negb].
  - rewrite Hev1. exact Hevent.
  - rewrite Hev1. cbn [DBManager.set_values PendingUpload.event_id].
    rewrite find_update_events, Hevent. cbn. rewrite String.eqb_refl. reflexivity.
Qed.


(** X11.  The best case of a transaction.  The clip exists, the
    presign reply has both URLs and no [upload_id] key, the PUT and the
    completion are accepted, and the row (with [0 <= attempts < 1000]) and
    its event are in the store; [0 <= retry_backoff_seconds <= 3600].
    Then the transaction returns after the three requests presign, PUT,
    complete, the PUT sending the bytes of the clip and the completion
    their SHA-256, and no metadata request: [_post_metadata] raises before
    it asks, whatever the metadata endpoint would answer.  The failure is
    handled as a 500: the row keeps the checksum of the PROCESSING update,
    has no [final_url] written and one attempt more; with attempts left it
    is back in PENDING_UPLOAD after one sleep of at most an hour and the
    event is as before, otherwise row and event are FAILED. *)
Theorem upload_best_case_is_a_failure sha256 config env upload w event content
    upload_url final_url :
  0 <= retry_backoff_seconds config <= 3600 ->
  0 <= PendingUpload.attempts upload < 1000 ->
  (0 <= random env)%Q ->
  read_file env (PendingUpload.filepath upload) = Some content ->
  raise_for_status (presign_reply env)
  = Ok (JsonObject (mkPresignedData (Some upload_url) (Some final_url) None)) ->
  upload_url <> "" -> final_url <> "" ->
  raise_for_status (put_reply env) = Ok tt ->
  raise_for_status (complete_reply env) = Ok tt ->
  DBManager.get_upload (w_store w) (PendingUpload.upload_id upload) = Some upload ->
  DBManager.get_event (w_store w) (PendingUpload.event_id upload) = Some event ->
  let retry := PendingUpload.attempts upload + 1 <? max_retries config in
  exists w' sleeps,
    Uploader.process_upload sha256 config env upload w = (Ok tt, w')
    /\ w_trace w'
       = (w_trace w ++
          [PresignRequest (tenant_id config) (device_id config)
             (PendingUpload.event_id upload) (path_name (PendingUpload.filepath upload))
             (Z.of_nat (length content))
             (Uploader.content_type_of (PendingUpload.filepath upload))
             (PendingUpload.event_id upload);
           PutRequest upload_url content "video/mp4" (sha256 content);
           CompleteRequest (PendingUpload.upload_id upload) (PendingUpload.event_id upload)
             final_url (sha256 content) (PendingUpload.event_id upload)]
          ++ sleeps)%list
    /\ (if retry
        then exists seconds, sleeps = [Sleep seconds] /\ (0 <= seconds <= 3600)%Q
        else sleeps = [])
    /\ DBManager.get_upload (w_store w') (PendingUpload.upload_id upload)
       = Some (PendingUpload.mk (PendingUpload.upload_id upload)
                 (PendingUpload.event_id upload) (PendingUpload.filepath upload)
                 (PendingUpload.attempts upload + 1) (Some (now_closing env))
                 (if retry then "PENDING_UPLOAD" else "FAILED")
                 (Some (sha256 content)) (PendingUpload.final_url upload))
    /\ DBManager.get_event (w_store w') (PendingUpload.event_id upload)
       = Some (if retry then event
               else Event.mk (Event.event_id event) (Event.json event) "FAILED"
                      (Event.created_at event) (now_closing env)).
Proof. apply process_upload_best_case. Qed.

Lemma upload_best_case_is_a_failure_witness :
  exists w' sleeps,
    Uploader.process_upload Scenario.digest Scenario.config Scenario.env_mkv
      Scenario.upload_mkv (mkWorld Scenario.store_mkv []) = (Ok tt, w')
    /\ w_trace w'
       = ([PresignRequest "acme" "thor-mini-001" "evt-test-002" "clip.mkv" 4
             "application/octet-stream" "evt-test-002";
           PutRequest "http://m/u2" Scenario.clip "video/mp4" "5a17";
           CompleteRequest "upload-evt-test-002" "evt-test-002" "https://cdn/u2" "5a17"
             "evt-test-002"] ++ sleeps)%list
    /\ (exists seconds, sleeps = [Sleep seconds] /\ (0 <= seconds <= 3600)%Q)
    /\ DBManager.get_upload (w_store w') "upload-evt-test-002"
       = Some (PendingUpload.mk "upload-evt-test-002" "evt-test-002" "/tmp/clip.mkv"
                 1 (Some 20) "PENDING_UPLOAD" (Some "5a17") None)
    /\ DBManager.get_event (w_store w') "evt-test-002"
       = Some (Event.mk "evt-test-002" "{}" "PENDING_UPLOAD" 1 1).
Proof.
  apply (upload_best_case_is_a_failure Scenario.digest Scenario.config Scenario.env_mkv
           Scenario.upload_mkv (mkWorld Scenario.store_mkv [])
           (Event.mk "evt-test-002" "{}" "PENDING_UPLOAD" 1 1) Scenario.clip
           "http://m/u2" "https://cdn/u2");
    first [reflexivity | discriminate | cbn; lia | cbn; lra].
Defined.

(** X12.  A presign request answered with a client error (4xx) is
    final: the transaction returns having made only the presign request
    and slept for no retry; the row is FAILED with its [attempts]
    incremented, and so is its event.  This is so whenever the incremented
    [attempts] is a 64-bit integer; at the one value where it is not, the
    FAILED update cannot be executed and the transaction is left by the
    exception after the presign request, the store as before. *)
Theorem presign_client_error_fails sha256 config env upload w event content status_code :
  read_file env (PendingUpload.filepath upload) = Some content ->
  raise_for_status (presign_reply env) = Raise (HTTPError status_code) ->
  status_code < 500 ->
  DBManager.get_upload (w_store w) (PendingUpload.upload_id upload) = Some upload ->
  DBManager.get_event (w_store w) (PendingUpload.event_id upload) = Some event ->
  let presign :=
    PresignRequest (tenant_id config) (device_id config)
      (PendingUpload.event_id upload) (path_name (PendingUpload.filepath upload))
      (Z.of_nat (length content))
      (Uploader.content_type_of (PendingUpload.filepath upload))
      (PendingUpload.event_id upload) in
  (DBManager.sqlite_integer (PendingUpload.attempts upload + 1) = true ->
   exists w',
     Uploader.process_upload sha256 config env upload w = (Ok tt, w')
     /\ w_trace w' = (w_trace w ++ [presign])%list
     /\ DBManager.get_upload (w_store w') (PendingUpload.upload_id upload)
        = Some (PendingUpload.mk (PendingUpload.upload_id upload)
                  (PendingUpload.event_id upload) (PendingUpload.filepath upload)
                  (PendingUpload.attempts upload + 1) (Some (now_closing env)) "FAILED"
                  (PendingUpload.checksum upload) (PendingUpload.final_url upload))
     /\ DBManager.get_event (w_store w') (PendingUpload.event_id upload)
        = Some (Event.mk (Event.event_id event) (Event.json event) "FAILED"
                  (Event.created_at event) (now_closing env)))
  /\ (DBManager.sqlite_integer (PendingUpload.attempts upload + 1) = false ->
      exists e,
        Uploader.process_upload sha256 config env upload w
        = (Raise e, mkWorld (w_store w) (w_trace w ++ [presign])%list)).
Proof.
  intros Hfile Hpresign Hcode Hrow Hevent presign.
  set (uid := PendingUpload.upload_id upload) in *.
  set (kw := mkKwargs (Some (Some (PendingUpload.attempts upload + 1))) None None).
  assert (Hrun : Uploader.process_upload sha256 config env upload w
                 = db_update_upload_status (now_closing env) uid "FAILED" kw
                     (mkWorld (w_store w) (w_trace w ++ [presign])%list)).
  { unfold Uploader.process_upload. rewrite Hfile.
    unfold try_except, Uploader.upload_steps, Uploader.calculate_sha256,
      Uploader._request_presigned_url.
    rewrite Hfile, Hpresign.
    unfold lift. unfold bind, ret, raise, emit. cbn [w_store w_trace].
    unfold Uploader.on_exception, Uploader._handle_failure.
    assert (Hlt : (status_code >=? 500) = false) by lia. rewrite Hlt.
    fold uid kw presign.
    destruct (PendingUpload.attempts upload + 1 >=? max_retries config); reflexivity. }
  rewrite Hrun. unfold db_update_upload_status. cbn [w_store w_trace].
  split.
  - intros Hint.
    destruct (update_upload_status_returns (w_store w) (now_closing env) uid "FAILED" kw)
      as [s1 Hs1]; [eapply execute_error_attempts; [reflexivity | exact Hint]|].
    pose proof (get_upload_update_upload_status _ _ _ _ _ _ uid Hs1) as Hrow1.
    rewrite Hrow, String.eqb_refl in Hrow1. cbn [option_map] in Hrow1.
    destruct (update_upload_status_tables _ _ _ _ _ _ Hs1) as (_ & _ & Hev1).
    rewrite Hrow in Hev1. cbn in Hev1.
    rewrite Hs1. eexists. split; [reflexivity|].
    cbn [w_trace w_store]. split; [reflexivity|]. split; [exact Hrow1|].
    unfold DBManager.get_event in *. rewrite Hev1, find_update_events, Hevent.
    cbn. rewrite String.eqb_refl. reflexivity.
  - intros Hint.
    rewrite (update_upload_status_raises (w_store w) (now_closing env) uid "FAILED" kw
               (OverflowError "Python int too large to convert to SQLite INTEGER")).
    + eexists. reflexivity.
    + unfold DBManager.execute_error. cbn [kw kw_attempts]. rewrite Hint. reflexivity.
Qed.

Lemma presign_client_error_fails_witness :
  exists w',
    Uploader.process_upload Scenario.digest Scenario.config
      (mkEnv Scenario.disk (Responded 400 NotJson) (Responded 200 tt) (Responded 200 tt)
         (Responded 200 tt) (1 # 2) 10 20)
      Scenario.upload1 (mkWorld Scenario.store_pending []) = (Ok tt, w')
    /\ w_trace w'
       = ([] ++
          [PresignRequest "acme" "thor-mini-001" "evt-test-001"
             (path_name "/tmp/test_clip.mp4") (Z.of_nat (length Scenario.clip))
             (Uploader.content_type_of "/tmp/test_clip.mp4") "evt-test-001"])%list
    /\ DBManager.get_upload (w_store w') "upload-evt-test-001"
       = Some (PendingUpload.mk "upload-evt-test-001" "evt-test-001" "/tmp/test_clip.mp4"
                 (0 + 1) (Some 20) "FAILED" None None)
    /\ DBManager.get_event (w_store w') "evt-test-001"
       = Some (Event.mk "evt-test-001" "{}" "FAILED" 1 20).
Proof.
  apply (proj1 (presign_client_error_fails Scenario.digest Scenario.config
                  (mkEnv Scenario.disk (Responded 400 NotJson) (Responded 200 tt)
                     (Responded 200 tt) (Responded 200 tt) (1 # 2) 10 20)
                  Scenario.upload1 (mkWorld Scenario.store_pending []) Scenario.event1
                  Scenario.clip 400 eq_refl eq_refl eq_refl eq_refl eq_refl)).
  reflexivity.
Defined.

(** X13.  How [_handle_failure] classifies.  For
    [0 <= retry_backoff_seconds <= 3600], a random draw that is not
    negative, an upload with [0 <= attempts < 1000] and a row that exists,
    it returns with the row's [attempts] set to [upload.attempts + 1].
    When that reaches [max_retries], or the status code is below 500, the
    row is FAILED and nothing is slept; otherwise (a code of 500 or more
    with attempts left) the row is back in PENDING_UPLOAD after exactly one
    sleep, of at most an hour: a row returns to the queue only with fewer
    than [max_retries] attempts.  Without those bounds, when the backoff is
    an integer too large for a float, a retryable failure with attempts
    left raises instead: nothing is slept and the row is not updated. *)
Theorem failure_classification config env upload status_code w :
  (forall r,
     0 <= retry_backoff_seconds config <= 3600 ->
     0 <= PendingUpload.attempts upload < 1000 ->
     (0 <= random env)%Q ->
     DBManager.get_upload (w_store w) (PendingUpload.upload_id upload) = Some r ->
     exists w' r',
       Uploader._handle_failure config env upload status_code w = (Ok tt, w')
       /\ DBManager.get_upload (w_store w') (PendingUpload.upload_id upload) = Some r'
       /\ PendingUpload.attempts r' = PendingUpload.attempts upload + 1
       /\ (max_retries config <= PendingUpload.attempts upload + 1 \/ status_code < 500 ->
           PendingUpload.status r' = "FAILED" /\ w_trace w' = w_trace w)
       /\ (PendingUpload.attempts upload + 1 < max_retries config /\ 500 <= status_code ->
           PendingUpload.status r' = "PENDING_UPLOAD"
           /\ exists seconds,
                w_trace w' = (w_trace w ++ [Sleep seconds])%list
                /\ (0 <= seconds <= 3600)%Q))
  /\ (PendingUpload.attempts upload + 1 < max_retries config ->
      500 <= status_code ->
      Uploader.wait_time_overflow config (PendingUpload.attempts upload + 1) = true ->
      exists e, Uploader._handle_failure config env upload status_code w = (Raise e, w)).
Proof.
  split.
  - intros r HB Hatt Hr0 Hget.
    destruct (small_attempts_fit config (PendingUpload.attempts upload) HB Hatt)
      as [Hint Hfit].
    destruct (handle_failure_outcome config env upload status_code w r (proj1 HB) Hr0
                Hint Hfit Hget)
      as (w' & r' & Hrun & Hget' & Hr' & Htr & _).
    exists w', r'. split; [exact Hrun|]. split; [exact Hget'|].
    split; [rewrite Hr'; reflexivity|].
    split.
    + intros Hcase.
      assert (Hb : (PendingUpload.attempts upload + 1 >=? max_retries config)
                   || negb (status_code >=? 500) = true).
      { apply orb_true_iff. destruct Hcase; [left | right; apply negb_true_iff]; lia. }
      rewrite Hb in Hr', Htr. split; [rewrite Hr'; reflexivity|].
      rewrite Htr. apply app_nil_r.
    + intros [Hlt Hge].
      assert (H1 : (PendingUpload.attempts upload + 1 >=? max_retries config) = false)
        by lia.
      assert (H2 : (status_code >=? 500) = true) by lia.
      rewrite H1, H2 in Hr', Htr. cbn [orb negb] in Hr', Htr.
      split; [rewrite Hr'; reflexivity|].
      eexists. split; [exact Htr|]. split.
      * apply wait_time_nonneg; [exact (proj1 HB) | exact Hr0].
      * unfold Uploader.wait_time. apply Q.le_min_r.
  - intros Hlt Hge Hover. unfold Uploader._handle_failure.
    assert (H1 : (PendingUpload.attempts upload + 1 >=? max_retries config) = false)
      by lia.
    assert (H2 : (status_code >=? 500) = true) by lia.
    rewrite H1, H2, Hover. eexists. reflexivity.
Qed.

Lemma failure_classification_witness :
  exists w' r',
    Uploader._handle_failure Scenario.config Scenario.env_503 Scenario.upload1 503
      (mkWorld Scenario.store_pending []) = (Ok tt, w')
    /\ DBManager.get_upload (w_store w') "upload-evt-test-001" = Some r'
    /\ PendingUpload.attempts r' = 0 + 1
    /\ PendingUpload.status r' = "PENDING_UPLOAD".
Proof.
  destruct (proj1 (failure_classification Scenario.config Scenario.env_503
                     Scenario.upload1 503 (mkWorld Scenario.store_pending []))
              Scenario.upload1)
    as (w' & r' & H1 & H2 & H3 & _ & H5).
  - cbn. lia.
  - cbn. lia.
  - cbn. lra.
  - reflexivity.
  - exists w', r'. split; [exact H1|]. split; [exact H2|]. split; [exact H3|].
    apply H5. cbn. lia.
Defined.

(** ** The rows a transaction touches *)

Lemma keeps_bind_returns (R : World -> World -> Prop) {A B} (Q : A -> Prop)
    (m : M A) (k : A -> M B) :
  (forall w1 w2 w3, R w1 w2 -> R w2 w3 -> R w1 w3) ->
  keeps R m -> returns Q m -> (forall a, Q a -> keeps R (k a)) -> keeps R (bind m k).
Proof.
  intros Htrans Hm Hret Hk w. unfold bind. specialize (Hm w).
  destruct (m w) as [[a|e] w1] eqn:Hrun; cbn [snd] in *; [|exact Hm].
  eapply Htrans; [exact Hm | apply Hk, (Hret w a w1 Hrun)].
Qed.

(** What [_request_presigned_url] returns is the object of the reply. *)
Lemma request_presigned_url_returns config env upload file_path :
  returns (fun d => raise_for_status (presign_reply env) = Ok (JsonObject d))
    (Uploader._request_presigned_url config env upload file_path).
Proof.
  intros w d w'. unfold Uploader._request_presigned_url.
  destruct (read_file env file_path); [|discriminate].
  unfold bind, emit, lift.
  destruct (raise_for_status (presign_reply env)) as [[|d']|e]; cbn; try discriminate.
  intros [= -> _]. reflexivity.
Qed.

Section FrameFacts.

Variable id : string.

Lemma row_untouched_refl w : row_untouched id w w.
Proof. reflexivity. Qed.

Lemma row_untouched_trans w1 w2 w3 :
  row_untouched id w1 w2 -> row_untouched id w2 w3 -> row_untouched id w1 w3.
Proof. unfold row_untouched. congruence. Qed.

Lemma row_untouched_emit e : keeps (row_untouched id) (emit e).
Proof. intros w. reflexivity. Qed.

Lemma row_untouched_db_update now uid status kw :
  uid <> id -> keeps (row_untouched id) (db_update_upload_status now uid status kw).
Proof.
  intros Hne w. unfold row_untouched, db_update_upload_status.
  destruct (DBManager.update_upload_status _ _ _ _ _) as [s'|e] eqn:H; [|reflexivity].
  cbn [snd w_store]. rewrite (get_upload_update_upload_status _ _ _ _ _ _ id H).
  apply not_eq_sym, String.eqb_neq in Hne. rewrite Hne.
  destruct (DBManager.get_upload (w_store w) id); reflexivity.
Qed.

Lemma row_untouched_handle_failure config env upload status_code :
  PendingUpload.upload_id upload <> id ->
  keeps (row_untouched id) (Uploader._handle_failure config env upload status_code).
Proof.
  intros Hne. unfold Uploader._handle_failure, Uploader.sleep.
  repeat first
    [ apply row_untouched_emit
    | apply row_untouched_db_update; exact Hne
    | keeps_step row_untouched_refl row_untouched_trans ].
Qed.

Lemma row_untouched_request_presigned_url config env upload file_path :
  keeps (row_untouched id) (Uploader._request_presigned_url config env upload file_path).
Proof.
  unfold Uploader._request_presigned_url.
  repeat first
    [ apply row_untouched_emit
    | keeps_step row_untouched_refl row_untouched_trans ].
Qed.

End FrameFacts.

(** X14.  A transaction touches only its own row and the row under the
    id the server returned: a row under any other [upload_id], or the
    absence of one, is exactly as before, whatever the replies. *)
Theorem process_upload_touches_own_rows sha256 config env upload w id :
  id <> PendingUpload.upload_id upload ->
  (forall d, raise_for_status (presign_reply env) = Ok (JsonObject d) ->
             pd_upload_id d <> Some id) ->
  DBManager.get_upload
    (w_store (snd (Uploader.process_upload sha256 config env upload w))) id
  = DBManager.get_upload (w_store w) id.
Proof.
  intros Hlocal Hserver.
  change (row_untouched id w (snd (Uploader.process_upload sha256 config env upload w))).
  revert w. change (keeps (row_untouched id)
                      (Uploader.process_upload sha256 config env upload)).
  assert (Hne : PendingUpload.upload_id upload <> id) by congruence.
  unfold Uploader.process_upload.
  destruct (read_file env (PendingUpload.filepath upload)) as [content|] eqn:Hfile;
    [|apply row_untouched_db_update; exact Hne].
  apply (keeps_try_except _ (row_untouched_trans id)).
  2: { intros e. destruct e; apply row_untouched_handle_failure; exact Hne. }
  unfold Uploader.upload_steps, Uploader.calculate_sha256. rewrite Hfile.
  keeps_step (row_untouched_refl id) (row_untouched_trans id).
  apply (keeps_bind_returns _ _ _ _ (row_untouched_trans id)
           (row_untouched_request_presigned_url id _ _ _ _)
           (request_presigned_url_returns _ _ _ _)).
  intros d Hd. cbv zeta.
  assert (Huid : default (PendingUpload.upload_id upload) (pd_upload_id d) <> id).
  { specialize (Hserver d Hd). destruct (pd_upload_id d) as [sid|]; cbn; congruence. }
  unfold Uploader._upload_file, Uploader._complete_upload, Uploader._post_metadata.
  repeat first
    [ apply row_untouched_emit
    | apply row_untouched_db_update; exact Huid
    | keeps_step (row_untouched_refl id) (row_untouched_trans id) ].
Qed.

Lemma process_upload_touches_own_rows_witness :
  DBManager.get_upload
    (w_store (snd (Uploader.process_upload Scenario.digest Scenario.config Scenario.env_mock
                     Scenario.upload1
                     (mkWorld (mkStore [Scenario.event1]
                                 [Scenario.upload1; Scenario.upload_mkv] []) []))))
    "upload-evt-test-002"
  = DBManager.get_upload
      (mkStore [Scenario.event1] [Scenario.upload1; Scenario.upload_mkv] [])
      "upload-evt-test-002".
Proof.
  apply (process_upload_touches_own_rows Scenario.digest Scenario.config Scenario.env_mock
           Scenario.upload1
           (mkWorld (mkStore [Scenario.event1] [Scenario.upload1; Scenario.upload_mkv] []) [])
           "upload-evt-test-002").
  - discriminate.
  - intros d [= <-]. discriminate.
Defined.

(** ** An iteration of the uploader's loop *)

Lemma attempts_not_lowered_trans w1 w2 w3 :
  attempts_not_lowered w1 w2 -> attempts_not_lowered w2 w3 -> attempts_not_lowered w1 w3.
Proof.
  intros H12 H23 id r Hget.
  destruct (H12 id r Hget) as (r2 & Hget2 & Hle2).
  destruct (H23 id r2 Hget2) as (r3 & Hget3 & Hle3).
  exists r3. split; [exact Hget3 | lia].
Qed.

Section OtherAttempts.

Variable uid : string.

Lemma other_attempts_same_refl w : other_attempts_same uid w w.
Proof. intros id _. reflexivity. Qed.

Lemma other_attempts_same_trans w1 w2 w3 :
  other_attempts_same uid w1 w2 -> other_attempts_same uid w2 w3 ->
  other_attempts_same uid w1 w3.
Proof. intros H12 H23 id Hne. rewrite (H23 id Hne). apply H12, Hne. Qed.

Lemma other_attempts_same_emit e : keeps (other_attempts_same uid) (emit e).
Proof. intros w id _. reflexivity. Qed.

Lemma other_attempts_same_db_update now uid' status kw :
  kw_attempts kw = None \/ uid' = uid ->
  keeps (other_attempts_same uid) (db_update_upload_status now uid' status kw).
Proof.
  intros Hcase w id Hne. unfold db_update_upload_status.
  destruct (DBManager.update_upload_status _ _ _ _ _) as [s'|e] eqn:H; [|reflexivity].
  cbn [snd w_store]. rewrite (get_upload_update_upload_status _ _ _ _ _ _ id H).
  destruct (DBManager.get_upload (w_store w) id) as [r|]; [|reflexivity]. cbn.
  destruct (String.eqb_spec id uid') as [->|Hid]; [|reflexivity].
  destruct Hcase as [Hkw|Heq]; [|congruence]. cbn. rewrite Hkw. reflexivity.
Qed.

End OtherAttempts.

Section LoopFacts.

Variable sha256 : list Byte.byte -> string.
Variable config : Config.

(** A transaction writes [attempts] of its own row only. *)
Lemma process_upload_other_attempts env upload :
  keeps (other_attempts_same (PendingUpload.upload_id upload))
    (Uploader.process_upload sha256 config env upload).
Proof.
  set (uid := PendingUpload.upload_id upload).
  unfold Uploader.process_upload.
  destruct (read_file env (PendingUpload.filepath upload));
    [|apply other_attempts_same_db_update; left; reflexivity].
  apply (keeps_try_except _ (other_attempts_same_trans uid)).
  - unfold Uploader.upload_steps, Uploader.calculate_sha256,
      Uploader._request_presigned_url, Uploader._upload_file,
      Uploader._complete_upload, Uploader._post_metadata.
    repeat first
      [ apply other_attempts_same_emit
      | apply other_attempts_same_db_update; left; reflexivity
      | keeps_step (other_attempts_same_refl uid) (other_attempts_same_trans uid) ].
  - intros e.
    assert (Hh : forall code,
               keeps (other_attempts_same uid)
                 (Uploader._handle_failure config env upload code)).
    { intros code. unfold Uploader._handle_failure, Uploader.sleep.
      repeat first
        [ apply other_attempts_same_emit
        | apply other_attempts_same_db_update; right; reflexivity
        | keeps_step (other_attempts_same_refl uid) (other_attempts_same_trans uid) ]. }
    destruct e; apply Hh.
Qed.

(** A transaction lowers no [attempts] when the stored row has at most
    one more attempt than the [upload] it was given. *)
Lemma process_upload_attempts_not_lowered env upload w :
  (forall r, DBManager.get_upload (w_store w) (PendingUpload.upload_id upload) = Some r ->
             PendingUpload.attempts r <= PendingUpload.attempts upload + 1) ->
  attempts_not_lowered w (snd (Uploader.process_upload sha256 config env upload w)).
Proof.
  intros Hrow. unfold Uploader.process_upload.
  destruct (read_file env (PendingUpload.filepath upload)).
  2: { apply same_attempts_not_lowered, same_attempts_db_update. reflexivity. }
  unfold try_except.
  pose proof (upload_steps_same_attempts sha256 config env upload w) as Hsteps.
  destruct (Uploader.upload_steps sha256 config env upload w) as [[[]|e] w1];
    cbn [snd] in *; [apply same_attempts_not_lowered, Hsteps|].
  apply (attempts_not_lowered_trans _ w1); [apply same_attempts_not_lowered, Hsteps|].
  assert (Hrow1 : forall r,
             DBManager.get_upload (w_store w1) (PendingUpload.upload_id upload) = Some r ->
             PendingUpload.attempts r <= PendingUpload.attempts upload + 1).
  { intros r Hr. specialize (Hsteps (PendingUpload.upload_id upload)). rewrite Hr in Hsteps.
    destruct (DBManager.get_upload (w_store w) _) as [r0|] eqn:Hr0; [|discriminate].
    injection Hsteps as Hsteps. specialize (Hrow r0 eq_refl). lia. }
  destruct e; apply handle_failure_attempts, Hrow1.
Qed.

Variable env_for : PendingUpload.t -> Env.

Lemma process_all_attempts_not_lowered uploads w :
  NoDup (map PendingUpload.upload_id uploads) ->
  (forall u r, u ∈ uploads ->
               DBManager.get_upload (w_store w) (PendingUpload.upload_id u) = Some r ->
               PendingUpload.attempts r <= PendingUpload.attempts u + 1) ->
  attempts_not_lowered w (snd (UploaderLoop.process_all sha256 config env_for uploads w)).
Proof.
  revert w. induction uploads as [|u rest IH]; intros w Hnd Hrows;
    cbn [UploaderLoop.process_all].
  - apply same_attempts_not_lowered, same_attempts_refl.
  - cbn [map] in Hnd. apply NoDup_cons in Hnd as [Hu Hnd].
    pose proof (process_upload_attempts_not_lowered (env_for u) u w
                  (fun r => Hrows u r ltac:(left))) as Hfirst.
    pose proof (process_upload_other_attempts (env_for u) u w) as Hother.
    unfold bind.
    destruct (Uploader.process_upload sha256 config (env_for u) u w) as [[[]|e] w1];
      cbn [snd] in *; [|exact Hfirst].
    apply (attempts_not_lowered_trans _ w1); [exact Hfirst|].
    apply IH; [exact Hnd|].
    intros u' r Hu' Hr.
    assert (Hne : PendingUpload.upload_id u' <> PendingUpload.upload_id u).
    { intros Heq. apply Hu. rewrite <- Heq.
      apply (list_elem_of_fmap_2 PendingUpload.upload_id), Hu'. }
    specialize (Hother _ Hne). rewrite Hr in Hother.
    destruct (DBManager.get_upload (w_store w) (PendingUpload.upload_id u')) as [r0|] eqn:Hr0;
      [|discriminate].
    injection Hother as Hother.
    specialize (Hrows u' r0 ltac:(right; exact Hu') Hr0). lia.
Qed.

End LoopFacts.

(** In a table with unique keys a row is found under its key. *)
Lemma get_upload_of_row s (u : PendingUpload.t) :
  NoDup (map PendingUpload.upload_id (pending_uploads s)) ->
  u ∈ pending_uploads s ->
  DBManager.get_upload s (PendingUpload.upload_id u) = Some u.
Proof.
  unfold DBManager.get_upload. induction (pending_uploads s) as [|r rows IH];
    intros Hnd Hin; [apply elem_of_nil in Hin; destruct Hin|].
  cbn [map] in Hnd. apply NoDup_cons in Hnd as [Hr Hnd]. cbn [find].
  apply elem_of_cons in Hin as [->|Hin]; [rewrite String.eqb_refl; reflexivity|].
  destruct (String.eqb_spec (PendingUpload.upload_id r) (PendingUpload.upload_id u))
    as [Heq|Hne]; [|apply IH; assumption].
  exfalso. apply Hr. rewrite Heq.
  apply (list_elem_of_fmap_2 PendingUpload.upload_id), Hin.
Qed.

(** X15.  An iteration of the uploader's loop over a store with unique
    keys lowers no [attempts]: whatever the replies to the up to 10
    transactions it runs, every row is still in the store afterwards with
    at least the [attempts] it had. *)
Theorem run_iteration_attempts_not_lowered sha256 config env_for w id r :
  keys_unique (w_store w) ->
  DBManager.get_upload (w_store w) id = Some r ->
  exists r',
    DBManager.get_upload
      (w_store (snd (UploaderLoop.run_iteration sha256 config env_for w))) id = Some r'
    /\ PendingUpload.attempts r <= PendingUpload.attempts r'.
Proof.
  intros [Hkeys _]. revert id r.
  change (attempts_not_lowered w (snd (UploaderLoop.run_iteration sha256 config env_for w))).
  assert (Hstore : forall w2 w2',
             w_store w2' = w_store w2 ->
             attempts_not_lowered w w2 -> attempts_not_lowered w w2').
  { intros w2 w2' Heq H id r Hr. rewrite Heq. apply H, Hr. }
  unfold UploaderLoop.run_iteration, try_except, bind, get_store.
  destruct (DBManager.get_pending_uploads (w_store w) 10) as [|u rest] eqn:Hq.
  - apply (Hstore w); [reflexivity|]. apply same_attempts_not_lowered, same_attempts_refl.
  - pose proof (process_all_attempts_not_lowered sha256 config env_for (u :: rest) w)
      as Hall.
    destruct (UploaderLoop.process_all sha256 config env_for (u :: rest) w)
      as [[[]|e] w1]; cbn [snd] in *;
      (apply (Hstore w1); [reflexivity|]); apply Hall.
    all: try (rewrite <- Hq; apply get_pending_uploads_NoDup, Hkeys).
    all: intros u' r' Hu' Hr'; rewrite <- Hq in Hu';
      apply get_pending_uploads_sound in Hu' as [Hu' _];
      rewrite (get_upload_of_row _ _ Hkeys Hu') in Hr'; injection Hr' as <-; lia.
Qed.

Lemma run_iteration_attempts_not_lowered_witness :
  exists r',
    DBManager.get_upload
      (w_store (snd (UploaderLoop.run_iteration Scenario.digest Scenario.config
                       (fun _ => Scenario.env_503) (mkWorld Scenario.store_pending []))))
      "upload-evt-test-001" = Some r'
    /\ PendingUpload.attempts Scenario.upload1 <= PendingUpload.attempts r'.
Proof.
  apply (run_iteration_attempts_not_lowered Scenario.digest Scenario.config
           (fun _ => Scenario.env_503) (mkWorld Scenario.store_pending [])
           "upload-evt-test-001" Scenario.upload1).
  - split; cbn; apply NoDup_singleton.
  - reflexivity.
Defined.

(** ** The order of the requests *)

(** One case analysis on what a transaction is waiting for. *)
Ltac transaction_case :=
  match goal with
  | |- context [read_file ?e ?p] => destruct (read_file e p)
  | |- context [raise_for_status (presign_reply ?e)] =>
      destruct (raise_for_status (presign_reply e)) as [[|[? ? ?]]|?]
  | |- context [raise_for_status ?r] => destruct (raise_for_status r) as [[]|?]
  | |- context [falsy ?a || falsy ?b] => destruct (falsy a || falsy b)
  | |- context [DBManager.update_upload_status ?s ?n ?u ?st ?k] =>
      destruct (DBManager.update_upload_status s n u st k)
  | |- context [DBManager.get_event ?s ?i] => destruct (DBManager.get_event s i)
  | |- context [match ?x with
                | HTTPError _ => _
                | RequestException _ => _
                | ValueError _ => _
                | OSError _ => _
                | IntegrityError _ => _
                | AttributeError _ => _
                | OverflowError _ => _
                end] => destruct x
  | |- context [Z.geb ?a ?b] => destruct (Z.geb a b)
  | |- context [Uploader.wait_time_overflow ?c ?n] =>
      destruct (Uploader.wait_time_overflow c n)
  | |- context [Qle_bool ?a ?b] => destruct (Qle_bool a b)
  end.

(** The kinds of a trace that was extended step by step. *)
Ltac trace_kinds :=
  eexists; split;
  [ first [ symmetry; apply app_nil_r
          | rewrite <- ?app_assoc; cbn [app]; reflexivity ]
  | cbn [map kind_of];
    first
      [ exists 0%nat, []; split; [reflexivity | left; reflexivity]
      | exists 1%nat, []; split; [reflexivity | left; reflexivity]
      | exists 2%nat, []; split; [reflexivity | left; reflexivity]
      | exists 3%nat, []; split; [reflexivity | left; reflexivity]
      | exists 4%nat, []; split; [reflexivity | left; reflexivity]
      | exists 0%nat, [KSleep]; split; [reflexivity | right; reflexivity]
      | exists 1%nat, [KSleep]; split; [reflexivity | right; reflexivity]
      | exists 2%nat, [KSleep]; split; [reflexivity | right; reflexivity]
      | exists 3%nat, [KSleep]; split; [reflexivity | right; reflexivity]
      | exists 4%nat, [KSleep]; split; [reflexivity | right; reflexivity] ] ].

(** X16.  The requests of a transaction are made in the order
    presign, PUT, complete, metadata, each at most once and none before
    the one it follows; a transaction stops at the first that fails, and
    sleeps at most once, after its last request.  A missing clip gives no
    request at all. *)
Theorem process_upload_request_order sha256 config env upload w :
  exists new,
    w_trace (snd (Uploader.process_upload sha256 config env upload w))
    = (w_trace w ++ new)%list
    /\ exists n sleeps,
         map kind_of new = (take n [KPresign; KPut; KComplete; KMetadata] ++ sleeps)%list
         /\ (sleeps = [] \/ sleeps = [KSleep]).
Proof.
  unfold Uploader.process_upload, try_except, Uploader.upload_steps,
    Uploader.calculate_sha256, Uploader._request_presigned_url, Uploader._upload_file,
    Uploader._complete_upload, Uploader._post_metadata.
  change (DBManager.hasattr "Event") with false. cbv iota.
  unfold Uploader.on_exception, Uploader._handle_failure, Uploader.sleep.
  unfold lift. unfold bind, ret, raise, emit, get_store, db_update_upload_status.
  repeat (cbn [snd fst w_store w_trace]; transaction_case).
  all: cbn [snd fst w_store w_trace].
  all: trace_kinds.
Qed.

(** ** The knowledge-base log *)

Section KBFacts.

Import SyncPoll.

Lemma latest_app_later rows r :
  (forall r0, r0 ∈ rows -> KBMeta.applied_at r0 < KBMeta.applied_at r) ->
  latest (rows ++ [r]) = Some r.
Proof.
  induction rows as [|r0 rows IH]; intros Hall; cbn [app latest]; [reflexivity|].
  rewrite IH by (intros x Hx; apply Hall; right; exact Hx).
  assert (H0 : KBMeta.applied_at r0 < KBMeta.applied_at r) by (apply Hall; left).
  apply Z.ltb_lt in H0. rewrite H0. reflexivity.
Qed.

Lemma next_id_above rows r : r ∈ rows -> KBMeta.id r < next_id rows.
Proof.
  unfold next_id. induction rows as [|r0 rows IH]; intros Hin;
    [apply elem_of_nil in Hin; destruct Hin|].
  cbn [fold_right]. apply elem_of_cons in Hin as [->|Hin]; [lia|].
  specialize (IH Hin). lia.
Qed.

End KBFacts.

(** X17.  Recording then reading the knowledge-base version.  After
    [_download_and_apply_kb] has recorded a version at a time later than
    every row of the log, [_get_last_kb_version] returns that version; the
    new row's id is larger than every id of the log, the log is otherwise
    as before, and the two upload tables are not written. *)
Theorem kb_version_recorded_then_read s now version download_url :
  (forall r, r ∈ kb_meta s -> KBMeta.applied_at r < now) ->
  let s' := SyncPoll._download_and_apply_kb s now version download_url in
  SyncPoll._get_last_kb_version s' = version
  /\ (exists id, kb_meta s' = (kb_meta s ++ [KBMeta.mk id version now])%list
                 /\ forall r, r ∈ kb_meta s -> KBMeta.id r < id)
  /\ events s' = events s
  /\ pending_uploads s' = pending_uploads s.
Proof.
  intros Hlater. cbv zeta. unfold SyncPoll._get_last_kb_version,
    SyncPoll._download_and_apply_kb. cbn [kb_meta events pending_uploads].
  rewrite latest_app_later by exact Hlater. cbn.
  split; [reflexivity|]. split; [|split; reflexivity].
  eexists. split; [reflexivity|]. intros r Hr. apply next_id_above, Hr.
Qed.

Lemma kb_version_recorded_then_read_witness :
  SyncPoll._get_last_kb_version
    (SyncPoll._download_and_apply_kb
       (mkStore [] [] [KBMeta.mk 1 "20251101.1" 5]) 30 "20251116.1"
       "http://localhost:5000/download/kb-delta-20251116.1.zip")
  = "20251116.1"
  /\ (exists id,
        kb_meta (SyncPoll._download_and_apply_kb
                   (mkStore [] [] [KBMeta.mk 1 "20251101.1" 5]) 30 "20251116.1"
                   "http://localhost:5000/download/kb-delta-20251116.1.zip")
        = ([KBMeta.mk 1 "20251101.1" 5] ++ [KBMeta.mk id "20251116.1" 30])%list
        /\ forall r, r ∈ [KBMeta.mk 1 "20251101.1" 5] -> KBMeta.id r < id)
  /\ events (SyncPoll._download_and_apply_kb
               (mkStore [] [] [KBMeta.mk 1 "20251101.1" 5]) 30 "20251116.1"
               "http://localhost:5000/download/kb-delta-20251116.1.zip") = []
  /\ pending_uploads (SyncPoll._download_and_apply_kb
                        (mkStore [] [] [KBMeta.mk 1 "20251101.1" 5]) 30 "20251116.1"
                        "http://localhost:5000/download/kb-delta-20251116.1.zip") = [].
Proof.
  apply (kb_version_recorded_then_read (mkStore [] [] [KBMeta.mk 1 "20251101.1" 5]) 30
           "20251116.1" "http://localhost:5000/download/kb-delta-20251116.1.zip").
  intros r Hr. apply list_elem_of_singleton in Hr. subst r. cbn. lia.
Defined.

(** X18.  What a poll of the knowledge-base manifest writes.  It never
    writes the upload tables.  When the manifest names a version that is
    not empty and not the current one, and a download URL that is not
    empty, the poll appends exactly one row to the log, with that version
    and the time of the poll; in every other case (a request error, a body
    that is not JSON, no version, the current version, no URL) the log is
    as before.  On a store without a log the current version is
    ["0.0.0"], so a manifest announcing ["0.0.0"] is not applied. *)
Theorem poll_kb_manifest_effect reply s now :
  let s' := fst (SyncPoll._poll_kb_manifest reply s now) in
  events s' = events s
  /\ pending_uploads s' = pending_uploads s
  /\ (forall manifest version download_url,
        raise_for_status reply = Ok (SyncPoll.ManifestObject manifest) ->
        SyncPoll.kb_version manifest = Some version ->
        SyncPoll.delta_package_url manifest = Some download_url ->
        version <> "" -> download_url <> "" ->
        version <> SyncPoll._get_last_kb_version s ->
        kb_meta s'
        = (kb_meta s ++ [KBMeta.mk (SyncPoll.next_id (kb_meta s)) version now])%list)
  /\ ((forall manifest,
         raise_for_status reply = Ok (SyncPoll.ManifestObject manifest) ->
         falsy (SyncPoll.kb_version manifest) = true
         \/ SyncPoll.kb_version manifest = Some (SyncPoll._get_last_kb_version s)
         \/ falsy (SyncPoll.delta_package_url manifest) = true) ->
      s' = s)
  /\ (kb_meta s = [] ->
      (forall manifest, raise_for_status reply = Ok (SyncPoll.ManifestObject manifest) ->
                        SyncPoll.kb_version manifest = Some "0.0.0") ->
      s' = s).
Proof.
  cbv zeta. unfold SyncPoll._poll_kb_manifest.
  destruct (raise_for_status reply) as [[|manifest]|e] eqn:Hreply; cbn [fst];
    try (repeat split; discriminate).
  destruct (negb (falsy (SyncPoll.kb_version manifest))
            && negb (String.eqb (default "" (SyncPoll.kb_version manifest))
                       (SyncPoll._get_last_kb_version s))
            && negb (falsy (SyncPoll.delta_package_url manifest))) eqn:Hcond; cbn [fst].
  - apply andb_true_iff in Hcond as [Hcond Hurl].
    apply andb_true_iff in Hcond as [Hver Hnew].
    apply negb_true_iff in Hver, Hnew, Hurl.
    split; [reflexivity|]. split; [reflexivity|]. split; [|split].
    + intros m version url [= <-] Hv Hu _ _ _. rewrite Hv, Hu. reflexivity.
    + intros Hnot. exfalso.
      destruct (Hnot manifest eq_refl) as [H|[H|H]].
      * rewrite H in Hver. discriminate.
      * rewrite H in Hnew. cbn in Hnew. rewrite String.eqb_refl in Hnew. discriminate.
      * rewrite H in Hurl. discriminate.
    + intros Hempty Hzero. exfalso.
      specialize (Hzero manifest eq_refl). rewrite Hzero in Hnew.
      unfold SyncPoll._get_last_kb_version in Hnew. rewrite Hempty in Hnew.
      discriminate.
  - split; [reflexivity|]. split; [reflexivity|]. split; [|split; reflexivity].
    intros m version url [= <-] Hv Hu Hv_ne Hu_ne Hnew. exfalso.
    rewrite Hv, Hu in Hcond. cbn in Hcond.
    apply String.eqb_neq in Hv_ne, Hu_ne, Hnew.
    rewrite Hv_ne, Hu_ne, Hnew in Hcond. discriminate.
Qed.

Lemma poll_kb_manifest_effect_witness :
  kb_meta (fst (SyncPoll._poll_kb_manifest
                  (Responded 200
                     (SyncPoll.ManifestObject
                        (SyncPoll.mkManifest (Some "20251116.1")
                           (Some "http://localhost:5000/download/kb-delta-20251116.1.zip"))))
                  Scenario.store_pending 30))
  = [KBMeta.mk 1 "20251116.1" 30].
Proof.
  apply (proj1 (proj2 (proj2 (poll_kb_manifest_effect
                                (Responded 200
                                   (SyncPoll.ManifestObject
                                      (SyncPoll.mkManifest (Some "20251116.1")
                                         (Some "http://localhost:5000/download/kb-delta-20251116.1.zip"))))
                                Scenario.store_pending 30)))
           (SyncPoll.mkManifest (Some "20251116.1")
              (Some "http://localhost:5000/download/kb-delta-20251116.1.zip"))
           "20251116.1" "http://localhost:5000/download/kb-delta-20251116.1.zip");
    first [reflexivity | discriminate].
Defined.

(** X19.  Polling the manifest twice applies it once.  When the first
    poll is made at a time later than every row of the log, a second poll
    that gets the same reply at any time leaves the store exactly as the
    first left it. *)
Theorem poll_kb_manifest_idempotent reply s now now' :
  (forall r, r ∈ kb_meta s -> KBMeta.applied_at r < now) ->
  fst (SyncPoll._poll_kb_manifest reply (fst (SyncPoll._poll_kb_manifest reply s now)) now')
  = fst (SyncPoll._poll_kb_manifest reply s now).
Proof.
  intros Hlater. unfold SyncPoll._poll_kb_manifest at 2 3.
  destruct (raise_for_status reply) as [[|manifest]|e] eqn:Hreply; cbn [fst];
    try (unfold SyncPoll._poll_kb_manifest; rewrite Hreply; reflexivity).
  destruct (negb (falsy (SyncPoll.kb_version manifest))
            && negb (String.eqb (default "" (SyncPoll.kb_version manifest))
                       (SyncPoll._get_last_kb_version s))
            && negb (falsy (SyncPoll.delta_package_url manifest))) eqn:Hcond; cbn [fst].
  - unfold SyncPoll._poll_kb_manifest. rewrite Hreply.
    unfold SyncPoll._get_last_kb_version at 1, SyncPoll._download_and_apply_kb at 1.
    cbn [kb_meta]. rewrite latest_app_later by exact Hlater. cbn [KBMeta.kb_version].
    rewrite String.eqb_refl. cbn [negb andb]. rewrite andb_false_r. reflexivity.
  - unfold SyncPoll._poll_kb_manifest. rewrite Hreply, Hcond. reflexivity.
Qed.

Lemma poll_kb_manifest_idempotent_witness :
  fst (SyncPoll._poll_kb_manifest
         (Responded 200 (SyncPoll.ManifestObject
                           (SyncPoll.mkManifest (Some "20251116.1")
                              (Some "http://localhost:5000/download/kb-delta.zip"))))
         (fst (SyncPoll._poll_kb_manifest
                 (Responded 200 (SyncPoll.ManifestObject
                                   (SyncPoll.mkManifest (Some "20251116.1")
                                      (Some "http://localhost:5000/download/kb-delta.zip"))))
                 Scenario.store_pending 30)) 90)
  = fst (SyncPoll._poll_kb_manifest
           (Responded 200 (SyncPoll.ManifestObject
                             (SyncPoll.mkManifest (Some "20251116.1")
                                (Some "http://localhost:5000/download/kb-delta.zip"))))
           Scenario.store_pending 30).
Proof.
  apply (poll_kb_manifest_idempotent _ Scenario.store_pending 30 90).
  intros r Hr. apply elem_of_nil in Hr. destruct Hr.
Defined.

(** ** Installing packages *)

Section InstallFacts.

Import SyncWorker.

Lemma write_members_union (ms : list (string * list Byte.byte))
    (dir : gmap string (list Byte.byte)) :
  write_members ms dir = list_to_map (reverse ms) ∪ dir.
Proof.
  unfold write_members. revert dir.
  induction ms as [|[k v] ms IH]; intros dir; cbn [fold_left fst snd].
  - cbn. rewrite (left_id_L ∅ (∪)). reflexivity.
  - rewrite IH, reverse_cons, list_to_map_app. cbn [list_to_map foldr].
    rewrite insert_empty, insert_union_singleton_l, (assoc_L (∪)). reflexivity.
Qed.

Lemma write_members_idemp (ms : list (string * list Byte.byte))
    (dir : gmap string (list Byte.byte)) :
  write_members ms (write_members ms dir) = write_members ms dir.
Proof.
  rewrite !write_members_union, (assoc_L (∪)), (idemp_L (∪)). reflexivity.
Qed.



End InstallFacts.





(** X22.  Installing the same package again, with the same download and
    the same outcome, leaves the disk as the first installation left it:
    the staged file and the package's directory are the same. *)
Theorem reinstall_same_disk file_sha256 tar_extract env package w :
  SyncWorker.sw_disk
    (snd (SyncWorker._process_package file_sha256 tar_extract env package
            (snd (SyncWorker._process_package file_sha256 tar_extract env package w))))
  = SyncWorker.sw_disk
      (snd (SyncWorker._process_package file_sha256 tar_extract env package w)).
Proof.
  unfold SyncWorker._process_package.
  destruct (negb (SyncWorker.manifest_complete package)); cbn; [reflexivity|].
  destruct (SyncWorker.download env) as [e|received|[written|]|content]; cbn;
    try reflexivity; try (rewrite insert_insert_eq; reflexivity).
  destruct (negb (String.eqb _ _)); cbn.
  { rewrite insert_delete_eq, delete_insert_eq, delete_insert_eq. reflexivity. }
  destruct (SyncWorker.mkdir_error env); cbn.
  { rewrite insert_insert_eq. reflexivity. }
  destruct (negb (SyncWorker.complete _)); cbn;
    rewrite lookup_insert_eq; cbn; rewrite write_members_idemp, !insert_insert_eq.
  - reflexivity.
  - rewrite insert_delete_eq, delete_insert_eq, delete_insert_eq. reflexivity.
Qed.

(** ** Polling the packages *)

Section PollFacts.

Variable file_sha256 : list Byte.byte -> string.
Variable tar_extract : list Byte.byte -> SyncWorker.Extraction.

(** One package: the store is not written; the reload is requested when
    the package installs; the function is left by an exception exactly
    when the installation aborts. *)
Lemma process_package_outcome env package w :
  let out := SyncWorker._process_package file_sha256 tar_extract env package w in
  SyncWorker.sw_store (snd out) = SyncWorker.sw_store w
  /\ SyncWorker.sw_reloads (snd out)
     = (SyncWorker.sw_reloads w ++
        if installs file_sha256 tar_extract env package
        then [default "" (SyncWorker.version package)] else [])%list
  /\ (aborts file_sha256 env package = false -> fst out = Ok tt)
  /\ (aborts file_sha256 env package = true ->
      installs file_sha256 tar_extract env package = false
      /\ exists e, fst out = Raise e).
Proof.
  cbv zeta. unfold SyncWorker._process_package, installs, aborts.
  destruct (SyncWorker.manifest_complete package); cbn;
    [|repeat split; try discriminate; symmetry; apply app_nil_r].
  destruct (SyncWorker.download env) as [e|received|[written|]|content]; cbn;
    try (repeat split; try discriminate; eauto; symmetry; apply app_nil_r).
  destruct (String.eqb _ _); cbn;
    [|repeat split; try discriminate; symmetry; apply app_nil_r].
  destruct (SyncWorker.mkdir_error env) as [err|]; cbn.
  { repeat split; try discriminate; eauto; symmetry; apply app_nil_r. }
  destruct (SyncWorker.complete _); cbn;
    repeat split; try discriminate; try reflexivity; symmetry; apply app_nil_r.
Qed.

Variable env_at : nat -> SyncWorker.SyncEnv.

(** The loop over the packages. *)
Lemma process_packages_outcome packages : forall i w,
  let out := SyncPoll.process_packages file_sha256 tar_extract env_at i packages w in
  SyncWorker.sw_store (snd out) = SyncWorker.sw_store w
  /\ ((forall k package,
         packages !! k = Some package ->
         aborts file_sha256 (env_at (i + k)%nat) package = false) ->
      fst out = Ok tt
      /\ SyncWorker.sw_reloads (snd out)
         = (SyncWorker.sw_reloads w
            ++ reloaded file_sha256 tar_extract env_at i packages)%list)
  /\ (forall k package,
        packages !! k = Some package ->
        aborts file_sha256 (env_at (i + k)%nat) package = true ->
        (forall j package',
           (j < k)%nat -> packages !! j = Some package' ->
           aborts file_sha256 (env_at (i + j)%nat) package' = false) ->
        (exists e, fst out = Raise e)
        /\ SyncWorker.sw_reloads (snd out)
           = (SyncWorker.sw_reloads w
              ++ reloaded file_sha256 tar_extract env_at i (take k packages))%list).
Proof.
  induction packages as [|package rest IH]; intros i w; cbv zeta;
    cbn [SyncPoll.process_packages reloaded].
  - split; [reflexivity|]. split.
    + intros _. split; [reflexivity | symmetry; apply app_nil_r].
    + intros k p Hk. discriminate.
  - destruct (process_package_outcome (env_at i) package w)
      as (Hs1 & Hr1 & Hok1 & Hraise1).
    destruct (SyncWorker._process_package file_sha256 tar_extract (env_at i) package w)
      as [[[]|e] w1] eqn:Hrun; cbn [fst snd] in *.
    + destruct (IH (S i) w1) as (Hs & Hok & Hraise).
      assert (Hab : aborts file_sha256 (env_at i) package = false).
      { destruct (aborts file_sha256 (env_at i) package); [|reflexivity].
        destruct (Hraise1 eq_refl) as [_ [e He]]. discriminate. }
      split; [rewrite Hs; exact Hs1|]. split.
      * intros Hno. destruct Hok as [Hfst Hrel].
        { intros k p Hk. replace (S i + k)%nat with (i + S k)%nat by lia.
          apply Hno. exact Hk. }
        split; [exact Hfst|]. rewrite Hrel, Hr1, <- app_assoc. reflexivity.
      * intros k p Hk Hp Hbefore.
        destruct k as [|k].
        { cbn in Hk. injection Hk as <-. rewrite Nat.add_0_r in Hp.
          rewrite Hp in Hab. discriminate. }
        cbn in Hk.
        destruct (Hraise k p Hk) as [Hfst Hrel].
        { replace (S i + k)%nat with (i + S k)%nat by lia. exact Hp. }
        { intros j p' Hj Hp'. replace (S i + j)%nat with (i + S j)%nat by lia.
          apply (Hbefore (S j) p'); [lia | exact Hp']. }
        split; [exact Hfst|]. cbn [take reloaded].
        rewrite Hrel, Hr1, <- app_assoc. reflexivity.
    + assert (Hab : aborts file_sha256 (env_at i) package = true).
      { destruct (aborts file_sha256 (env_at i) package); [reflexivity|].
        specialize (Hok1 eq_refl). discriminate. }
      destruct (Hraise1 Hab) as [Hinst _]. rewrite Hinst, app_nil_r in Hr1.
      split; [exact Hs1|]. split.
      * intros Hno. specialize (Hno 0%nat package eq_refl).
        rewrite Nat.add_0_r, Hab in Hno. discriminate.
      * intros k p Hk Hp Hbefore. split; [eauto|].
        destruct k as [|k]; [cbn; rewrite app_nil_r; exact Hr1|].
        specialize (Hbefore 0%nat package ltac:(lia) eq_refl).
        rewrite Nat.add_0_r, Hab in Hbefore. discriminate.
Qed.

Lemma poll_packages_store reply w :
  SyncWorker.sw_store
    (snd (SyncPoll._poll_packages file_sha256 tar_extract env_at reply w))
  = SyncWorker.sw_store w.
Proof.
  unfold SyncPoll._poll_packages.
  destruct (raise_for_status reply) as [[packages|]|e]; cbn [snd]; try reflexivity.
  destruct (process_packages_outcome packages 0 w) as [Hs _].
  destruct (SyncPoll.process_packages file_sha256 tar_extract env_at 0 packages w)
    as [[[]|e] w1]; exact Hs.
Qed.

End PollFacts.

(** X23.  A poll of the packages never writes the store.  A package
    that does not install (incomplete entry, download error, SHA-256
    mismatch, incomplete extraction) does not stop the next: when no
    installation is left by an [OSError] (from writing the staging file or
    making the directory), the poll returns and the reload endpoint has
    been asked once for each package of the manifest that installs, in
    manifest order, and for no other.  The first installation that is left
    by such an error ends the poll with that exception: the packages
    after it are not processed.  A request error, or a reply that is not
    JSON, is logged and leaves the world as it is. *)
Theorem poll_packages_reloads file_sha256 tar_extract env_at reply w :
  let out := SyncPoll._poll_packages file_sha256 tar_extract env_at reply w in
  SyncWorker.sw_store (snd out) = SyncWorker.sw_store w
  /\ (forall packages,
        raise_for_status reply = Ok (Some packages) ->
        (forall k package,
           packages !! k = Some package ->
           aborts file_sha256 (env_at k) package = false) ->
        fst out = Ok None
        /\ SyncWorker.sw_reloads (snd out)
           = (SyncWorker.sw_reloads w
              ++ reloaded file_sha256 tar_extract env_at 0 packages)%list)
  /\ (forall packages k package,
        raise_for_status reply = Ok (Some packages) ->
        packages !! k = Some package ->
        aborts file_sha256 (env_at k) package = true ->
        (forall j package',
           (j < k)%nat -> packages !! j = Some package' ->
           aborts file_sha256 (env_at j) package' = false) ->
        (exists e, fst out = Raise e)
        /\ SyncWorker.sw_reloads (snd out)
           = (SyncWorker.sw_reloads w
              ++ reloaded file_sha256 tar_extract env_at 0 (take k packages))%list)
  /\ ((forall packages, raise_for_status reply <> Ok (Some packages)) ->
      snd out = w /\ exists e, fst out = Ok (Some e)).
Proof.
  cbv zeta. split; [apply poll_packages_store|].
  unfold SyncPoll._poll_packages.
  destruct (raise_for_status reply) as [[packages|]|e]; cbn [fst snd].
  - destruct (process_packages_outcome file_sha256 tar_extract env_at packages 0 w)
      as (_ & Hok & Hraise).
    cbn [Nat.add] in Hok, Hraise.
    destruct (SyncPoll.process_packages file_sha256 tar_extract env_at 0 packages w)
      as [[[]|e] w1]; cbn [fst snd] in *.
    + split; [|split].
      * intros ps [= <-] Hno. destruct (Hok Hno) as [_ Hr]. split; [reflexivity | exact Hr].
      * intros ps k p [= <-] Hk Hp Hbefore.
        destruct (Hraise k p Hk Hp Hbefore) as [[e He] _]. discriminate.
      * intros H. destruct (H packages eq_refl).
    + split; [|split].
      * intros ps [= <-] Hno. destruct (Hok Hno) as [He _]. discriminate.
      * intros ps k p [= <-] Hk Hp Hbefore.
        destruct (Hraise k p Hk Hp Hbefore) as [_ Hr]. split; [eauto | exact Hr].
      * intros H. destruct (H packages eq_refl).
  - split; [intros ps H; discriminate|]. split; [intros ps k p H; discriminate|].
    intros _. split; [reflexivity | eauto].
  - split; [intros ps H; discriminate|]. split; [intros ps k p H; discriminate|].
    intros _. split; [reflexivity | eauto].
Qed.

Lemma poll_packages_reloads_witness :
  SyncWorker.sw_reloads
    (snd (SyncPoll._poll_packages Scenario.archive_digest Scenario.untar
            (fun i => match i with
                      | O => SyncWorker.mkSyncEnv (SyncWorker.DownloadRefused (HTTPError 404))
                               None (Responded 200 tt)
                      | _ => Scenario.sync_env_reload_down
                      end)
            (Responded 200 (Some [Scenario.package; Scenario.package]))
            Scenario.sync_world))
  = ["v2.0"].
Proof.
  destruct (poll_packages_reloads Scenario.archive_digest Scenario.untar
              (fun i => match i with
                        | O => SyncWorker.mkSyncEnv
                                 (SyncWorker.DownloadRefused (HTTPError 404))
                                 None (Responded 200 tt)
                        | _ => Scenario.sync_env_reload_down
                        end)
              (Responded 200 (Some [Scenario.package; Scenario.package]))
              Scenario.sync_world) as (_ & H & _).
  destruct (H [Scenario.package; Scenario.package] eq_refl) as [_ Hr].
  - intros [|[|k]] package Hk; try discriminate; injection Hk as <-; reflexivity.
  - rewrite Hr. reflexivity.
Defined.

(** ** From the enqueued event to the queue again *)

(** X24.  Enqueue, then one iteration of the loop.  An event is inserted
    into a store whose two upload tables are empty; the clip is on disk,
    the presign reply has both URLs and no [upload_id] key, the PUT and the
    completion are accepted; [0 <= retry_backoff_seconds <= 3600] and
    [max_retries > 1].  Then one iteration of the uploader's loop returns
    after the three requests presign, PUT, complete and one sleep: the
    metadata step raises, so the upload is not UPLOADED but back in
    PENDING_UPLOAD with one attempt and the SHA-256 of the clip, without
    [final_url]; the event is still PENDING_UPLOAD, and the upload is
    again in the queue of pending uploads. *)
Theorem enqueue_then_iteration_requeues sha256 config env kb now event_id event_json
    local_clip_path content upload_url final_url :
  0 <= retry_backoff_seconds config <= 3600 ->
  (0 <= random env)%Q ->
  1 < max_retries config ->
  read_file env local_clip_path = Some content ->
  raise_for_status (presign_reply env)
  = Ok (JsonObject (mkPresignedData (Some upload_url) (Some final_url) None)) ->
  upload_url <> "" -> final_url <> "" ->
  raise_for_status (put_reply env) = Ok tt ->
  raise_for_status (complete_reply env) = Ok tt ->
  let row :=
    PendingUpload.mk (String.append "upload-" event_id) event_id local_clip_path 1
      (Some (now_closing env)) "PENDING_UPLOAD" (Some (sha256 content)) None in
  exists s1 w',
    DBManager.insert_event (mkStore [] [] kb) now event_id event_json local_clip_path
    = Ok (s1, (event_id, String.append "upload-" event_id))
    /\ UploaderLoop.run_iteration sha256 config (fun _ => env) (mkWorld s1 []) = (Ok tt, w')
    /\ map kind_of (w_trace w') = [KPresign; KPut; KComplete; KSleep]
    /\ pending_uploads (w_store w') = [row]
    /\ events (w_store w') = [Event.mk event_id event_json "PENDING_UPLOAD" now now]
    /\ DBManager.get_pending_uploads (w_store w') 10 = [row].
Proof.
  intros HB Hr0 Hmax Hfile Hpresign Hurl Hfinal Hput Hcomplete row.
  set (uid := String.append "upload-" event_id) in *.
  set (upload := PendingUpload.mk uid event_id local_clip_path 0 None "PENDING_UPLOAD"
                   None None).
  set (event := Event.mk event_id event_json "PENDING_UPLOAD" now now).
  set (s1 := mkStore [event] [upload] kb).
  assert (Hrow : DBManager.get_upload s1 uid = Some upload).
  { unfold DBManager.get_upload. cbn. rewrite String.eqb_refl. reflexivity. }
  assert (Hevent : DBManager.get_event s1 event_id = Some event).
  { unfold DBManager.get_event. cbn. rewrite String.eqb_refl. reflexivity. }
  destruct (process_upload_best_case sha256 config env upload (mkWorld s1 []) event content
              upload_url final_url HB ltac:(cbn; lia) Hr0 Hfile Hpresign Hurl Hfinal Hput
              Hcomplete Hrow Hevent)
    as (w' & sleeps & Hrun & Htrace & Hsleeps & Hrow' & Hevent').
  cbn [PendingUpload.attempts PendingUpload.upload_id PendingUpload.event_id
       PendingUpload.filepath PendingUpload.final_url upload] in *.
  assert (Hretry : (0 + 1 <? max_retries config) = true) by (apply Z.ltb_lt; lia).
  rewrite Hretry in Hsleeps, Hrow', Hevent'.
  destruct Hsleeps as (seconds & -> & _).
  exists s1, w'. split; [reflexivity|].
  pose proof (on_stores_process_upload identity_kept identity_kept_refl identity_kept_trans
                identity_kept_update sha256 config env upload (mkWorld s1 []))
    as (Hup & Hev & _).
  rewrite Hrun in Hup, Hev. cbn [snd w_store] in Hup, Hev.
  assert (Hrows : pending_uploads (w_store w') = [row]).
  { unfold DBManager.get_upload in Hrow'.
    destruct (pending_uploads (w_store w')) as [|r [|r2 rest]]; try discriminate.
    cbn in Hup. injection Hup as Hr. cbn [find] in Hrow'.
    destruct (String.eqb (PendingUpload.upload_id r) uid); [|discriminate].
    injection Hrow' as ->. reflexivity. }
  assert (Hevents : events (w_store w') = [event]).
  { unfold DBManager.get_event in Hevent'.
    destruct (events (w_store w')) as [|e [|e2 rest]]; try discriminate.
    cbn [find] in Hevent'.
    destruct (String.eqb (Event.event_id e) event_id); [|discriminate].
    injection Hevent' as ->. reflexivity. }
  split.
  { unfold UploaderLoop.run_iteration, try_except, bind, get_store. cbn [w_store].
    change (DBManager.get_pending_uploads s1 10) with [upload].
    cbn [UploaderLoop.process_all]. unfold bind. rewrite Hrun. reflexivity. }
  split; [rewrite Htrace; reflexivity|].
  split; [exact Hrows|]. split; [exact Hevents|].
  unfold DBManager.get_pending_uploads. rewrite Hrows. reflexivity.
Qed.

Lemma enqueue_then_iteration_requeues_witness :
  exists s1 w',
    DBManager.insert_event (mkStore [] [] []) 1 "evt-test-002" "{}" "/tmp/clip.mkv"
    = Ok (s1, ("evt-test-002", String.append "upload-" "evt-test-002"))
    /\ UploaderLoop.run_iteration Scenario.digest Scenario.config
         (fun _ => Scenario.env_mkv) (mkWorld s1 []) = (Ok tt, w')
    /\ map kind_of (w_trace w') = [KPresign; KPut; KComplete; KSleep]
    /\ pending_uploads (w_store w')
       = [PendingUpload.mk (String.append "upload-" "evt-test-002") "evt-test-002"
            "/tmp/clip.mkv" 1 (Some 20) "PENDING_UPLOAD"
            (Some (Scenario.digest Scenario.clip)) None]
    /\ events (w_store w') = [Event.mk "evt-test-002" "{}" "PENDING_UPLOAD" 1 1]
    /\ DBManager.get_pending_uploads (w_store w') 10
       = [PendingUpload.mk (String.append "upload-" "evt-test-002") "evt-test-002"
            "/tmp/clip.mkv" 1 (Some 20) "PENDING_UPLOAD"
            (Some (Scenario.digest Scenario.clip)) None].
Proof.
  apply (enqueue_then_iteration_requeues Scenario.digest Scenario.config Scenario.env_mkv
           [] 1 "evt-test-002" "{}" "/tmp/clip.mkv" Scenario.clip
           "http://m/u2" "https://cdn/u2");
    first [reflexivity | discriminate | cbn; lia | cbn; lra].
Defined.

(** ** The sync worker and the upload tables *)

(** X25.  A sync never writes the events or the pending uploads, and
    the knowledge-base log only grows: whatever the replies, after
    [run_sync] both upload tables are as before and the log is the old one
    followed by at most one new row. *)
Theorem run_sync_keeps_upload_tables file_sha256 tar_extract env_at packages_reply
    manifest_reply now w :
  let s' := SyncWorker.sw_store
              (snd (SyncPoll.run_sync file_sha256 tar_extract env_at packages_reply
                      manifest_reply now w)) in
  events s' = events (SyncWorker.sw_store w)
  /\ pending_uploads s' = pending_uploads (SyncWorker.sw_store w)
  /\ exists new,
       kb_meta s' = (kb_meta (SyncWorker.sw_store w) ++ new)%list /\ (length new <= 1)%nat.
Proof.
  cbv zeta. unfold SyncPoll.run_sync.
  pose proof (poll_packages_store file_sha256 tar_extract env_at packages_reply w)
    as Hstore.
  assert (Hnil : exists new,
             kb_meta (SyncWorker.sw_store w)
             = (kb_meta (SyncWorker.sw_store w) ++ new)%list /\ (length new <= 1)%nat).
  { exists []. split; [symmetry; apply app_nil_r | cbn; lia]. }
  destruct (SyncPoll._poll_packages file_sha256 tar_extract env_at packages_reply w)
    as [[logged|e] w1]; cbn [snd SyncWorker.sw_store] in *.
  2: { rewrite Hstore. repeat split. exact Hnil. }
  rewrite Hstore. unfold SyncPoll._poll_kb_manifest.
  destruct (raise_for_status manifest_reply) as [[|manifest]|e]; cbn [fst];
    try (repeat split; exact Hnil).
  destruct (_ && _); cbn [fst]; [|repeat split; exact Hnil].
  repeat split. eexists. split; [reflexivity | cbn; lia].
Qed.

(** ** The content type declared to the server *)

Section PathFacts.

Lemma rsplit_absent c s :
  ~ In c (list_ascii_of_string s) -> rsplit c s = None.
Proof.
  induction s as [|a s IH]; cbn; [reflexivity|]. intros Hin.
  rewrite IH by (intros H; apply Hin; right; exact H).
  destruct (Ascii.eqb_spec a c) as [->|Hne]; [|reflexivity].
  destruct Hin. left. reflexivity.
Qed.

Lemma rsplit_last c s1 s2 :
  ~ In c (list_ascii_of_string s2) ->
  rsplit c (String.append s1 (String c s2)) = Some (s1, String c s2).
Proof.
  intros Hin. induction s1 as [|a s1 IH].
  - change (match rsplit c s2 with
            | Some (pre, suf) => Some (String c pre, suf)
            | None => if Ascii.eqb c c then Some (EmptyString, String c s2) else None
            end = Some (EmptyString, String c s2)).
    rewrite (rsplit_absent c s2 Hin), Ascii.eqb_refl. reflexivity.
  - change (match rsplit c (String.append s1 (String c s2)) with
            | Some (pre, suf) => Some (String a pre, suf)
            | None => if Ascii.eqb a c
                      then Some (EmptyString, String a (String.append s1 (String c s2)))
                      else None
            end = Some (String a s1, String c s2)).
    rewrite IH. reflexivity.
Qed.

Lemma list_ascii_of_string_app s1 s2 :
  list_ascii_of_string (String.append s1 s2)
  = (list_ascii_of_string s1 ++ list_ascii_of_string s2)%list.
Proof.
  induction s1 as [|a s1 IH]; [reflexivity|].
  change (a :: list_ascii_of_string (String.append s1 s2)
          = a :: (list_ascii_of_string s1 ++ list_ascii_of_string s2)%list).
  rewrite IH. reflexivity.
Qed.

End PathFacts.

(** X26.  The content type of the presign request depends on the last
    extension of the file name only, whatever its letter case.  For a path
    [dir/stem.ext] whose stem does not begin with a dot and whose
    extension is not empty and has no dot, it is [video/mp4] exactly when
    the extension is [mp4] in some letter case; a file name without a dot,
    and a hidden file whose name is only a dot and an extension, are
    [application/octet-stream]. *)
Theorem content_type_by_last_extension dir stem ext :
  ~ In "/"%char (list_ascii_of_string stem) ->
  ~ In "/"%char (list_ascii_of_string ext) ->
  ~ In "."%char (list_ascii_of_string ext) ->
  ext <> "" ->
  (forall a rest,
     stem = String a rest -> a <> "."%char ->
     Uploader.content_type_of
       (String.append dir (String "/" (String.append stem (String "." ext))))
     = if String.eqb (lower ext) "mp4" then "video/mp4" else "application/octet-stream")
  /\ Uploader.content_type_of (String.append dir (String "/" (String "." ext)))
     = "application/octet-stream"
  /\ Uploader.content_type_of (String.append dir (String "/" ext))
     = "application/octet-stream".
Proof.
  intros Hstem Hext Hdot He.
  assert (Hname : forall name,
             ~ In "/"%char (list_ascii_of_string name) ->
             path_name (String.append dir (String "/" name)) = name).
  { intros name Hn. unfold path_name. rewrite (rsplit_last "/" dir name Hn). reflexivity. }
  unfold Uploader.content_type_of, path_suffix.
  split; [|split].
  - intros a rest Hs _. rewrite Hname.
    2: { rewrite list_ascii_of_string_app. cbn. intros H.
         apply in_app_or in H as [H|[H|H]]; [exact (Hstem H) | discriminate | exact (Hext H)]. }
    rewrite (rsplit_last "." stem ext Hdot). subst stem.
    destruct ext as [|b ext]; [destruct (He eq_refl)|].
    cbn [String.length Nat.ltb Nat.leb andb lower].
    destruct (String.eqb_spec (String (lower_ascii b) (lower ext)) "mp4") as [Heq|Hne].
    + rewrite Heq. reflexivity.
    + destruct (String.eqb_spec (String (lower_ascii ".") (String (lower_ascii b) (lower ext)))
                  ".mp4") as [Heq|_]; [|reflexivity].
      injection Heq as Heq1 Heq2. destruct Hne. rewrite Heq1, Heq2. reflexivity.
  - rewrite Hname.
    2: { cbn. intros [H|H]; [discriminate | exact (Hext H)]. }
    pose proof (rsplit_last "." "" ext Hdot) as Hsplit.
    change (String.append "" (String "." ext)) with (String "." ext) in Hsplit.
    rewrite Hsplit. reflexivity.
  - rewrite (Hname ext Hext), (rsplit_absent "." ext Hdot). reflexivity.
Qed.

Lemma content_type_by_last_extension_witness :
  Uploader.content_type_of
    (String.append "/var/lib/vss/clips/cam-01" (String "/" (String.append "20251116_100230"
                                                              (String "." "MP4"))))
  = (if String.eqb (lower "MP4") "mp4" then "video/mp4" else "application/octet-stream").
Proof.
  apply (proj1 (content_type_by_last_extension "/var/lib/vss/clips/cam-01" "20251116_100230"
                  "MP4" ltac:(cbn; intuition discriminate) ltac:(cbn; intuition discriminate)
                  ltac:(cbn; intuition discriminate) ltac:(discriminate))
           "2"%char "0251116_100230" eq_refl); discriminate.
Defined.

(** ** The PUT request *)

(** X27.  Every PUT a transaction makes carries, in
    [x-amz-checksum-sha256], the SHA-256 of the very bytes it sends, and
    the literal Content-Type [video/mp4], whatever the replies and the
    file's name. *)
Theorem put_request_headers sha256 config env upload w :
  exists new,
    w_trace (snd (Uploader.process_upload sha256 config env upload w))
    = (w_trace w ++ new)%list
    /\ forall upload_url data content_type checksum,
         PutRequest upload_url data content_type checksum ∈ new ->
         content_type = "video/mp4" /\ checksum = sha256 data.
Proof.
  destruct (process_upload_put_headers sha256 config env upload w) as (new & Htrace & Hall).
  exists new. split; [exact Htrace|].
  intros upload_url data content_type checksum Hin.
  rewrite Forall_forall in Hall. exact (Hall _ Hin).
Qed.

(** ** No delivery *)

Section DeliveryFacts.

Lemma nothing_delivered_refl w : nothing_delivered w w.
Proof.
  split; [auto|]. split; [auto|].
  exists []. split; [symmetry; apply app_nil_r | constructor].
Qed.

Lemma nothing_delivered_trans w1 w2 w3 :
  nothing_delivered w1 w2 -> nothing_delivered w2 w3 -> nothing_delivered w1 w3.
Proof.
  intros (Hu12 & He12 & n1 & Ht1 & Hf1) (Hu23 & He23 & n2 & Ht2 & Hf2).
  split; [|split].
  - intros id r Hget Hst. apply Hu12; [apply Hu23; assumption | exact Hst].
  - intros eid e Hget Hst. apply He12; [apply He23; assumption | exact Hst].
  - exists (n1 ++ n2)%list. split.
    + rewrite Ht2, Ht1, app_assoc. reflexivity.
    + apply Forall_app. split; assumption.
Qed.

Lemma nothing_delivered_emit e :
  kind_of e <> KMetadata -> keeps nothing_delivered (emit e).
Proof.
  intros He w. split; [auto|]. split; [auto|].
  exists [e]. split; [reflexivity | repeat constructor; exact He].
Qed.

(** A status update to a status other than UPLOADED delivers nothing. *)
Lemma nothing_delivered_db_update now uid status kw :
  status <> "UPLOADED" ->
  keeps nothing_delivered (db_update_upload_status now uid status kw).
Proof.
  intros Hst w. unfold db_update_upload_status.
  destruct (DBManager.update_upload_status (w_store w) now uid status kw)
    as [s'|e] eqn:Hupd; [|apply nothing_delivered_refl].
  cbn [snd]. split; [|split]; cbn [w_store w_trace].
  - intros id r Hget Hr.
    rewrite (get_upload_update_upload_status _ _ _ _ _ _ id Hupd) in Hget.
    destruct (DBManager.get_upload (w_store w) id) as [r0|]; [|discriminate].
    cbn in Hget. destruct (String.eqb id uid).
    + injection Hget as <-. cbn in Hr. destruct (Hst Hr).
    + exact Hget.
  - intros eid e Hget He.
    destruct (update_upload_status_tables _ _ _ _ _ _ Hupd) as (_ & _ & Hev).
    unfold DBManager.get_event in *. rewrite Hev in Hget.
    destruct (DBManager.get_upload (w_store w) uid) as [r0|]; [|exact Hget].
    destruct (DBManager.is_final status); [|exact Hget].
    rewrite find_update_events in Hget.
    destruct (find _ (events (w_store w))) as [e0|]; [|discriminate].
    cbn in Hget. destruct (String.eqb eid (PendingUpload.event_id r0)).
    + injection Hget as <-. cbn in He. destruct (Hst He).
    + exact Hget.
  - exists []. split; [symmetry; apply app_nil_r | constructor].
Qed.

Lemma nothing_delivered_handle_failure config env upload status_code :
  keeps nothing_delivered (Uploader._handle_failure config env upload status_code).
Proof.
  unfold Uploader._handle_failure, Uploader.sleep.
  repeat first
    [ apply nothing_delivered_emit; discriminate
    | apply nothing_delivered_db_update; discriminate
    | keeps_step nothing_delivered_refl nothing_delivered_trans ].
Qed.

Lemma nothing_delivered_process_upload sha256 config env upload :
  keeps nothing_delivered (Uploader.process_upload sha256 config env upload).
Proof.
  unfold Uploader.process_upload.
  destruct (read_file env (PendingUpload.filepath upload)) as [content|] eqn:Hfile;
    [|apply nothing_delivered_db_update; discriminate].
  apply (keeps_try_except _ nothing_delivered_trans).
  - unfold Uploader.upload_steps, Uploader.calculate_sha256,
      Uploader._request_presigned_url, Uploader._upload_file,
      Uploader._complete_upload, Uploader._post_metadata.
    change (DBManager.hasattr "Event") with false. cbv iota.
    repeat first
      [ apply nothing_delivered_emit; discriminate
      | apply nothing_delivered_db_update; discriminate
      | keeps_step nothing_delivered_refl nothing_delivered_trans ].
  - intros e. destruct e; apply nothing_delivered_handle_failure.
Qed.

Lemma nothing_delivered_process_all sha256 config env_for uploads :
  keeps nothing_delivered (UploaderLoop.process_all sha256 config env_for uploads).
Proof.
  induction uploads as [|upload rest IH]; cbn [UploaderLoop.process_all].
  - apply (keeps_ret _ nothing_delivered_refl).
  - apply (keeps_bind _ nothing_delivered_trans);
      [apply nothing_delivered_process_upload|].
    intros _. exact IH.
Qed.

End DeliveryFacts.

(** X28.  The uploader delivers nothing.  [_post_metadata] reads an
    attribute [Event] that the store manager does not have and raises
    before it asks the metadata endpoint, so the UPLOADED update that
    follows it is never reached: whatever the replies, after a transaction
    and after an iteration of the loop no metadata request has been made,
    and a row or an event that is UPLOADED was already so, unchanged,
    before. *)
Theorem uploader_delivers_nothing :
  (forall sha256 config env upload w,
     nothing_delivered w (snd (Uploader.process_upload sha256 config env upload w)))
  /\ (forall sha256 config env_for w,
        nothing_delivered w (snd (UploaderLoop.run_iteration sha256 config env_for w))).
Proof.
  split.
  - intros sha256 config env upload. apply nothing_delivered_process_upload.
  - intros sha256 config env_for. unfold UploaderLoop.run_iteration.
    apply (keeps_try_except _ nothing_delivered_trans);
      [|intros e; apply nothing_delivered_emit; discriminate].
    apply (keeps_bind _ nothing_delivered_trans);
      [apply (keeps_get_store _ nothing_delivered_refl)|].
    intros s. destruct (DBManager.get_pending_uploads s 10) as [|u rest].
    + apply nothing_delivered_emit. discriminate.
    + apply nothing_delivered_process_all.
Qed.
